(** * AI-Tutor backend: document chunker and query handler

    A shallow embedding of [services/document_chunker.py] and
    [services/query_handler.py] (with the WebSocket turn of [main.py]),
    followed by the properties of the retrieval pipeline and of the query
    orchestration stated over it.

    Python values are modelled as follows: an [int] is a [Z]; a [str] is the
    list of its Unicode code points; a [float] is a binary64 primitive float;
    a [list] is a [list]; [None] is [None] of an [option]; a dictionary with a
    fixed set of keys is a record, a key that may be missing an [option]
    field. *)

From Stdlib Require Import String Ascii DecimalString.
From Stdlib Require Import List ZArith NArith Lia Bool.
From Stdlib Require Import Floats.PrimFloat.
Import ListNotations.

Set Warnings "-inexact-float".
Local Open Scope Z_scope.

(* ================================================================== *)
(** * Python strings *)
(* ================================================================== *)

(** A character is a Unicode code point, a [str] the list of them. *)
Definition char := N.
Definition str := list char.

(** A literal of the source, written as a Rocq string (ASCII only). *)
Definition py (s : string) : str := map N_of_ascii (list_ascii_of_string s).

(** [len(s)] *)
Definition len {A : Type} (l : list A) : Z := Z.of_nat (length l).

(** [c.isspace()] for one code point: the code points CPython's
    [_PyUnicode_IsWhitespace] accepts. *)
Definition isspace (c : char) : bool :=
  (((9 <=? c) && (c <=? 13)) || ((28 <=? c) && (c <=? 32))
   || (c =? 133) || (c =? 160) || (c =? 5760)
   || ((8192 <=? c) && (c <=? 8202))
   || (c =? 8232) || (c =? 8233) || (c =? 8239) || (c =? 8287)
   || (c =? 12288))%N.

(** [s.lstrip()], [s.rstrip()], [s.strip()] *)
Fixpoint lstrip (s : str) : str :=
  match s with
  | [] => []
  | c :: s' => if isspace c then lstrip s' else s
  end.

Definition rstrip (s : str) : str := rev (lstrip (rev s)).

Definition strip (s : str) : str := rstrip (lstrip s).

(** Python's reading of a slice bound [i] against a sequence of length [n]:
    a negative bound counts from the end, and the result is clamped to
    [0..n]. *)
Definition clamp_index (n i : Z) : Z :=
  if i <? 0 then Z.max (i + n) 0 else Z.min i n.

(** [s[a:b]] *)
Definition slice {A : Type} (s : list A) (a b : Z) : list A :=
  let a' := clamp_index (len s) a in
  let b' := clamp_index (len s) b in
  firstn (Z.to_nat (b' - a')) (skipn (Z.to_nat a') s).

(** The index of the last [c] in [l], whose first element has index [i];
    [found] when there is none. *)
Fixpoint last_index (c : char) (l : str) (i found : Z) : Z :=
  match l with
  | [] => found
  | x :: l' => last_index c l' (i + 1) (if (x =? c)%N then i else found)
  end.

(** [s.rfind(c, a, b)] for a one-character [c]: the highest index in
    [s[a:b]] that holds [c], [-1] when there is none. *)
Definition rfind (s : str) (c : char) (a b : Z) : Z :=
  last_index c (slice s a b) (clamp_index (len s) a) (-1).

(** [sep.join(parts)] *)
Fixpoint join (sep : str) (parts : list str) : str :=
  match parts with
  | [] => []
  | [p] => p
  | p :: ps => p ++ sep ++ join sep ps
  end.

(** [s.split()]: the maximal runs of non-whitespace characters.  [cur] is
    the run being read, reversed. *)
Fixpoint split_go (s : str) (cur : str) : list str :=
  match s with
  | [] => match cur with [] => [] | _ => [rev cur] end
  | c :: s' =>
      if isspace c
      then match cur with
           | [] => split_go s' []
           | _ => rev cur :: split_go s' []
           end
      else split_go s' (c :: cur)
  end.

Definition split (s : str) : list str := split_go s [].

(** [str(n)] for a non-negative integer. *)
Definition str_of_nat (n : nat) : str :=
  py (NilEmpty.string_of_uint (Nat.to_uint n)).

(** [range(0, n, step)] for a positive [step]. *)
Definition range_step (n step : nat) : list nat :=
  map (fun k => (k * step)%nat) (seq 0 ((n + step - 1) / step)).

(* ================================================================== *)
(** * services/document_chunker.py *)
(* ================================================================== *)

(** The two parameters [DocumentChunker.__init__] stores. *)
Record DocumentChunker := {
  chunk_size : Z;
  chunk_overlap : Z
}.

(** [DocumentChunker()] with the defaults of [__init__]. *)
Definition default_chunker : DocumentChunker :=
  {| chunk_size := 1000; chunk_overlap := 200 |}.

(** The ['metadata'] dictionary of a chunk. *)
Record ChunkMetadata := {
  md_chunk_size : Z;
  md_source : str;
  md_total_chunks : Z
}.

(** The dictionary [chunk_text] appends for each chunk. *)
Record Chunk := {
  text : str;
  start_pos : Z;
  end_pos : Z;
  chunk_id : Z;
  metadata : ChunkMetadata
}.

Definition full_stop : char := 46%N.

(** The end of the chunk that starts at [start]: [start + chunk_size], moved
    back to just after the last full stop of the final 200 characters of the
    window when the window ends before the text does. *)
Definition chunk_end (self : DocumentChunker) (txt : str) (start : Z) : Z :=
  let end_ := start + chunk_size self in
  if end_ <? len txt then
    let search_start := Z.max start (end_ - 200) in
    let sentence_end := rfind txt full_stop search_start end_ in
    if sentence_end >? start then sentence_end + 1 else end_
  else end_.

(** The [while start < len(text)] loop of [chunk_text].  Each unit of
    [fuel] pays for one test of the loop condition; [None] is a loop that
    is still running when the fuel is spent. *)
Fixpoint chunk_loop (fuel : nat) (self : DocumentChunker) (txt source : str)
  (chunks : list Chunk) (start chunk_id : Z) : option (list Chunk) :=
  match fuel with
  | O => None
  | S fuel' =>
      if start <? len txt then
        let end_ := chunk_end self txt start in
        let chunk_text := strip (slice txt start end_) in
        let chunks' :=
          match chunk_text with
          | [] => chunks
          | _ => chunks ++ [ {| text := chunk_text;
                                start_pos := start;
                                end_pos := end_;
                                chunk_id := chunk_id;
                                metadata := {| md_chunk_size := len chunk_text;
                                               md_source := source;
                                               md_total_chunks := 0 |} |} ]
          end in
        let chunk_id' :=
          match chunk_text with [] => chunk_id | _ => chunk_id + 1 end in
        let start' := end_ - chunk_overlap self in
        if start' >=? len txt then Some chunks'
        else chunk_loop fuel' self txt source chunks' start' chunk_id'
      else Some chunks
  end.

(** [chunk['metadata']['total_chunks'] = len(chunks)] *)
Definition set_total_chunks (n : Z) (c : Chunk) : Chunk :=
  {| text := text c; start_pos := start_pos c; end_pos := end_pos c;
     chunk_id := chunk_id c;
     metadata := {| md_chunk_size := md_chunk_size (metadata c);
                    md_source := md_source (metadata c);
                    md_total_chunks := n |} |}.

(** [DocumentChunker.chunk_text(text, source)] *)
Definition chunk_text (self : DocumentChunker) (fuel : nat) (txt source : str)
  : option (list Chunk) :=
  match strip txt with
  | [] => Some []
  | _ =>
      match chunk_loop fuel self txt source [] 0 0 with
      | None => None
      | Some chunks => Some (map (set_total_chunks (len chunks)) chunks)
      end
  end.

(* ================================================================== *)
(** * State, exceptions and collaborators of the query handler *)
(* ================================================================== *)

(** An exception, as far as the handler looks at it: its [str(e)]. *)
Definition exn := str.

(** [datetime.now().isoformat()]: the reading of the clock, kept as the
    number of the reading. *)
Definition instant := nat.

(** A JSON value where the handler expects a string: a string, or
    something else, of which only its [str()] and the fact that it has no
    string methods matter. *)
Inductive PyValue :=
| PyStr (s : str)
| PyOther (shown : str).

(** An entry of [self.conversation_history]. *)
Record HistoryEntry := {
  h_message : str;
  h_role : str;
  h_user_id : option str;
  h_timestamp : instant
}.

(** An entry of the [conversation_history] a caller passes in; a key that
    is missing is [None]. *)
Record CallerEntry := {
  c_role : option PyValue;
  c_message : option PyValue
}.

(** A dictionary returned by [vector_db.search_similar], with the keys the
    handler reads: ['text'], ['metadata']['filename'], ['distance'],
    ['id']. *)
Record ContextChunk := {
  ctx_text : option str;
  ctx_filename : option str;
  ctx_distance : option float;
  ctx_id : option str
}.

(** A message handed to [manager.send_personal_message], before
    [json.dumps]: ['type'], then ['message'] or ['content'], and
    ['timestamp']. *)
Record Message := {
  m_type : str;
  m_message : option str;
  m_content : option str;
  m_timestamp : instant
}.

(** What [chat.completions.create(..., stream=True)] delivers: the
    [delta.content] of each streamed chunk, and the exception that ends the
    iteration early, if any. *)
Record Stream := {
  deltas : list (option str);
  failure : option exn
}.

(** [self.openai_client], when there is one: [create] is given the system
    and the user prompt.  Without [stream=True] it returns
    [choices[0].message.content] (which may be [None]) or raises. *)
Record OpenAIClient := {
  chat_create : str -> str -> exn + option str;
  chat_stream : str -> str -> exn + Stream
}.

(** The collaborators of a [QueryHandler]: the vector database, the
    OpenAI client ([None] without an API key), the websocket (the call of
    [send_personal_message] number [n] raises [e] when [send_fault n] is
    [Some e]), and the built-in [str.title], whose case tables are not part
    of the repository. *)
Record World := {
  search_similar : str -> Z -> exn + list ContextChunk;
  openai_client : option OpenAIClient;
  send_fault : nat -> option exn;
  str_title : str -> str
}.

(** The mutable state: the history of the handler, the messages delivered
    on the websocket (oldest first), the number of calls of
    [send_personal_message], and the clock. *)
Record State := {
  conversation_history : list HistoryEntry;
  sent : list Message;
  send_count : nat;
  clock : nat
}.

(** [QueryHandler.__init__]: an empty history. *)
Definition initial_state : State :=
  {| conversation_history := []; sent := []; send_count := 0%nat;
     clock := 0%nat |}.

(** A computation that reads and writes the state and returns a value or
    raises; what was written before a [raise] stays written. *)
Definition M (A : Type) : Type := State -> (exn + A) * State.

Definition ret {A : Type} (a : A) : M A := fun s => (inr a, s).

Definition raise {A : Type} (e : exn) : M A := fun s => (inl e, s).

Definition bind {A B : Type} (m : M A) (k : A -> M B) : M B :=
  fun s => match m s with
           | (inr a, s') => k a s'
           | (inl e, s') => (inl e, s')
           end.

(** [try: m  except Exception as e: h e] *)
Definition try_except {A : Type} (m : M A) (h : exn -> M A) : M A :=
  fun s => match m s with
           | (inr a, s') => (inr a, s')
           | (inl e, s') => h e s'
           end.

(** The result of a call that returns or raises. *)
Definition lift {A : Type} (r : exn + A) : M A :=
  match r with inr a => ret a | inl e => raise e end.

Declare Scope handler_scope.
Delimit Scope handler_scope with handler.
Notation "x <- m ;; k" := (bind m (fun x => k))
  (at level 61, m at next level, right associativity) : handler_scope.
Notation "m ;;; k" := (bind m (fun _ => k))
  (at level 61, right associativity) : handler_scope.
Local Open Scope handler_scope.

(** [for x in l: f x] *)
Fixpoint for_each {A : Type} (l : list A) (f : A -> M unit) : M unit :=
  match l with
  | [] => ret tt
  | x :: l' => f x ;;; for_each l' f
  end.

(** [datetime.now().isoformat()] *)
Definition now : M instant :=
  fun s => (inr (clock s),
            {| conversation_history := conversation_history s;
               sent := sent s; send_count := send_count s;
               clock := S (clock s) |}).

(** [await manager.send_personal_message(json.dumps(msg), websocket)] *)
Definition send_personal_message (w : World) (msg : Message) : M unit :=
  fun s =>
    match send_fault w (send_count s) with
    | Some e =>
        (inl e, {| conversation_history := conversation_history s;
                   sent := sent s; send_count := S (send_count s);
                   clock := clock s |})
    | None =>
        (inr tt, {| conversation_history := conversation_history s;
                    sent := sent s ++ [msg]; send_count := S (send_count s);
                    clock := clock s |})
    end.

(** A message with a ['message'] key. *)
Definition notification (type message : str) (t : instant) : Message :=
  {| m_type := type; m_message := Some message; m_content := None;
     m_timestamp := t |}.

(** The ['chunk'] message, with its ['content'] key. *)
Definition chunk_message (content : str) (t : instant) : Message :=
  {| m_type := py "chunk"; m_message := None; m_content := Some content;
     m_timestamp := t |}.

(** Equality of strings and of optional strings ([==]). *)
Fixpoint str_eqb (a b : str) : bool :=
  match a, b with
  | [], [] => true
  | x :: a', y :: b' => (x =? y)%N && str_eqb a' b'
  | _, _ => false
  end.

Definition opt_str_eqb (a b : option str) : bool :=
  match a, b with
  | None, None => true
  | Some x, Some y => str_eqb x y
  | _, _ => false
  end.

(** The truth value of an optional string: [None] and [''] are false. *)
Definition truthy (u : option str) : bool :=
  match u with
  | Some (_ :: _) => true
  | _ => false
  end.

(** The newline character. *)
Definition nl : str := [10%N].

(* ================================================================== *)
(** * utils/prompts.py *)
(* ================================================================== *)

(** [PromptTemplates.SYSTEM_PROMPT] *)
Definition SYSTEM_PROMPT : str := py
"You are an intelligent AI tutor designed to help students learn effectively. Your role is to:

1. Provide clear, accurate explanations of educational concepts
2. Use the provided context from uploaded course materials when available
3. Adapt your teaching style to the student's level
4. Encourage learning and provide helpful guidance
5. Be patient, supportive, and encouraging
6. Ask clarifying questions when needed
7. Provide examples and analogies to aid understanding

Guidelines:
- Always base your responses on the provided context when available
- If context is insufficient, clearly state this and provide general guidance
- Use a conversational, friendly tone
- Break down complex concepts into simpler parts
- Provide practical examples when possible
- Encourage further questions and exploration
- Maintain academic accuracy while being accessible

Remember: Your goal is to help the student learn and understand, not just provide answers.".

Definition no_previous_conversation : str := py "No previous conversation.".

Definition no_relevant_context : str :=
  py "No relevant context found in the uploaded documents.".

(** [s and s != marker] *)
Definition present_and_not (s marker : str) : bool :=
  match s with
  | [] => false
  | _ => negb (str_eqb s marker)
  end.

(** [PromptTemplates.create_tutor_prompt(query, context,
    conversation_history)] *)
Definition create_tutor_prompt (query context conversation_history : str)
  : str :=
  let prompt_parts := [] in
  let prompt_parts :=
    if present_and_not conversation_history no_previous_conversation
    then prompt_parts
         ++ [py "Previous conversation:" ++ nl ++ conversation_history ++ nl]
    else prompt_parts in
  let prompt_parts :=
    if present_and_not context no_relevant_context
    then prompt_parts ++ [py "Relevant course material:" ++ nl ++ context ++ nl]
    else prompt_parts in
  let prompt_parts := prompt_parts ++ [py "Student's question: " ++ query] in
  let prompt_parts :=
    prompt_parts
    ++ [nl ++ py "Please provide a helpful, educational response that addresses the student's question. Use the provided context when relevant, and explain concepts clearly."] in
  join nl prompt_parts.

(* ================================================================== *)
(** * services/query_handler.py *)
(* ================================================================== *)

(** The relevance cutoff of [_get_relevant_context]. *)
Definition relevance_cutoff : float := 0.8%float.

(** [chunk.get('distance', 1.0) < 0.8] *)
Definition is_relevant (chunk : ContextChunk) : bool :=
  PrimFloat.ltb
    (match ctx_distance chunk with Some d => d | None => 1.0%float end)
    relevance_cutoff.

(** The list comprehension of [_get_relevant_context]. *)
Definition filter_relevant (context_chunks : list ContextChunk)
  : list ContextChunk :=
  filter is_relevant context_chunks.

(** [QueryHandler._get_relevant_context(query, n_results=5)] *)
Definition _get_relevant_context (w : World) (query : str) (n_results : Z)
  : M (list ContextChunk) :=
  try_except
    (context_chunks <- lift (search_similar w query n_results) ;;
     ret (filter_relevant context_chunks))
    (fun _ => ret []).

(** [QueryHandler._build_context_text(context_chunks)] *)
Definition _build_context_text (context_chunks : list ContextChunk) : str :=
  match context_chunks with
  | [] => no_relevant_context
  | _ =>
      join (nl ++ nl)
        (map (fun ic : nat * ContextChunk =>
                let (i, chunk) := ic in
                let source := match ctx_filename chunk with
                              | Some f => f
                              | None => py "Unknown source"
                              end in
                let text := match ctx_text chunk with
                            | Some t => t
                            | None => []
                            end in
                py "Context " ++ str_of_nat i ++ py " (from " ++ source
                ++ py "):" ++ nl ++ text)
           (combine (seq 1 (length context_chunks)) context_chunks))
  end.

(** [str(v)] inside an f-string. *)
Definition shown_as (v : PyValue) : str :=
  match v with PyStr s => s | PyOther shown => shown end.

(** One line of [_build_conversation_history]:
    [f"{role.title()}: {message}"]; a role that is not a string has no
    [title] method. *)
Definition history_line (w : World) (entry : CallerEntry) : exn + str :=
  let role := match c_role entry with
              | Some v => v
              | None => PyStr (py "user")
              end in
  let message := match c_message entry with
                 | Some v => v
                 | None => PyStr []
                 end in
  match role with
  | PyStr r => inr (str_title w r ++ py ": " ++ shown_as message)
  | PyOther _ => inl (py "object has no attribute 'title'")
  end.

(** The loop that fills [history_parts]; the first entry that raises ends
    it. *)
Fixpoint history_lines (w : World) (entries : list CallerEntry)
  : exn + list str :=
  match entries with
  | [] => inr []
  | entry :: rest =>
      match history_line w entry with
      | inl e => inl e
      | inr line =>
          match history_lines w rest with
          | inl e => inl e
          | inr lines => inr (line :: lines)
          end
      end
  end.

(** [QueryHandler._build_conversation_history(conversation_history)] *)
Definition _build_conversation_history (w : World)
  (conversation_history : option (list CallerEntry)) : exn + str :=
  match conversation_history with
  | None | Some [] => inr no_previous_conversation
  | Some h =>
      match history_lines w (slice h (-5) (len h)) with
      | inl e => inl e
      | inr history_parts => inr (join nl history_parts)
      end
  end.

(** The sentence about the context that both mock generators start from. *)
Definition context_info (context_chunks : list ContextChunk) : str :=
  match context_chunks with
  | [] => py "I don't have specific information about this topic in your uploaded materials."
  | _ => py "I found " ++ str_of_nat (length context_chunks)
         ++ py " relevant sections in your course materials that address this topic."
  end.

(** [QueryHandler._generate_mock_response(query, context_chunks)] *)
Definition _generate_mock_response (query : str)
  (context_chunks : list ContextChunk) : str :=
  let context_info := context_info context_chunks in
  let mock_responses := [
    py "Great question about '" ++ query ++ py "'! " ++ context_info
      ++ py " Let me explain this concept based on what I know.";
    py "Excellent question! '" ++ query ++ py "' is an important topic. "
      ++ context_info ++ py " Here's what I can tell you about it.";
    py "I'd be happy to help with '" ++ query ++ py "'. " ++ context_info
      ++ py " This is a fundamental concept worth understanding.";
    py "Interesting question about '" ++ query ++ py "'! " ++ context_info
      ++ py " Let me break this down for you." ] in
  let response_index := len query mod len mock_responses in
  let base_response := nth (Z.to_nat response_index) mock_responses [] in
  let educational_additions := [
    nl ++ nl ++ py "This concept is important because it forms the foundation for more advanced topics.";
    nl ++ nl ++ py "Understanding this will help you with related concepts in your studies.";
    nl ++ nl ++ py "This topic often appears in exams and practical applications.";
    nl ++ nl ++ py "Mastering this concept will make future learning much easier." ] in
  let addition_index := len query mod len educational_additions in
  base_response ++ nth (Z.to_nat addition_index) educational_additions [].

(** [l[-20:]] *)
Definition last_20 {A : Type} (l : list A) : list A := slice l (-20) (len l).

(** The list [_add_to_history] leaves in [self.conversation_history]. *)
Definition history_with (history : list HistoryEntry) (entry : HistoryEntry)
  : list HistoryEntry :=
  let history := history ++ [entry] in
  if len history >? 20 then last_20 history else history.

(** [QueryHandler._add_to_history(message, role, user_id)] *)
Definition _add_to_history (message role : str) (user_id : option str)
  : M unit :=
  t <- now ;;
  fun s =>
    (inr tt,
     {| conversation_history :=
          history_with (conversation_history s)
            {| h_message := message; h_role := role; h_user_id := user_id;
               h_timestamp := t |};
        sent := sent s; send_count := send_count s; clock := clock s |}).

(** [QueryHandler.get_conversation_history(user_id)] *)
Definition get_conversation_history (s : State) (user_id : option str)
  : list HistoryEntry :=
  if truthy user_id
  then filter (fun entry => opt_str_eqb (h_user_id entry) user_id)
         (conversation_history s)
  else conversation_history s.

(** [QueryHandler.clear_history(user_id)] *)
Definition clear_history (user_id : option str) : M unit :=
  fun s =>
    (inr tt,
     {| conversation_history :=
          if truthy user_id
          then filter (fun entry =>
                         negb (opt_str_eqb (h_user_id entry) user_id))
                 (conversation_history s)
          else [];
        sent := sent s; send_count := send_count s; clock := clock s |}).

(** The dictionary [process_query] returns.  ['context_chunks_used'] is a
    key of the success result only, ['error'] of the error result only. *)
Record QueryResult := {
  response : str;
  query : str;
  user_id : option str;
  timestamp : instant;
  context_chunks_used : option Z;
  error : option str;
  status : str
}.

(** [QueryHandler._generate_llm_response(query, context_chunks,
    conversation_history)] *)
Definition _generate_llm_response (w : World) (query : str)
  (context_chunks : list ContextChunk)
  (conversation_history : option (list CallerEntry)) : M str :=
  try_except
    (match openai_client w with
     | None => ret (_generate_mock_response query context_chunks)
     | Some client =>
         let context_text := _build_context_text context_chunks in
         history_text <-
           lift (_build_conversation_history w conversation_history) ;;
         let prompt :=
           create_tutor_prompt query context_text history_text in
         content <- lift (chat_create client SYSTEM_PROMPT prompt) ;;
         match content with
         | Some c => ret (strip c)
         | None => raise (py "'NoneType' object has no attribute 'strip'")
         end
     end)
    (fun _ => ret (_generate_mock_response query context_chunks)).

Definition apology (e : exn) : str :=
  py "I apologize, but I encountered an error processing your query: " ++ e.

(** [QueryHandler.process_query(query, user_id, conversation_history)] *)
Definition process_query (w : World) (query : str) (user_id : option str)
  (conversation_history : option (list CallerEntry)) : M QueryResult :=
  try_except
    (_add_to_history query (py "user") user_id ;;;
     context_chunks <- _get_relevant_context w query 5 ;;
     response <-
       _generate_llm_response w query context_chunks conversation_history ;;
     _add_to_history response (py "assistant") user_id ;;;
     t <- now ;;
     ret {| response := response; query := query; user_id := user_id;
            timestamp := t;
            context_chunks_used := Some (len context_chunks);
            error := None; status := py "success" |})
    (fun e =>
       let error_response := apology e in
       t <- now ;;
       ret {| response := error_response; query := query;
              user_id := user_id; timestamp := t;
              context_chunks_used := None;
              error := Some e; status := py "error" |}).

(** The answer [_generate_mock_streaming_response] computes, in the
    source a second copy of the body of [_generate_mock_response]. *)
Definition mock_streaming_full_response (query : str)
  (context_chunks : list ContextChunk) : str :=
  let context_info := context_info context_chunks in
  let mock_responses := [
    py "Great question about '" ++ query ++ py "'! " ++ context_info
      ++ py " Let me explain this concept based on what I know.";
    py "Excellent question! '" ++ query ++ py "' is an important topic. "
      ++ context_info ++ py " Here's what I can tell you about it.";
    py "I'd be happy to help with '" ++ query ++ py "'. " ++ context_info
      ++ py " This is a fundamental concept worth understanding.";
    py "Interesting question about '" ++ query ++ py "'! " ++ context_info
      ++ py " Let me break this down for you." ] in
  let response_index := len query mod len mock_responses in
  let base_response := nth (Z.to_nat response_index) mock_responses [] in
  let educational_additions := [
    nl ++ nl ++ py "This concept is important because it forms the foundation for more advanced topics.";
    nl ++ nl ++ py "Understanding this will help you with related concepts in your studies.";
    nl ++ nl ++ py "This topic often appears in exams and practical applications.";
    nl ++ nl ++ py "Mastering this concept will make future learning much easier." ] in
  let addition_index := len query mod len educational_additions in
  base_response ++ nth (Z.to_nat addition_index) educational_additions [].

Definition generating_message (t : instant) : Message :=
  notification (py "generating") (py "Generating response...") t.

Definition complete_message (t : instant) : Message :=
  notification (py "complete") (py "Response complete") t.

(** The content of the mock chunk that starts at word [i]:
    [" ".join(words[i:i + chunk_size]) + " "]. *)
Definition mock_chunk_content (words : list str) (chunk_size i : nat) : str :=
  let chunk_words := slice words (Z.of_nat i) (Z.of_nat i + Z.of_nat chunk_size) in
  join (py " ") chunk_words ++ py " ".

(** [QueryHandler._generate_mock_streaming_response(query, context_chunks,
    websocket, manager)]; [asyncio.sleep] changes nothing that is
    modelled. *)
Definition _generate_mock_streaming_response (w : World) (query : str)
  (context_chunks : list ContextChunk) : M unit :=
  try_except
    (let full_response := mock_streaming_full_response query context_chunks in
     t <- now ;;
     send_personal_message w (generating_message t) ;;;
     let words := split full_response in
     let chunk_size := 3%nat in
     for_each (range_step (length words) chunk_size)
       (fun i =>
          let chunk_content := mock_chunk_content words chunk_size i in
          t <- now ;;
          send_personal_message w (chunk_message chunk_content t)) ;;;
     t <- now ;;
     send_personal_message w (complete_message t) ;;;
     _add_to_history full_response (py "assistant") None)
    (fun _ =>
       t <- now ;;
       send_personal_message w
         (notification (py "error")
            (py "Sorry, I'm having trouble generating a response right now.")
            t)).

(** The [async for chunk in stream] loop over the chunks the provider
    delivered; the result is [full_response]. *)
Fixpoint stream_chunks (w : World) (ds : list (option str))
  (full_response : str) : M str :=
  match ds with
  | [] => ret full_response
  | None :: ds' => stream_chunks w ds' full_response
  | Some content :: ds' =>
      let full_response := full_response ++ content in
      t <- now ;;
      send_personal_message w (chunk_message content t) ;;;
      stream_chunks w ds' full_response
  end.

(** The whole iteration: the chunks, then the failure of the stream if it
    has one. *)
Definition consume_stream (w : World) (stream : Stream) : M str :=
  full_response <- stream_chunks w (deltas stream) [] ;;
  match failure stream with
  | Some e => raise e
  | None => ret full_response
  end.

(** [QueryHandler._generate_streaming_response(query, context_chunks,
    websocket, manager)] *)
Definition _generate_streaming_response (w : World) (query : str)
  (context_chunks : list ContextChunk) : M unit :=
  try_except
    (match openai_client w with
     | None => _generate_mock_streaming_response w query context_chunks
     | Some client =>
         let context_text := _build_context_text context_chunks in
         let prompt := create_tutor_prompt query context_text [] in
         t <- now ;;
         send_personal_message w (generating_message t) ;;;
         stream <- lift (chat_stream client SYSTEM_PROMPT prompt) ;;
         full_response <- consume_stream w stream ;;
         t <- now ;;
         send_personal_message w (complete_message t) ;;;
         _add_to_history full_response (py "assistant") None
     end)
    (fun _ => _generate_mock_streaming_response w query context_chunks).

(** [QueryHandler.process_query_streaming(query, user_id, websocket,
    manager)] *)
Definition process_query_streaming (w : World) (query : str)
  (user_id : option str) : M unit :=
  try_except
    (_add_to_history query (py "user") user_id ;;;
     t <- now ;;
     send_personal_message w
       (notification (py "context")
          (py "Retrieving relevant information...") t) ;;;
     context_chunks <- _get_relevant_context w query 5 ;;
     t <- now ;;
     send_personal_message w
       (notification (py "context_found")
          (py "Found " ++ str_of_nat (length context_chunks)
           ++ py " relevant sections") t) ;;;
     _generate_streaming_response w query context_chunks)
    (fun e =>
       let error_response := apology e in
       t <- now ;;
       send_personal_message w (notification (py "error") error_response t)).

(* ================================================================== *)
(** * main.py: one turn of the WebSocket endpoint *)
(* ================================================================== *)

(** The parsed [message_data]: ["message"], and ["user_id"] when the key
    is there ([Some None] is a JSON [null]). *)
Record MessageData := {
  ws_message : str;
  ws_user_id : option (option str)
}.

(** The body of the [while True] loop of [websocket_endpoint] once a
    message has been received and parsed. *)
Definition websocket_turn (w : World) (message_data : MessageData) : M unit :=
  t <- now ;;
  send_personal_message w
    (notification (py "processing") (py "Processing your question...") t) ;;;
  process_query_streaming w (ws_message message_data)
    (match ws_user_id message_data with
     | Some u => u
     | None => Some (py "websocket_user")
     end).

(** The types of the messages a state holds, in the order they were
    sent. *)
Definition sent_types (s : State) : list str := map m_type (sent s).

(** The concatenation of the ['content'] of the chunk messages. *)
Definition chunk_contents (msgs : list Message) : str :=
  concat (map (fun m => match m_content m with Some c => c | None => [] end)
            msgs).

(* ================================================================== *)
(** * Notions used to state the properties *)
(* ================================================================== *)

(** The positions of the chunks of a result, for reading examples. *)
Definition positions (r : option (list Chunk)) : option (list (Z * Z)) :=
  option_map (map (fun c => (start_pos c, end_pos c))) r.

(** A chunk as [chunk_text] returns it, for stating results. *)
Definition chunk_of (chunk_text source : str) (start end_ id total : Z)
  : Chunk :=
  {| text := chunk_text; start_pos := start; end_pos := end_; chunk_id := id;
     metadata := {| md_chunk_size := len chunk_text; md_source := source;
                    md_total_chunks := total |} |}.

(** What holds of the positions of every chunk [chunk_text] emits. *)
Definition position_ok (self : DocumentChunker) (txt : str) (c : Chunk)
  : Prop :=
  0 <= start_pos c < len txt
  /\ start_pos c < end_pos c <= start_pos c + chunk_size self
  /\ (end_pos c <= len txt \/ end_pos c = start_pos c + chunk_size self).

(** The [n] newest elements of a list that grows at its end. *)
Definition newest {A : Type} (n : nat) (l : list A) : list A :=
  skipn (length l - n) l.

(** The arguments of one call of [_add_to_history]. *)
Definition HistoryItem : Type := (str * str * option str)%type.

(** The entries that a sequence of calls of [_add_to_history] appends when
    the first one reads the clock at [t]. *)
Fixpoint stamped (items : list HistoryItem) (t : instant)
  : list HistoryEntry :=
  match items with
  | [] => []
  | (message, role, user_id) :: rest =>
      {| h_message := message; h_role := role; h_user_id := user_id;
         h_timestamp := t |} :: stamped rest (S t)
  end.

(** A sequence of calls of [_add_to_history]. *)
Definition append_all (items : list HistoryItem) : M unit :=
  for_each items
    (fun item => let '(message, role, user_id) := item in
                 _add_to_history message role user_id).

(** Twenty-one messages, written in turn by two users. *)
Definition twenty_one_items : list HistoryItem :=
  map (fun i => (py "message " ++ str_of_nat i, py "user",
                 Some (if Nat.even i then py "bob" else py "alice")))
    (seq 1 21).

(** The distance the relevance filter compares: [chunk.get('distance', 1.0)]. *)
Definition distance_or_default (chunk : ContextChunk) : float :=
  match ctx_distance chunk with Some d => d | None => 1.0%float end.

(** A retrieved chunk of which only the distance matters. *)
Definition at_distance (d : float) : ContextChunk :=
  {| ctx_text := Some (py "text"); ctx_filename := Some (py "notes.txt");
     ctx_distance := Some d; ctx_id := None |}.

(** The world in which the search returns chunks at the distances
    0.2, 0.79, 0.81 and 1.0. *)
Definition four_distances_world : World :=
  {| search_similar := fun _ _ =>
       inr (map at_distance [0.2; 0.79; 0.81; 1.0]%float);
     openai_client := None;
     send_fault := fun _ => None;
     str_title := fun s => s |}.

(** The chunks [_get_relevant_context] returns for a query: the relevant
    ones among those found, none when the search raises. *)
Definition relevant_chunks (w : World) (query : str) : list ContextChunk :=
  match search_similar w query 5 with
  | inr retrieved => filter_relevant retrieved
  | inl _ => []
  end.

(** The answer [_generate_llm_response] returns: that of the provider,
    stripped, when there is a provider and nothing raises, and the mock
    answer in every other case. *)
Definition generated_answer (w : World) (query : str)
  (context_chunks : list ContextChunk)
  (conversation_history : option (list CallerEntry)) : str :=
  match openai_client w with
  | None => _generate_mock_response query context_chunks
  | Some client =>
      match _build_conversation_history w conversation_history with
      | inl _ => _generate_mock_response query context_chunks
      | inr history_text =>
          match chat_create client SYSTEM_PROMPT
                  (create_tutor_prompt query
                     (_build_context_text context_chunks) history_text) with
          | inr (Some content) => strip content
          | inr None | inl _ => _generate_mock_response query context_chunks
          end
      end
  end.

(** A world in which the search and the provider both raise. *)
Definition failing_world : World :=
  {| search_similar := fun _ _ => inl (py "collection unavailable");
     openai_client :=
       Some {| chat_create := fun _ _ => inl (py "rate limit exceeded");
               chat_stream := fun _ _ => inl (py "rate limit exceeded") |};
     send_fault := fun _ => None;
     str_title := fun s => s |}.

(** The chunk messages with the given contents, the first stamped [t]. *)
Fixpoint chunk_messages (contents : list str) (t : instant) : list Message :=
  match contents with
  | [] => []
  | content :: rest => chunk_message content t :: chunk_messages rest (S t)
  end.

(** The contents of the chunk messages that stream an answer in mock
    mode: its words, three at a time. *)
Definition mock_chunk_contents (answer : str) : list str :=
  map (mock_chunk_content (split answer) 3)
    (range_step (length (split answer)) 3).

Definition context_message (t : instant) : Message :=
  notification (py "context") (py "Retrieving relevant information...") t.

Definition context_found_message (n : nat) (t : instant) : Message :=
  notification (py "context_found")
    (py "Found " ++ str_of_nat n ++ py " relevant sections") t.



(** The messages [process_query_streaming] sends for a query in mock
    mode when every send succeeds, the first stamped [t]. *)
Definition streamed_messages (w : World) (query : str) (t : instant)
  : list Message :=
  let context_chunks := relevant_chunks w query in
  let contents :=
    mock_chunk_contents (_generate_mock_response query context_chunks) in
  [context_message t;
   context_found_message (length context_chunks) (S t);
   generating_message (S (S t))]
  ++ chunk_messages contents (S (S (S t)))
  ++ [complete_message (length contents + S (S (S t)))%nat].

(** The type and the content of a message. *)
Definition type_and_content (m : Message) : str * option str :=
  (m_type m, m_content m).

(** A world without a provider in which the search finds nothing and
    every send succeeds. *)
Definition mock_world : World :=
  {| search_similar := fun _ _ => inr [];
     openai_client := None;
     send_fault := fun _ => None;
     str_title := fun s => s |}.

(** The messages [_generate_mock_streaming_response] sends for an answer
    when every send succeeds, the first stamped [t]. *)
Definition mock_messages (answer : str) (t : instant) : list Message :=
  [generating_message t]
  ++ chunk_messages (mock_chunk_contents answer) (S t)
  ++ [complete_message (length (mock_chunk_contents answer) + S t)%nat].

(** The entry that records a streamed answer. *)
Definition streamed_answer_entry (answer : str) (t : instant)
  : HistoryEntry :=
  {| h_message := answer; h_role := py "assistant"; h_user_id := None;
     h_timestamp := t |}.

(** The entry that records the query of a user. *)
Definition query_entry (query : str) (user_id : option str) (t : instant)
  : HistoryEntry :=
  {| h_message := query; h_role := py "user"; h_user_id := user_id;
     h_timestamp := t |}.

(** The user id [websocket_endpoint] passes on:
    [message_data.get("user_id", "websocket_user")]. *)
Definition websocket_user_id (message_data : MessageData) : option str :=
  match ws_user_id message_data with
  | Some u => u
  | None => Some (py "websocket_user")
  end.

Definition processing_message (t : instant) : Message :=
  notification (py "processing") (py "Processing your question...") t.

(** Words, each followed by a space. *)
Definition spaced (words : list str) : str :=
  concat (map (fun word => word ++ py " ") words).

(** The streamed query of the scenario. *)
Definition gradient_descent_message : MessageData :=
  {| ws_message := py "What is gradient descent?"; ws_user_id := None |}.





(** [h'] is [h] after zero or more calls of
    [_add_to_history(answer, 'assistant', None)]. *)
Inductive anonymous_answers
  : list HistoryEntry -> list HistoryEntry -> Prop :=
| aa_same (h : list HistoryEntry) : anonymous_answers h h
| aa_more (h h' : list HistoryEntry) (answer : str) (t : instant) :
    anonymous_answers h h' ->
    anonymous_answers h (history_with h' (streamed_answer_entry answer t)).

(** A computation that changes the history, if at all, by recording
    answers without a user id. *)
Definition records_anonymously {A : Type} (m : M A) : Prop :=
  forall s,
    anonymous_answers (conversation_history s)
      (conversation_history (snd (m s))).

(* ================================================================== *)
(** * Notions used to state further properties *)
(* ================================================================== *)

(** A text of white space only. *)
Definition blank (s : str) : Prop := Forall (fun c => isspace c = true) s.

(** What [chunk_text] records in a chunk besides its positions: the text
    is the stripped slice of its window and is not empty, and the
    metadata hold its length and the source. *)
Definition content_ok (txt source : str) (c : Chunk) : Prop :=
  text c = strip (slice txt (start_pos c) (end_pos c))
  /\ text c <> []
  /\ md_chunk_size (metadata c) = len (text c)
  /\ md_source (metadata c) = source.

(** The position [p] of the text lies in the window of one of the
    chunks. *)
Definition covered (chunks : list Chunk) (p : Z) : Prop :=
  exists c, In c chunks /\ start_pos c <= p < end_pos c.

(** A chunk and the one returned after it: the later one starts further
    on, and at most [chunk_overlap] characters before the earlier one
    ends. *)
Definition follows (self : DocumentChunker) (c1 c2 : Chunk) : Prop :=
  start_pos c1 < start_pos c2
  /\ end_pos c1 - chunk_overlap self <= start_pos c2.

(* ------------------------------------------------------------------ *)
(** ** scripts/chunker.py *)

(** The ['metadata'] of a chunk of the script: no ['total_chunks']. *)
Record ScriptMetadata := {
  smd_chunk_size : Z;
  smd_source : str
}.

Record ScriptChunk := {
  s_text : str;
  s_start_pos : Z;
  s_end_pos : Z;
  s_chunk_id : Z;
  s_metadata : ScriptMetadata
}.

(** The loop of [chunk_text] in [scripts/chunker.py]; the end of a chunk
    is found by the same lines as in the backend, here [chunk_end]. *)
Fixpoint script_chunk_loop (fuel : nat) (self : DocumentChunker) (txt : str)
  (chunks : list ScriptChunk) (start : Z) : option (list ScriptChunk) :=
  match fuel with
  | O => None
  | S fuel' =>
      if start <? len txt then
        let end_ := chunk_end self txt start in
        let chunk_text := strip (slice txt start end_) in
        let chunks' :=
          match chunk_text with
          | [] => chunks
          | _ => chunks ++ [ {| s_text := chunk_text;
                                s_start_pos := start;
                                s_end_pos := end_;
                                s_chunk_id := len chunks;
                                s_metadata :=
                                  {| smd_chunk_size := len chunk_text;
                                     smd_source := py "text_input" |} |} ]
          end in
        let start' := end_ - chunk_overlap self in
        if start' >=? len txt then Some chunks'
        else script_chunk_loop fuel' self txt chunks' start'
      else Some chunks
  end.

(** [DocumentChunker.chunk_text(text)] of [scripts/chunker.py] *)
Definition script_chunk_text (self : DocumentChunker) (fuel : nat) (txt : str)
  : option (list ScriptChunk) :=
  match strip txt with
  | [] => Some []
  | _ => script_chunk_loop fuel self txt [] 0
  end.

(** What the two chunkers record in common about a chunk: text,
    positions, number and size. *)
Definition chunk_core (c : Chunk) : str * Z * Z * Z * Z :=
  (text c, start_pos c, end_pos c, chunk_id c, md_chunk_size (metadata c)).

Definition script_chunk_core (c : ScriptChunk) : str * Z * Z * Z * Z :=
  (s_text c, s_start_pos c, s_end_pos c, s_chunk_id c,
   smd_chunk_size (s_metadata c)).

(** A chunker whose overlap is its chunk size. *)
Definition full_overlap_chunker : DocumentChunker :=
  {| chunk_size := 100; chunk_overlap := 100 |}.

(* ------------------------------------------------------------------ *)
(** ** Notions for the history and the prompt *)

(** The entry that records the answer of a batch query. *)
Definition answer_entry (answer : str) (user_id : option str) (t : instant)
  : HistoryEntry :=
  {| h_message := answer; h_role := py "assistant"; h_user_id := user_id;
     h_timestamp := t |}.

(** The last two parts of every tutor prompt: the question and the
    instruction. *)
Definition question_and_instruction (query : str) : str :=
  py "Student's question: " ++ query ++ nl ++ nl
  ++ py "Please provide a helpful, educational response that addresses the student's question. Use the provided context when relevant, and explain concepts clearly.".

(** A caller's entry with a role and a message that are strings. *)
Definition caller_entry (role message : str) : CallerEntry :=
  {| c_role := Some (PyStr role); c_message := Some (PyStr message) |}.

(** A history of three entries of two users. *)
Definition three_entries : State :=
  {| conversation_history :=
       [query_entry (py "What is SGD?") (Some (py "alice")) 0%nat;
        query_entry (py "What is PCA?") (Some (py "bob")) 1%nat;
        answer_entry (py "It is a method.") (Some (py "alice")) 2%nat];
     sent := []; send_count := 0%nat; clock := 3%nat |}.

(* ------------------------------------------------------------------ *)
(** ** Notions for the provider's stream *)

(** The contents the provider streamed: the [delta.content] that are not
    [None]. *)
Fixpoint streamed_contents (ds : list (option str)) : list str :=
  match ds with
  | [] => []
  | Some content :: ds' => content :: streamed_contents ds'
  | None :: ds' => streamed_contents ds'
  end.

(** The prompt [_generate_streaming_response] sends to the provider. *)
Definition streaming_prompt (w : World) (query : str) : str :=
  create_tutor_prompt query (_build_context_text (relevant_chunks w query))
    [].

(** The types and contents of the messages of a stream in mock mode that
    announces [contents]. *)
Definition mock_stream_shape (contents : list str)
  : list (str * option str) :=
  [(py "generating", None)]
  ++ map (fun content => (py "chunk", Some content)) contents
  ++ [(py "complete", None)].



(** A provider whose stream breaks after one piece. *)
Definition breaking_client : OpenAIClient :=
  {| chat_create := fun _ _ => inl (py "timeout");
     chat_stream := fun _ _ =>
       inr {| deltas := [Some (py "Gradient ")];
              failure := Some (py "connection reset") |} |}.

Definition breaking_world : World :=
  {| search_similar := fun _ _ => inr [];
     openai_client := Some breaking_client;
     send_fault := fun _ => None;
     str_title := fun s => s |}.

(** A websocket that is closed: every send raises. *)
Definition closed_socket_world : World :=
  {| search_similar := fun _ _ => inr [];
     openai_client := None;
     send_fault := fun _ => Some (py "websocket closed");
     str_title := fun s => s |}.

(** The provider's stream breaks: opening it raises, or iterating over it
    does. *)
Definition stream_breaks (r : exn + Stream) : Prop :=
  match r with
  | inl _ => True
  | inr stream => failure stream <> None
  end.

(** The contents delivered before a stream breaks. *)
Definition delivered_before_break (r : exn + Stream) : list str :=
  match r with
  | inl _ => []
  | inr stream => streamed_contents (deltas stream)
  end.

(* ------------------------------------------------------------------ *)
(** ** main.py: the chat endpoint *)

(** [ChatRequest] of [models/schemas.py] *)
Record ChatRequest := {
  req_message : str;
  req_user_id : option str;
  req_conversation_history : option (list CallerEntry)
}.

(** [ChatResponse] of [models/schemas.py] *)
Record ChatResponse := {
  cr_response : str;
  cr_query : str;
  cr_user_id : option str;
  cr_timestamp : instant;
  cr_context_chunks_used : Z;
  cr_status : str
}.

(** [chat_endpoint(request)]; the [HTTPException] with status 500 it
    raises is kept as its [detail]. *)
Definition chat_endpoint (w : World) (request : ChatRequest)
  : M ChatResponse :=
  try_except
    (result <- process_query w (req_message request) (req_user_id request)
                 (req_conversation_history request) ;;
     ret {| cr_response := response result;
            cr_query := req_message request;
            cr_user_id := req_user_id request;
            cr_timestamp := timestamp result;
            cr_context_chunks_used :=
              match context_chunks_used result with
              | Some n => n
              | None => 0
              end;
            cr_status := status result |})
    (fun e => raise (py "Error processing query: " ++ e)).

(* ================================================================== *)
(** * services/vector_db.py *)
(* ================================================================== *)

(** The metadata ChromaDB stores with a chunk, with the keys
    [add_documents] writes; a key that is missing is [None]. *)
Record Metadata := {
  m_filename : option str;
  m_chunk_id : option Z;
  m_chunk_size : option Z;
  m_start_pos : option Z;
  m_end_pos : option Z;
  m_file_type : option str;
  m_source : option str
}.

(** The dictionary [collection.query] returns, for the one query text
    [search_similar] sends: each key holds [None] or a list with one inner
    list per query text. *)
Record QueryResults := {
  qr_documents : option (list (list str));
  qr_metadatas : option (list (list Metadata));
  qr_distances : option (list (list float));
  qr_ids : option (list (list str))
}.

(** The truth value of an optional list: [None] and [[]] are false. *)
Definition nonempty {A : Type} (l : option (list A)) : bool :=
  match l with
  | Some (_ :: _) => true
  | _ => false
  end.

(** [l[i]], which raises [IndexError] outside the list. *)
Definition index {A : Type} (l : list A) (i : nat) : exn + A :=
  match nth_error l i with
  | Some x => inr x
  | None => inl (py "list index out of range")
  end.

(** [results[key][0][i] if results[key] else default] *)
Definition first_list_item {A B : Type} (field : option (list (list A)))
  (i : nat) (found : A -> B) (default : B) : exn + B :=
  if nonempty field then
    match field with
    | Some lists =>
        match index lists 0 with
        | inl e => inl e
        | inr first =>
            match index first i with
            | inl e => inl e
            | inr x => inr (found x)
            end
        end
    | None => inr default
    end
  else inr default.

(** The [chunk_data] built for the document number [i].  The distance
    [0] that stands for missing distances is an [int] in the source; it
    is only ever compared with [0.8]. *)
Definition chunk_data (results : QueryResults) (i : nat) (doc : str)
  : exn + ContextChunk :=
  match first_list_item (qr_metadatas results) i m_filename None with
  | inl e => inl e
  | inr filename =>
      match first_list_item (qr_distances results) i
              (fun d => d) 0%float with
      | inl e => inl e
      | inr distance =>
          match first_list_item (qr_ids results) i
                  (fun id => Some id) None with
          | inl e => inl e
          | inr id =>
              inr {| ctx_text := Some doc; ctx_filename := filename;
                     ctx_distance := Some distance; ctx_id := id |}
          end
      end
  end.

(** The loop over [enumerate(results['documents'][0])], from index [i]. *)
Fixpoint similar_chunks (results : QueryResults) (i : nat) (docs : list str)
  : exn + list ContextChunk :=
  match docs with
  | [] => inr []
  | doc :: docs' =>
      match chunk_data results i doc with
      | inl e => inl e
      | inr chunk =>
          match similar_chunks results (S i) docs' with
          | inl e => inl e
          | inr chunks => inr (chunk :: chunks)
          end
      end
  end.

(** The body of the [try] of [search_similar], given what
    [collection.query] returned. *)
Definition format_results (results : QueryResults)
  : exn + list ContextChunk :=
  match qr_documents results with
  | Some (first :: _) =>
      match first with
      | [] => inr []
      | _ => similar_chunks results 0 first
      end
  | _ => inr []
  end.

(** [VectorDatabase.search_similar(query, n_results)], given the outcome
    of [collection.query]: whatever is raised gives the empty list. *)
Definition vdb_search_similar (queried : exn + QueryResults)
  : list ContextChunk :=
  match queried with
  | inl _ => []
  | inr results =>
      match format_results results with
      | inl _ => []
      | inr chunks => chunks
      end
  end.

(** The dictionary [list_documents] builds for a document. *)
Record DocumentSummary := {
  ds_filename : str;
  ds_file_type : str;
  ds_chunk_count : Z;
  ds_total_size : Z
}.

Definition metadata_filename (metadata : Metadata) : str :=
  match m_filename metadata with Some f => f | None => py "unknown" end.

Definition metadata_file_type (metadata : Metadata) : str :=
  match m_file_type metadata with Some f => f | None => py "unknown" end.

Definition metadata_chunk_size (metadata : Metadata) : Z :=
  match m_chunk_size metadata with Some n => n | None => 0 end.

(** One turn of the loop of [list_documents] on the dictionary
    [documents], kept as the list of its items in insertion order. *)
Fixpoint count_metadata (documents : list (str * DocumentSummary))
  (metadata : Metadata) : list (str * DocumentSummary) :=
  match documents with
  | [] =>
      [(metadata_filename metadata,
        {| ds_filename := metadata_filename metadata;
           ds_file_type := metadata_file_type metadata;
           ds_chunk_count := 1;
           ds_total_size := metadata_chunk_size metadata |})]
  | (key, d) :: rest =>
      if str_eqb key (metadata_filename metadata)
      then (key, {| ds_filename := ds_filename d;
                    ds_file_type := ds_file_type d;
                    ds_chunk_count := ds_chunk_count d + 1;
                    ds_total_size :=
                      ds_total_size d + metadata_chunk_size metadata |})
           :: rest
      else (key, d) :: count_metadata rest metadata
  end.

(** The loop over [results['metadatas']]; a metadata that is [None] has
    no [get]. *)
Fixpoint count_metadatas (documents : list (str * DocumentSummary))
  (metadatas : list (option Metadata))
  : exn + list (str * DocumentSummary) :=
  match metadatas with
  | [] => inr documents
  | None :: _ => inl (py "'NoneType' object has no attribute 'get'")
  | Some metadata :: rest =>
      count_metadatas (count_metadata documents metadata) rest
  end.

(** [VectorDatabase.list_documents()], given the outcome of
    [collection.get()] as its ['metadatas']. *)
Definition list_documents (got : exn + option (list (option Metadata)))
  : list DocumentSummary :=
  match got with
  | inl _ => []
  | inr metadatas =>
      if nonempty metadatas then
        match metadatas with
        | Some l =>
            match count_metadatas [] l with
            | inl _ => []
            | inr documents => map snd documents
            end
        | None => []
        end
      else []
  end.

(** The sum of a list of integers. *)
Definition total (l : list Z) : Z := fold_right Z.add 0 l.

(** Three stored chunks of two files. *)
Definition stored_metadata (filename : str) (size : Z) : Metadata :=
  {| m_filename := Some filename; m_chunk_id := None;
     m_chunk_size := Some size; m_start_pos := None; m_end_pos := None;
     m_file_type := Some (py ".txt"); m_source := None |}.

Definition three_stored : list Metadata :=
  [stored_metadata (py "a.txt") 10; stored_metadata (py "b.txt") 20;
   stored_metadata (py "a.txt") 30].

(** The chunks [search_similar] returns when the four lists of the
    result are aligned. *)
Definition aligned_chunks (docs : list str) (metadatas : list Metadata)
  (distances : list float) (ids : list str) : list ContextChunk :=
  map (fun item : str * Metadata * float * str =>
         let '(doc, metadata, distance, id) := item in
         {| ctx_text := Some doc; ctx_filename := m_filename metadata;
            ctx_distance := Some distance; ctx_id := Some id |})
    (combine (combine (combine docs metadatas) distances) ids).


(** A result with two documents and one distance. *)
Definition short_distances_results : QueryResults :=
  {| qr_documents := Some [[py "first chunk"; py "second chunk"]];
     qr_metadatas := None; qr_distances := Some [[0.5%float]];
     qr_ids := None |}.

(* ------------------------------------------------------------------ *)
(** ** [VectorDatabase.add_documents] *)

(** A chunk as [add_documents] reads it, each key with [get]:
    ['text'], ['chunk_id'], ['start_pos'], ['end_pos'], and
    ['file_type'] and ['source'] of its ['metadata']. *)
Record UploadChunk := {
  u_text : option str;
  u_chunk_id : option Z;
  u_start_pos : option Z;
  u_end_pos : option Z;
  u_file_type : option str;
  u_source : option str
}.

(** The arguments of the one call of [collection.add]. *)
Record AddCall := {
  ac_documents : list str;
  ac_metadatas : list Metadata;
  ac_ids : list str
}.

Definition upload_text (chunk : UploadChunk) : str :=
  match u_text chunk with Some t => t | None => [] end.

(** The metadata [add_documents] stores with a chunk. *)
Definition upload_metadata (filename : str) (chunk : UploadChunk)
  : Metadata :=
  {| m_filename := Some filename;
     m_chunk_id := Some (match u_chunk_id chunk with
                         | Some n => n | None => 0 end);
     m_chunk_size := Some (len (upload_text chunk));
     m_start_pos := Some (match u_start_pos chunk with
                          | Some n => n | None => 0 end);
     m_end_pos := Some (match u_end_pos chunk with
                        | Some n => n | None => 0 end);
     m_file_type := Some (match u_file_type chunk with
                          | Some f => f | None => py "unknown" end);
     m_source := Some (match u_source chunk with
                       | Some f => f | None => py "upload" end) |}.

(** The loop of [add_documents]: [uuid4 n] is the string of the [n]-th
    [uuid.uuid4()] of the call, one being drawn for every chunk, blank
    or not. *)
Fixpoint prepare_documents (uuid4 : nat -> str) (n : nat) (filename : str)
  (chunks : list UploadChunk) (call : AddCall) : AddCall :=
  match chunks with
  | [] => call
  | chunk :: rest =>
      let chunk_id := uuid4 n in
      let text := upload_text chunk in
      match strip text with
      | [] => prepare_documents uuid4 (S n) filename rest call
      | _ =>
          prepare_documents uuid4 (S n) filename rest
            {| ac_documents := ac_documents call ++ [text];
               ac_metadatas :=
                 ac_metadatas call ++ [upload_metadata filename chunk];
               ac_ids := ac_ids call ++ [chunk_id] |}
      end
  end.

(** [VectorDatabase.add_documents(chunks, filename)]: the boolean it
    returns, and the call of [collection.add] it made, if any;
    [collection_add] is what that call does. *)
Definition add_documents (uuid4 : nat -> str)
  (collection_add : AddCall -> exn + unit) (chunks : list UploadChunk)
  (filename : str) : bool * option AddCall :=
  let call :=
    prepare_documents uuid4 0 filename chunks
      {| ac_documents := []; ac_metadatas := []; ac_ids := [] |} in
  match ac_documents call with
  | [] => (false, None)
  | _ =>
      match collection_add call with
      | inr _ => (true, Some call)
      | inl _ => (false, Some call)
      end
  end.

(** The texts of the chunks that are not blank. *)
Definition storable_texts (chunks : list UploadChunk) : list str :=
  filter (fun t => match strip t with [] => false | _ => true end)
    (map upload_text chunks).

(** A chunk of [chunk_text] as [add_documents] reads it; [file_type] is
    the ['file_type'] of its metadata, which [chunk_file] adds and
    [chunk_text] does not. *)
Definition upload_of (file_type : option str) (c : Chunk) : UploadChunk :=
  {| u_text := Some (text c); u_chunk_id := Some (chunk_id c);
     u_start_pos := Some (start_pos c); u_end_pos := Some (end_pos c);
     u_file_type := file_type; u_source := Some (md_source (metadata c)) |}.

(* ------------------------------------------------------------------ *)
(** ** [DocumentChunker.get_chunk_statistics] *)

(** [min(l)] and [max(l)] for a list that is not empty. *)
Definition py_min (first : Z) (rest : list Z) : Z := fold_left Z.min rest first.
Definition py_max (first : Z) (rest : list Z) : Z := fold_left Z.max rest first.

(** The dictionary of statistics.  The average is the quotient of two
    integers, [total_chars / len(chunks)]; it is kept as the two
    integers, and is the integer 0 for no chunks. *)
Record ChunkStatistics := {
  st_total_chunks : Z;
  st_total_characters : Z;
  st_average_chunk_size : Z * Z;
  st_min_chunk_size : Z;
  st_max_chunk_size : Z
}.

(** [DocumentChunker.get_chunk_statistics(chunks)] *)
Definition get_chunk_statistics (chunks : list Chunk) : ChunkStatistics :=
  match chunks with
  | [] => {| st_total_chunks := 0; st_total_characters := 0;
             st_average_chunk_size := (0, 1);
             st_min_chunk_size := 0; st_max_chunk_size := 0 |}
  | _ =>
      let chunk_sizes := map (fun chunk => len (text chunk)) chunks in
      let total_chars := total chunk_sizes in
      {| st_total_chunks := len chunks;
         st_total_characters := total_chars;
         st_average_chunk_size := (total_chars, len chunks);
         st_min_chunk_size :=
           py_min (hd 0 chunk_sizes) (tl chunk_sizes);
         st_max_chunk_size :=
           py_max (hd 0 chunk_sizes) (tl chunk_sizes) |}
  end.

(* ------------------------------------------------------------------ *)
(** ** main.py: [ConnectionManager] *)

(** A websocket, by its identity. *)
Definition WebSocket := nat.

(** [self.active_connections.append(websocket)], after the [accept]. *)
Definition connect (active_connections : list WebSocket) (ws : WebSocket)
  : list WebSocket :=
  active_connections ++ [ws].

(** [l.remove(x)]: without the first [x], or [ValueError]. *)
Fixpoint list_remove (l : list WebSocket) (x : WebSocket)
  : exn + list WebSocket :=
  match l with
  | [] => inl (py "list.remove(x): x not in list")
  | y :: rest =>
      if Nat.eqb y x then inr rest
      else match list_remove rest x with
           | inl e => inl e
           | inr rest' => inr (y :: rest')
           end
  end.

(** [ConnectionManager.disconnect(websocket)] *)
Definition disconnect (active_connections : list WebSocket)
  (ws : WebSocket) : exn + list WebSocket :=
  list_remove active_connections ws.

(** [ConnectionManager.broadcast(message)]: [send_text ws] is what
    sending to [ws] does; the result is the outcome and the connections
    that received the message. *)
Fixpoint broadcast (send_text : WebSocket -> exn + unit)
  (active_connections : list WebSocket) : (exn + unit) * list WebSocket :=
  match active_connections with
  | [] => (inr tt, [])
  | connection :: rest =>
      match send_text connection with
      | inl e => (inl e, [])
      | inr _ =>
          let (outcome, reached) := broadcast send_text rest in
          (outcome, connection :: reached)
      end
  end.

(** Whether [add_documents] stores a chunk: its text is not blank. *)
Definition storable (chunk : UploadChunk) : bool :=
  match strip (upload_text chunk) with [] => false | _ => true end.

(** Two chunks to upload, the second one blank. *)
Definition two_uploads : list UploadChunk :=
  [ {| u_text := Some (py "Gradient descent."); u_chunk_id := Some 0;
       u_start_pos := Some 0; u_end_pos := Some 1000;
       u_file_type := Some (py ".txt"); u_source := None |};
    {| u_text := Some (py "   "); u_chunk_id := Some 1;
       u_start_pos := Some 800; u_end_pos := Some 1800;
       u_file_type := Some (py ".txt"); u_source := None |} ].

(* ------------------------------------------------------------------ *)
(** ** [QueryHandler.get_learning_suggestions] *)





(* ================================================================== *)
(** * The model at work *)
(* ================================================================== *)

Example strip_ex : strip (py "  hi there. ") = py "hi there.".
Proof. reflexivity. Qed.

Example rfind_ex : rfind (py "a.b.c") full_stop 0 5 = 3.
Proof. reflexivity. Qed.

Example rfind_none_ex : rfind (py "a.b.c") full_stop 4 5 = -1.
Proof. reflexivity. Qed.

Example split_ex : split (py " ab  c d ") = [py "ab"; py "c"; py "d"].
Proof. reflexivity. Qed.

Example chunk_text_hello :
  positions (chunk_text default_chunker 5 (py "hello") (py "text_input"))
  = Some [(0, 1000)].
Proof. vm_compute. reflexivity. Qed.

Example chunk_text_blank :
  chunk_text default_chunker 0 (py "   ") (py "text_input") = Some [].
Proof. reflexivity. Qed.

Example chunk_text_900 :
  positions (chunk_text default_chunker 5 (repeat 97%N 900) (py "text_input"))
  = Some [(0, 1000); (800, 1800)].
Proof. vm_compute. reflexivity. Qed.

(* ================================================================== *)
(** * Facts about the string model *)
(* ================================================================== *)

Lemma len_nonneg {A : Type} (l : list A) : 0 <= len l.
Proof. unfold len. lia. Qed.

Lemma len_app {A : Type} (l1 l2 : list A) : len (l1 ++ l2) = len l1 + len l2.
Proof. unfold len. rewrite length_app. lia. Qed.

Lemma clamp_index_nonneg (n i : Z) :
  0 <= i -> clamp_index n i = Z.min i n.
Proof.
  intros Hi. unfold clamp_index.
  destruct (Z.ltb_spec i 0); [lia | reflexivity].
Qed.

Lemma clamp_index_range (n i : Z) :
  0 <= n -> 0 <= clamp_index n i <= n.
Proof.
  intros Hn. unfold clamp_index.
  destruct (Z.ltb_spec i 0); lia.
Qed.

Lemma len_slice {A : Type} (s : list A) (a b : Z) :
  len (slice s a b)
  = Z.max 0 (clamp_index (len s) b - clamp_index (len s) a).
Proof.
  unfold slice.
  pose proof (clamp_index_range (len s) a (len_nonneg s)) as Ha.
  pose proof (clamp_index_range (len s) b (len_nonneg s)) as Hb.
  unfold len in *. rewrite length_firstn, length_skipn. lia.
Qed.

(** A slice from the start that reaches the end is the whole sequence. *)
Lemma slice_whole {A : Type} (s : list A) (b : Z) :
  len s <= b -> slice s 0 b = s.
Proof.
  intros Hb. unfold slice.
  pose proof (len_nonneg s) as Hn.
  rewrite (clamp_index_nonneg _ 0) by lia.
  rewrite (clamp_index_nonneg _ b) by lia.
  replace (Z.min 0 (len s)) with 0 by lia.
  replace (Z.min b (len s)) with (len s) by lia.
  simpl. unfold len. rewrite Z.sub_0_r, Nat2Z.id. apply firstn_all.
Qed.

Lemma last_index_bound (c : char) (l : str) (i found : Z) :
  last_index c l i found = found
  \/ i <= last_index c l i found < i + len l.
Proof.
  revert i found. induction l as [|x l IH]; intros i found; simpl.
  - left; reflexivity.
  - unfold len; simpl length; rewrite Nat2Z.inj_succ.
    destruct (IH (i + 1) (if (x =? c)%N then i else found)) as [H|H].
    + rewrite H. destruct (x =? c)%N; [right; lia | left; reflexivity].
    + right. unfold len in H. lia.
Qed.

(** [rfind] answers [-1] or an index of the window it was given. *)
Lemma rfind_bound (s : str) (c : char) (a b : Z) :
  0 <= a -> 0 <= b ->
  rfind s c a b = -1 \/ a <= rfind s c a b < b.
Proof.
  intros Ha Hb. unfold rfind.
  destruct (last_index_bound c (slice s a b) (clamp_index (len s) a) (-1))
    as [H|H]; [left; exact H | right].
  rewrite len_slice in H.
  pose proof (len_nonneg s) as Hn.
  rewrite (clamp_index_nonneg _ a) in * by lia.
  rewrite (clamp_index_nonneg _ b) in * by lia.
  lia.
Qed.

(* ================================================================== *)
(** * The chunking loop *)
(* ================================================================== *)


(** More fuel does not change the result of a loop that ended. *)
Lemma chunk_loop_fuel_mono (self : DocumentChunker) (txt source : str)
  (fuel : nat) :
  forall fuel' chunks start id res,
    (fuel <= fuel')%nat ->
    chunk_loop fuel self txt source chunks start id = Some res ->
    chunk_loop fuel' self txt source chunks start id = Some res.
Proof.
  induction fuel as [|fuel IH]; intros fuel' chunks start id res Hle Hrun.
  - discriminate.
  - destruct fuel' as [|fuel']; [lia|].
    simpl in *.
    destruct (start <? len txt); [|exact Hrun].
    destruct (chunk_end self txt start - chunk_overlap self >=? len txt);
      [exact Hrun|].
    apply IH; [lia | exact Hrun].
Qed.

Section WellFormedChunker.

Variable self : DocumentChunker.
Hypothesis overlap_nonneg : 0 <= chunk_overlap self.
Hypothesis overlap_room : chunk_overlap self + 200 <= chunk_size self.

(** The end of a chunk lies in the last 200 characters of its window, and
    before the end of the text unless the window reaches it. *)
Lemma chunk_end_bounds (txt : str) (start : Z) :
  0 <= start ->
  start + chunk_size self - 199 <= chunk_end self txt start
                                <= start + chunk_size self
  /\ (chunk_end self txt start < len txt
      \/ chunk_end self txt start = start + chunk_size self).
Proof.
  intros Hstart. unfold chunk_end.
  destruct (Z.ltb_spec (start + chunk_size self) (len txt)) as [Hlt|Hge].
  - destruct (rfind_bound txt full_stop
                (Z.max start (start + chunk_size self - 200))
                (start + chunk_size self)) as [Hr|Hr]; try lia.
    + rewrite Hr. destruct (Z.gtb_spec (-1) start); lia.
    + destruct (Z.gtb_spec
                  (rfind txt full_stop
                     (Z.max start (start + chunk_size self - 200))
                     (start + chunk_size self)) start); lia.
  - lia.
Qed.

(** Each turn of the loop moves [start] forward. *)
Lemma chunk_loop_progress (txt : str) (start : Z) :
  0 <= start ->
  start < chunk_end self txt start - chunk_overlap self.
Proof.
  intros Hstart. pose proof (chunk_end_bounds txt start Hstart). lia.
Qed.

Lemma chunk_loop_positions (txt source : str) (fuel : nat) :
  forall chunks start id res,
    0 <= start ->
    Forall (position_ok self txt) chunks ->
    chunk_loop fuel self txt source chunks start id = Some res ->
    Forall (position_ok self txt) res.
Proof.
  induction fuel as [|fuel IH]; intros chunks start id res Hstart Hok Hrun.
  - discriminate.
  - simpl in Hrun.
    destruct (Z.ltb_spec start (len txt)) as [Hlt|Hge].
    2:{ injection Hrun as <-. exact Hok. }
    pose proof (chunk_end_bounds txt start Hstart) as [Hend Hlast].
    assert (Hok' :
      Forall (position_ok self txt)
        match strip (slice txt start (chunk_end self txt start)) with
        | [] => chunks
        | _ :: _ =>
            chunks ++
            [{| text := strip (slice txt start (chunk_end self txt start));
                start_pos := start;
                end_pos := chunk_end self txt start;
                chunk_id := id;
                metadata :=
                  {| md_chunk_size :=
                       len (strip (slice txt start (chunk_end self txt start)));
                     md_source := source;
                     md_total_chunks := 0 |} |}]
        end).
    { destruct (strip (slice txt start (chunk_end self txt start)));
        [exact Hok|].
      apply Forall_app. split; [exact Hok|].
      constructor; [|constructor].
      unfold position_ok; simpl. lia. }
    destruct (chunk_end self txt start - chunk_overlap self >=? len txt).
    + injection Hrun as <-. exact Hok'.
    + eapply IH; [|exact Hok'|exact Hrun]. lia.
Qed.

(** Fuel beyond the distance from [start] to the end of the text is
    enough for the loop to end. *)
Lemma chunk_loop_terminates (txt source : str) (fuel : nat) :
  forall chunks start id,
    0 <= start ->
    Z.max 0 (len txt - start) < Z.of_nat fuel ->
    exists res, chunk_loop fuel self txt source chunks start id = Some res.
Proof.
  induction fuel as [|fuel IH]; intros chunks start id Hstart Hfuel.
  - lia.
  - simpl.
    destruct (Z.ltb_spec start (len txt)) as [Hlt|Hge]; [|eauto].
    pose proof (chunk_loop_progress txt start Hstart) as Hprog.
    destruct (Z.geb_spec (chunk_end self txt start - chunk_overlap self)
                (len txt)) as [Hdone|Hmore]; [eauto|].
    apply IH; lia.
Qed.

Lemma position_ok_set_total (txt : str) (n : Z) (chunks : list Chunk) :
  Forall (position_ok self txt) chunks ->
  Forall (position_ok self txt) (map (set_total_chunks n) chunks).
Proof.
  intros H. apply Forall_map. eapply Forall_impl; [|exact H].
  intros c Hc. exact Hc.
Qed.

Lemma chunk_text_positions_wf (fuel : nat) (txt source : str)
  (chunks : list Chunk) :
  chunk_text self fuel txt source = Some chunks ->
  Forall (position_ok self txt) chunks.
Proof.
  unfold chunk_text. intros Hrun.
  destruct (strip txt).
  - injection Hrun as <-. constructor.
  - destruct (chunk_loop fuel self txt source [] 0 0) as [res|] eqn:Hloop;
      [|discriminate].
    injection Hrun as <-. apply position_ok_set_total.
    eapply chunk_loop_positions; [|constructor|exact Hloop]. lia.
Qed.

Lemma chunk_text_terminates (txt source : str) :
  exists chunks, forall fuel,
    (length txt < fuel)%nat ->
    chunk_text self fuel txt source = Some chunks.
Proof.
  unfold chunk_text. destruct (strip txt) eqn:Hstrip.
  - exists []. reflexivity.
  - destruct (chunk_loop_terminates txt source (S (length txt)) [] 0 0)
      as [res Hres]; [lia | unfold len; lia |].
    exists (map (set_total_chunks (len res)) res). intros fuel Hfuel.
    rewrite (chunk_loop_fuel_mono self txt source (S (length txt)) fuel
               [] 0 0 res); [reflexivity | lia | exact Hres].
Qed.

End WellFormedChunker.


Lemma strip_nonempty_len (txt : str) : strip txt <> [] -> 0 < len txt.
Proof.
  destruct txt; [intros H; exfalso; apply H; reflexivity|].
  intros _. unfold len. simpl. lia.
Qed.

(** A slice that starts at or after the end is empty. *)
Lemma slice_beyond {A : Type} (s : list A) (a b : Z) :
  len s <= a -> slice s a b = [].
Proof.
  intros Ha. unfold slice.
  pose proof (len_nonneg s) as Hn.
  pose proof (clamp_index_range (len s) b Hn) as Hb.
  rewrite (clamp_index_nonneg _ a) by lia.
  replace (Z.min a (len s)) with (len s) by lia.
  replace (Z.to_nat (clamp_index (len s) b - len s)) with 0%nat by lia.
  reflexivity.
Qed.

(** When the window reaches the end of the text, the chunk ends where the
    window does. *)
Lemma chunk_end_at_end (self : DocumentChunker) (txt : str) (start : Z) :
  len txt <= start + chunk_size self ->
  chunk_end self txt start = start + chunk_size self.
Proof.
  intros H. unfold chunk_end.
  destruct (Z.ltb_spec (start + chunk_size self) (len txt)); [lia|reflexivity].
Qed.

(** One turn of the loop. *)
Lemma chunk_loop_step (fuel : nat) (self : DocumentChunker) (txt source : str)
  (chunks : list Chunk) (start id : Z) :
  start < len txt ->
  chunk_loop (S fuel) self txt source chunks start id =
  let end_ := chunk_end self txt start in
  let chunk_text := strip (slice txt start end_) in
  let chunks' := match chunk_text with
                 | [] => chunks
                 | _ => chunks ++ [chunk_of chunk_text source start end_ id 0]
                 end in
  let id' := match chunk_text with [] => id | _ => id + 1 end in
  if end_ - chunk_overlap self >=? len txt then Some chunks'
  else chunk_loop fuel self txt source chunks' (end_ - chunk_overlap self) id'.
Proof.
  intros Hlt. simpl.
  destruct (Z.ltb_spec start (len txt)); [reflexivity | lia].
Qed.

Theorem short_text_chunks (self : DocumentChunker) (fuel : nat)
  (txt source : str) :
  0 <= chunk_overlap self ->
  2 * chunk_overlap self <= chunk_size self ->
  strip txt <> [] ->
  len txt < chunk_size self ->
  let size := chunk_size self in
  let next := chunk_size self - chunk_overlap self in
  chunk_text self (S (S fuel)) txt source =
  Some match strip (slice txt next (next + size)) with
       | [] => [chunk_of (strip txt) source 0 size 0 1]
       | _ => [chunk_of (strip txt) source 0 size 0 2;
               chunk_of (strip (slice txt next (next + size))) source
                 next (next + size) 1 2]
       end.
Proof.
  intros Hov Hroom Hstrip Hshort size next.
  pose proof (strip_nonempty_len txt Hstrip) as Hlen.
  unfold chunk_text.
  destruct (strip txt) as [|c0 rest0] eqn:Hs; [congruence|].
  rewrite chunk_loop_step by lia. cbv zeta.
  rewrite chunk_end_at_end by lia.
  rewrite Z.add_0_l. fold size.
  rewrite (slice_whole txt size) by (unfold size; lia).
  rewrite Hs. simpl app.
  change (size - chunk_overlap self) with next.
  destruct (Z.geb_spec next (len txt)) as [Hdone|Hmore].
  - rewrite (slice_beyond txt next) by lia. reflexivity.
  - destruct fuel as [|fuel'].
    + rewrite chunk_loop_step by lia. cbv zeta.
      rewrite chunk_end_at_end by (unfold next; lia). fold size.
      destruct (Z.geb_spec (next + size - chunk_overlap self) (len txt));
        [|unfold next, size in *; lia].
      destruct (strip (slice txt next (next + size))); reflexivity.
    + rewrite chunk_loop_step by lia. cbv zeta.
      rewrite chunk_end_at_end by (unfold next; lia). fold size.
      destruct (Z.geb_spec (next + size - chunk_overlap self) (len txt));
        [|unfold next, size in *; lia].
      destruct (strip (slice txt next (next + size))); reflexivity.
Qed.

(** C2 (as amended).  For a chunker with [0 <= chunk_overlap] and
    [chunk_overlap + 200 <= chunk_size] (the defaults are 200 and 1000),
    every chunk [chunk_text] emits has
    [0 <= start_pos < len(text)] and
    [start_pos < end_pos <= start_pos + chunk_size]; [end_pos] is the end of
    the chunk's window and is not cut back to the text: it is at most
    [len(text)] or else exactly [start_pos + chunk_size]. *)
Theorem chunk_text_positions (self : DocumentChunker) (fuel : nat)
  (txt source : str) (chunks : list Chunk) :
  0 <= chunk_overlap self ->
  chunk_overlap self + 200 <= chunk_size self ->
  chunk_text self fuel txt source = Some chunks ->
  Forall (position_ok self txt) chunks.
Proof.
  intros Hov Hroom Hrun.
  exact (chunk_text_positions_wf self Hov Hroom fuel txt source chunks Hrun).
Qed.

Lemma chunk_text_positions_witness :
  Forall (position_ok default_chunker (py "Hello. World"))
    [chunk_of (py "Hello. World") (py "text_input") 0 1000 0 1].
Proof.
  apply (chunk_text_positions default_chunker 1 (py "Hello. World")
           (py "text_input")).
  - simpl. lia.
  - simpl. lia.
  - vm_compute. reflexivity.
Defined.

(** C2 as stated fails: the only chunk of the five-character text
    ["hello"] has [end_pos = 1000]. *)
Lemma chunk_text_end_pos_beyond_text :
  chunk_text default_chunker 1 (py "hello") (py "text_input")
  = Some [chunk_of (py "hello") (py "text_input") 0 1000 0 1]
  /\ len (py "hello") = 5
  /\ ~ (end_pos (chunk_of (py "hello") (py "text_input") 0 1000 0 1)
        <= len (py "hello")).
Proof.
  split; [vm_compute; reflexivity|].
  split; [reflexivity|].
  vm_compute. intros H. apply H. reflexivity.
Qed.

(** C9.  With the default [chunk_size = 1000] and [chunk_overlap = 200]
    the loop of [chunk_text] ends on every text: any fuel beyond
    [len(text)] turns of the loop yields the same list of chunks. *)
Theorem chunk_text_terminates_default (txt source : str) :
  exists chunks, forall fuel,
    (length txt < fuel)%nat ->
    chunk_text default_chunker fuel txt source = Some chunks.
Proof.
  apply chunk_text_terminates; simpl; lia.
Qed.

Lemma short_text_chunks_witness :
  chunk_text default_chunker 2 (py "  Gradient descent. ") (py "notes.txt")
  = Some [chunk_of (py "Gradient descent.") (py "notes.txt") 0 1000 0 1].
Proof.
  apply (short_text_chunks default_chunker 0 (py "  Gradient descent. ")
           (py "notes.txt")).
  - simpl. lia.
  - simpl. lia.
  - vm_compute. discriminate.
  - vm_compute. reflexivity.
Defined.

(** C3 as stated fails: a text of 900 letters is shorter than
    [chunk_size] and is returned as two chunks. *)
Lemma chunk_text_900_letters_two_chunks :
  strip (repeat 97%N 900) <> []
  /\ len (repeat 97%N 900) < chunk_size default_chunker
  /\ chunk_text default_chunker 2 (repeat 97%N 900) (py "text_input")
     = Some [chunk_of (repeat 97%N 900) (py "text_input") 0 1000 0 2;
             chunk_of (repeat 97%N 100) (py "text_input") 800 1800 1 2].
Proof.
  split; [vm_compute; discriminate|].
  split; vm_compute; reflexivity.
Qed.

(* ================================================================== *)
(** * The bounded conversation history *)
(* ================================================================== *)

(** How [bind] and [try_except] run. *)
Lemma bind_ok {A B : Type} (m : M A) (k : A -> M B) (s s' : State) (a : A) :
  m s = (inr a, s') -> bind m k s = k a s'.
Proof. intros H. unfold bind. rewrite H. reflexivity. Qed.

Lemma bind_raise {A B : Type} (m : M A) (k : A -> M B) (s s' : State)
  (e : exn) :
  m s = (inl e, s') -> bind m k s = (inl e, s').
Proof. intros H. unfold bind. rewrite H. reflexivity. Qed.

Lemma try_except_ok {A : Type} (m : M A) (h : exn -> M A) (s s' : State)
  (a : A) :
  m s = (inr a, s') -> try_except m h s = (inr a, s').
Proof. intros H. unfold try_except. rewrite H. reflexivity. Qed.

Lemma try_except_raise {A : Type} (m : M A) (h : exn -> M A) (s s' : State)
  (e : exn) :
  m s = (inl e, s') -> try_except m h s = h e s'.
Proof. intros H. unfold try_except. rewrite H. reflexivity. Qed.

Lemma newest_short {A : Type} (n : nat) (l : list A) :
  (length l <= n)%nat -> newest n l = l.
Proof.
  intros H. unfold newest. replace (length l - n)%nat with 0%nat by lia.
  reflexivity.
Qed.

Lemma length_newest {A : Type} (n : nat) (l : list A) :
  length (newest n l) = Nat.min n (length l).
Proof. unfold newest. rewrite length_skipn. lia. Qed.

(** [l[-20:]] is the 20 newest elements. *)
Lemma last_20_newest {A : Type} (l : list A) : last_20 l = newest 20 l.
Proof.
  unfold last_20, slice, newest, clamp_index.
  pose proof (len_nonneg l) as Hn.
  replace (-20 <? 0) with true by reflexivity.
  destruct (Z.ltb_spec (len l) 0); [lia|].
  rewrite Z.min_id.
  replace (Z.to_nat (Z.max (-20 + len l) 0)) with (length l - 20)%nat
    by (unfold len; lia).
  rewrite firstn_all2; [reflexivity|].
  rewrite length_skipn. unfold len. lia.
Qed.

Lemma history_with_newest (h : list HistoryEntry) (e : HistoryEntry) :
  history_with h e = newest 20 (h ++ [e]).
Proof.
  unfold history_with.
  destruct (Z.gtb_spec (len (h ++ [e])) 20) as [Hgt|Hle].
  - apply last_20_newest.
  - symmetry. apply newest_short. unfold len in Hle. lia.
Qed.

(** Trimming early does not change what is kept in the end. *)
Lemma newest_app {A : Type} (n : nat) (l l' : list A) :
  newest n (newest n l ++ l') = newest n (l ++ l').
Proof.
  destruct (Nat.le_gt_cases (length l) n) as [Hle|Hgt].
  - rewrite (newest_short n l) by exact Hle. reflexivity.
  - unfold newest. rewrite !skipn_app, !length_app, !length_skipn.
    rewrite skipn_skipn.
    f_equal; f_equal; lia.
Qed.

Lemma _add_to_history_run (message role : str) (user_id : option str)
  (s : State) :
  _add_to_history message role user_id s =
  (inr tt,
   {| conversation_history :=
        history_with (conversation_history s)
          {| h_message := message; h_role := role; h_user_id := user_id;
             h_timestamp := clock s |};
      sent := sent s; send_count := send_count s; clock := S (clock s) |}).
Proof. reflexivity. Qed.

Lemma append_all_run (items : list HistoryItem) :
  forall s,
    (length (conversation_history s) <= 20)%nat ->
    fst (append_all items s) = inr tt
    /\ conversation_history (snd (append_all items s))
       = newest 20 (conversation_history s ++ stamped items (clock s)).
Proof.
  induction items as [|[[message role] user_id] rest IH]; intros s Hlen.
  - split; [reflexivity|]. simpl. rewrite app_nil_r.
    symmetry. apply newest_short. exact Hlen.
  - unfold append_all in *. cbn [for_each].
    erewrite bind_ok by apply _add_to_history_run.
    destruct (IH
      {| conversation_history :=
           history_with (conversation_history s)
             {| h_message := message; h_role := role; h_user_id := user_id;
                h_timestamp := clock s |};
         sent := sent s; send_count := send_count s; clock := S (clock s) |})
      as [IHr IHh].
    { cbn [conversation_history]. rewrite history_with_newest.
      rewrite length_newest. lia. }
    split; [exact IHr|].
    rewrite IHh. cbn [conversation_history clock stamped].
    rewrite history_with_newest, newest_app.
    rewrite <- app_assoc. reflexivity.
Qed.

(** C7.  Whatever is appended, and by whichever users, to a history of at
    most 20 entries, the history afterwards holds at most 20 entries, and
    they are the 20 newest of all entries in insertion order: what was
    evicted is the oldest. *)
Theorem history_keeps_newest_20 (items : list HistoryItem) (s : State) :
  len (conversation_history s) <= 20 ->
  let s' := snd (append_all items s) in
  fst (append_all items s) = inr tt
  /\ len (conversation_history s') <= 20
  /\ conversation_history s'
     = newest 20 (conversation_history s ++ stamped items (clock s)).
Proof.
  intros Hlen s'. destruct (append_all_run items s) as [Hr Hh].
  { unfold len in Hlen. lia. }
  split; [exact Hr|]. subst s'. rewrite Hh.
  split; [|reflexivity].
  unfold len. rewrite length_newest. lia.
Qed.

Lemma history_keeps_newest_20_witness :
  fst (append_all twenty_one_items initial_state) = inr tt
  /\ len (conversation_history (snd (append_all twenty_one_items initial_state)))
     <= 20
  /\ conversation_history (snd (append_all twenty_one_items initial_state))
     = newest 20 (conversation_history initial_state
                  ++ stamped twenty_one_items (clock initial_state)).
Proof.
  apply (history_keeps_newest_20 twenty_one_items initial_state).
  vm_compute. discriminate.
Defined.

(** The twenty-first append evicts the first message, which another user
    wrote. *)
Example eviction_across_users :
  map (fun e => (h_message e, h_user_id e))
    (firstn 1 (conversation_history
                 (snd (append_all twenty_one_items initial_state))))
  = [(py "message 2", Some (py "bob"))]
  /\ map (fun e => (h_message e, h_user_id e))
       (firstn 1 (stamped twenty_one_items 0%nat))
     = [(py "message 1", Some (py "alice"))].
Proof. split; vm_compute; reflexivity. Qed.

(* ================================================================== *)
(** * The relevance filter *)
(* ================================================================== *)

Lemma is_relevant_spec (chunk : ContextChunk) :
  is_relevant chunk = true
  <-> exists d, ctx_distance chunk = Some d
                /\ PrimFloat.ltb d relevance_cutoff = true.
Proof.
  unfold is_relevant. destruct (ctx_distance chunk) as [d|].
  - split.
    + intros H. exists d. split; [reflexivity | exact H].
    + intros [d' [Hd H]]. injection Hd as ->. exact H.
  - split.
    + intros H. vm_compute in H. discriminate.
    + intros [d [Hd _]]. discriminate.
Qed.

Lemma _get_relevant_context_run (w : World) (query : str) (n_results : Z)
  (s : State) :
  _get_relevant_context w query n_results s =
  (inr match search_similar w query n_results with
       | inr retrieved => filter_relevant retrieved
       | inl _ => []
       end, s).
Proof.
  unfold _get_relevant_context, try_except, bind, lift.
  destruct (search_similar w query n_results); reflexivity.
Qed.

(** C4.  Of the chunks the vector database returns,
    [_get_relevant_context] keeps, in their order, exactly those whose
    distance is strictly below 0.8. *)
Theorem relevance_filter_cutoff (w : World) (query : str) (n_results : Z)
  (s : State) (retrieved : list ContextChunk) :
  search_similar w query n_results = inr retrieved ->
  exists kept,
    _get_relevant_context w query n_results s = (inr kept, s)
    /\ kept = filter (fun chunk =>
                        PrimFloat.ltb (distance_or_default chunk) 0.8%float)
                retrieved
    /\ forall chunk,
         In chunk kept
         <-> In chunk retrieved
             /\ exists d, ctx_distance chunk = Some d
                          /\ PrimFloat.ltb d 0.8%float = true.
Proof.
  intros Hsearch. exists (filter_relevant retrieved).
  rewrite _get_relevant_context_run, Hsearch.
  split; [reflexivity|]. split; [reflexivity|].
  intros chunk. unfold filter_relevant. rewrite filter_In.
  rewrite is_relevant_spec. reflexivity.
Qed.

(** Given the distances 0.2, 0.79, 0.81 and 1.0, exactly the first two
    chunks survive. *)
Lemma relevance_filter_cutoff_witness :
  exists kept,
    _get_relevant_context four_distances_world (py "What is gradient descent?")
      5 initial_state
    = (inr kept, initial_state)
    /\ kept = map at_distance [0.2; 0.79]%float
    /\ forall chunk,
         In chunk kept
         <-> In chunk (map at_distance [0.2; 0.79; 0.81; 1.0]%float)
             /\ exists d, ctx_distance chunk = Some d
                          /\ PrimFloat.ltb d 0.8%float = true.
Proof.
  exact (relevance_filter_cutoff four_distances_world
           (py "What is gradient descent?") 5 initial_state
           (map at_distance [0.2; 0.79; 0.81; 1.0]%float) eq_refl).
Defined.

(* ================================================================== *)
(** * The mock generator *)
(* ================================================================== *)

Lemma len_four (a b c d : str) : len [a; b; c; d] = 4.
Proof. reflexivity. Qed.

(** The index [len(query) % 4] is one of 0, 1, 2, 3, so both list
    accesses of the mock generator are in range. *)
Lemma mock_index_range (query : str) :
  len query mod 4 = 0 \/ len query mod 4 = 1
  \/ len query mod 4 = 2 \/ len query mod 4 = 3.
Proof.
  pose proof (Z.mod_pos_bound (len query) 4 ltac:(lia)). lia.
Qed.

Lemma frame_assoc (p q r a : str) :
  (p ++ q ++ r) ++ a = p ++ q ++ (r ++ a).
Proof. rewrite <- !app_assoc. reflexivity. Qed.

(** The answer of [_generate_mock_response] is the query set into a frame
    of text that [len(query) % 4] and the context choose. *)
Lemma mock_response_frame (r : Z) (context_chunks : list ContextChunk) :
  exists before after,
    forall query,
      len query mod 4 = r ->
      _generate_mock_response query context_chunks
      = before ++ query ++ after.
Proof.
  destruct (Z_lt_ge_dec r 0) as [Hneg|Hpos].
  { exists [], []. intros query Hr.
    destruct (mock_index_range query) as [H|[H|[H|H]]]; lia. }
  destruct (Z_lt_ge_dec r 4) as [Hlt|Hge].
  2:{ exists [], []. intros query Hr.
      destruct (mock_index_range query) as [H|[H|[H|H]]]; lia. }
  assert (r = 0 \/ r = 1 \/ r = 2 \/ r = 3) as [-> | [-> | [-> | ->]]]
    by lia.
  all: eexists; eexists; intros query Hr;
    unfold _generate_mock_response; cbv zeta;
    change (len query mod _) with (len query mod 4) at 1;
    change (len query mod _) with (len query mod 4) at 2;
    rewrite Hr;
    match goal with
    | |- context [Z.to_nat ?k] =>
        let n := eval compute in (Z.to_nat k) in
        change (Z.to_nat k) with n
    end;
    cbn [nth];
    apply frame_assoc.
Qed.

(** C8 (as amended).  Two queries of equal length, given the same
    context, receive the same template: their answers differ only in the
    query quoted inside. *)
Theorem mock_response_same_template (query1 query2 : str)
  (context_chunks : list ContextChunk) :
  length query1 = length query2 ->
  exists before after,
    _generate_mock_response query1 context_chunks
    = before ++ query1 ++ after
    /\ _generate_mock_response query2 context_chunks
       = before ++ query2 ++ after.
Proof.
  intros Hlen.
  destruct (mock_response_frame (len query1 mod 4) context_chunks)
    as [before [after Hframe]].
  exists before, after. split.
  - apply Hframe. reflexivity.
  - apply Hframe. unfold len. rewrite Hlen. reflexivity.
Qed.

Lemma mock_response_same_template_witness :
  exists before after,
    _generate_mock_response (py "What is SGD?") []
    = before ++ py "What is SGD?" ++ after
    /\ _generate_mock_response (py "What is PCA?") []
       = before ++ py "What is PCA?" ++ after.
Proof.
  apply (mock_response_same_template (py "What is SGD?") (py "What is PCA?")).
  reflexivity.
Defined.

Lemma str_eqb_refl (a : str) : str_eqb a a = true.
Proof.
  induction a as [|x a IH]; [reflexivity|].
  simpl. rewrite N.eqb_refl. exact IH.
Qed.

Lemma str_eqb_false_neq (a b : str) : str_eqb a b = false -> a <> b.
Proof.
  intros H Heq. subst b. rewrite str_eqb_refl in H. discriminate.
Qed.

(** C8 as stated fails: two different queries of the same length, with
    the same (empty) context, receive different answers. *)
Lemma mock_response_depends_on_query :
  length (py "What is SGD?") = length (py "What is PCA?")
  /\ _generate_mock_response (py "What is SGD?") []
     <> _generate_mock_response (py "What is PCA?") [].
Proof.
  split; [reflexivity|].
  apply str_eqb_false_neq. vm_compute. reflexivity.
Qed.

(** The copy of the mock generator inside the streaming path computes the
    same answer. *)
Lemma mock_streaming_full_response_eq (query : str)
  (context_chunks : list ContextChunk) :
  mock_streaming_full_response query context_chunks
  = _generate_mock_response query context_chunks.
Proof. reflexivity. Qed.

(* ================================================================== *)
(** * Batch queries *)
(* ================================================================== *)

Lemma now_run (s : State) :
  now s = (inr (clock s),
           {| conversation_history := conversation_history s;
              sent := sent s; send_count := send_count s;
              clock := S (clock s) |}).
Proof. reflexivity. Qed.

(** [_generate_llm_response] always returns, and leaves the state as it
    was. *)
Lemma _generate_llm_response_run (w : World) (query : str)
  (context_chunks : list ContextChunk)
  (conversation_history : option (list CallerEntry)) (s : State) :
  _generate_llm_response w query context_chunks conversation_history s
  = (inr (generated_answer w query context_chunks conversation_history), s).
Proof.
  unfold _generate_llm_response, generated_answer, try_except.
  destruct (openai_client w) as [client|]; [|reflexivity].
  unfold bind, lift.
  destruct (_build_conversation_history w conversation_history)
    as [e|history_text]; [reflexivity|].
  cbn [ret].
  destruct (chat_create client SYSTEM_PROMPT
              (create_tutor_prompt query (_build_context_text context_chunks)
                 history_text)) as [e|[content|]]; reflexivity.
Qed.

(** C1 (as amended).  [process_query] never raises: it returns a result
    with status ['success'] whose [context_chunks_used] is the number of
    retrieved chunks that passed the relevance filter.  An exception of
    the search is absorbed as an empty context, an exception on the way to
    the provider's answer by the mock answer; the query and the answer are
    recorded in the history. *)
Theorem process_query_returns (w : World) (query : str)
  (user_id : option str) (conversation_history0 : option (list CallerEntry))
  (s : State) :
  exists result s',
    process_query w query user_id conversation_history0 s = (inr result, s')
    /\ status result = py "success"
    /\ error result = None
    /\ context_chunks_used result = Some (len (relevant_chunks w query))
    /\ response result
       = generated_answer w query (relevant_chunks w query)
           conversation_history0
    /\ conversation_history s'
       = history_with
           (history_with (conversation_history s)
              {| h_message := query; h_role := py "user";
                 h_user_id := user_id; h_timestamp := clock s |})
           {| h_message := response result; h_role := py "assistant";
              h_user_id := user_id; h_timestamp := S (clock s) |}.
Proof.
  unfold process_query.
  eexists. eexists. split.
  - apply try_except_ok.
    erewrite bind_ok by apply _add_to_history_run.
    erewrite bind_ok by apply _get_relevant_context_run.
    erewrite bind_ok by apply _generate_llm_response_run.
    erewrite bind_ok by apply _add_to_history_run.
    erewrite bind_ok by apply now_run.
    reflexivity.
  - cbn [status error context_chunks_used response conversation_history
         clock].
    repeat split; reflexivity.
Qed.

(** C1 as stated fails: the search and the provider both raise, and the
    result has status ['success'], with the mock answer as its response. *)
Lemma process_query_absorbs_exceptions :
  search_similar failing_world (py "What is SGD?") 5
  = inl (py "collection unavailable")
  /\ exists result s',
       process_query failing_world (py "What is SGD?") None None initial_state
       = (inr result, s')
       /\ status result = py "success"
       /\ status result <> py "error"
       /\ response result = _generate_mock_response (py "What is SGD?") [].
Proof.
  split; [reflexivity|].
  eexists. eexists. split; [vm_compute; reflexivity|].
  split; [reflexivity|]. split; [|vm_compute; reflexivity].
  apply str_eqb_false_neq. vm_compute. reflexivity.
Qed.

(* ================================================================== *)
(** * Streaming: sending messages *)
(* ================================================================== *)

(** Reading the clock and sending a message, when the send succeeds. *)
Lemma emit_ok {A : Type} (w : World) (mk : instant -> Message)
  (k : M A) (s : State) :
  send_fault w (send_count s) = None ->
  bind now (fun t => bind (send_personal_message w (mk t)) (fun _ => k)) s
  = k {| conversation_history := conversation_history s;
         sent := sent s ++ [mk (clock s)];
         send_count := S (send_count s);
         clock := S (clock s) |}.
Proof.
  intros Hok. unfold bind, now, send_personal_message. cbn.
  rewrite Hok. reflexivity.
Qed.

(** The same when the send raises: nothing is delivered. *)
Lemma emit_fail {A : Type} (w : World) (mk : instant -> Message)
  (k : M A) (s : State) (e : exn) :
  send_fault w (send_count s) = Some e ->
  bind now (fun t => bind (send_personal_message w (mk t)) (fun _ => k)) s
  = (inl e, {| conversation_history := conversation_history s;
               sent := sent s;
               send_count := S (send_count s);
               clock := S (clock s) |}).
Proof.
  intros Hfail. unfold bind, now, send_personal_message. cbn.
  rewrite Hfail. reflexivity.
Qed.

(** A message that is the last thing a block sends. *)
Lemma emit_last_ok (w : World) (mk : instant -> Message) (s : State) :
  send_fault w (send_count s) = None ->
  bind now (fun t => send_personal_message w (mk t)) s
  = (inr tt, {| conversation_history := conversation_history s;
                sent := sent s ++ [mk (clock s)];
                send_count := S (send_count s);
                clock := S (clock s) |}).
Proof.
  intros Hok. unfold bind, now, send_personal_message. cbn.
  rewrite Hok. reflexivity.
Qed.

Lemma emit_last_fail (w : World) (mk : instant -> Message) (s : State)
  (e : exn) :
  send_fault w (send_count s) = Some e ->
  bind now (fun t => send_personal_message w (mk t)) s
  = (inl e, {| conversation_history := conversation_history s;
               sent := sent s;
               send_count := S (send_count s);
               clock := S (clock s) |}).
Proof.
  intros Hfail. unfold bind, now, send_personal_message. cbn.
  rewrite Hfail. reflexivity.
Qed.



(** The loop that sends the chunks, when every send succeeds. *)
Lemma send_chunks_ok (w : World) (f : nat -> str) (l : list nat) :
  forall s,
    (forall j, (send_count s <= j < length l + send_count s)%nat ->
               send_fault w j = None) ->
    for_each l
      (fun i => bind now
                  (fun t => send_personal_message w (chunk_message (f i) t)))
      s
    = (inr tt,
       {| conversation_history := conversation_history s;
          sent := sent s ++ chunk_messages (map f l) (clock s);
          send_count := length l + send_count s;
          clock := length l + clock s |}).
Proof.
  induction l as [|x l IH]; intros s Hok.
  - simpl. unfold ret. rewrite app_nil_r. destruct s; reflexivity.
  - cbn [for_each].
    erewrite bind_ok.
    2:{ apply (emit_last_ok w (fun t => chunk_message (f x) t)).
        apply Hok. simpl. lia. }
    rewrite IH.
    + cbn [conversation_history sent send_count clock map chunk_messages
           length].
      rewrite <- app_assoc, !Nat.add_succ_r. reflexivity.
    + intros j Hj. apply Hok. cbn [send_count length] in *. lia.
Qed.


(* ================================================================== *)
(** * Streaming in mock mode *)
(* ================================================================== *)

Lemma length_mock_chunk_contents (answer : str) :
  length (mock_chunk_contents answer)
  = length (range_step (length (split answer)) 3).
Proof. unfold mock_chunk_contents. apply length_map. Qed.

(** [_generate_mock_streaming_response] when every send succeeds. *)
Lemma mock_streaming_ok (w : World) (query : str)
  (context_chunks : list ContextChunk) (s : State) :
  let answer := _generate_mock_response query context_chunks in
  let m := length (mock_chunk_contents answer) in
  (forall j, (send_count s <= j < S (S m) + send_count s)%nat ->
             send_fault w j = None) ->
  _generate_mock_streaming_response w query context_chunks s
  = (inr tt,
     {| conversation_history :=
          history_with (conversation_history s)
            (streamed_answer_entry answer (S (m + S (clock s))));
        sent := sent s ++ mock_messages answer (clock s);
        send_count := S (m + S (send_count s));
        clock := S (S (m + S (clock s))) |}).
Proof.
  intros answer m Hok.
  unfold _generate_mock_streaming_response. cbv zeta.
  rewrite mock_streaming_full_response_eq. fold answer.
  apply try_except_ok.
  rewrite emit_ok by (apply Hok; lia).
  erewrite bind_ok.
  2:{ apply send_chunks_ok. intros j Hj. apply Hok.
      cbn [send_count] in Hj. fold (mock_chunk_contents answer) in *.
      rewrite <- length_mock_chunk_contents in Hj. fold m in Hj. lia. }
  rewrite emit_ok.
  2:{ apply Hok. cbn [send_count].
      rewrite <- length_mock_chunk_contents. fold m. lia. }
  rewrite _add_to_history_run.
  cbn [conversation_history sent send_count clock].
  rewrite <- length_mock_chunk_contents. fold m.
  unfold mock_messages. fold m.
  rewrite <- !app_assoc. reflexivity.
Qed.

Lemma _generate_streaming_response_mock (w : World) (query : str)
  (context_chunks : list ContextChunk) (s : State) :
  openai_client w = None ->
  _generate_streaming_response w query context_chunks s
  = try_except (_generate_mock_streaming_response w query context_chunks)
      (fun _ => _generate_mock_streaming_response w query context_chunks) s.
Proof.
  intros Hnone. unfold _generate_streaming_response. rewrite Hnone.
  reflexivity.
Qed.

(** [process_query_streaming] in mock mode when every send succeeds. *)
Lemma process_query_streaming_ok (w : World) (query : str)
  (user_id : option str) (s : State) :
  let answer := _generate_mock_response query (relevant_chunks w query) in
  let m := length (mock_chunk_contents answer) in
  openai_client w = None ->
  (forall j, (send_count s <= j < 4 + m + send_count s)%nat ->
             send_fault w j = None) ->
  process_query_streaming w query user_id s
  = (inr tt,
     {| conversation_history :=
          history_with
            (history_with (conversation_history s)
               (query_entry query user_id (clock s)))
            (streamed_answer_entry answer (5 + m + clock s)%nat);
        sent := sent s ++ streamed_messages w query (S (clock s));
        send_count := (4 + m + send_count s)%nat;
        clock := (6 + m + clock s)%nat |}).
Proof.
  intros answer m Hnone Hok.
  unfold process_query_streaming.
  apply try_except_ok.
  erewrite bind_ok by apply _add_to_history_run.
  rewrite emit_ok by (apply Hok; cbn [send_count]; lia).
  erewrite bind_ok by apply _get_relevant_context_run.
  fold (relevant_chunks w query).
  rewrite emit_ok by (apply Hok; cbn [send_count]; lia).
  rewrite _generate_streaming_response_mock by exact Hnone.
  erewrite try_except_ok.
  2:{ apply mock_streaming_ok. fold answer. fold m.
      intros j Hj. apply Hok. cbn [send_count] in Hj. lia. }
  fold answer. fold m.
  cbn [conversation_history sent send_count clock].
  unfold streamed_messages, mock_messages. fold answer. fold m.
  rewrite <- !app_assoc.
  replace (5 + m + clock s)%nat with (S (m + S (S (S (S (clock s))))))
    by lia.
  replace (4 + m + send_count s)%nat with (S (m + S (S (S (send_count s)))))
    by lia.
  replace (6 + m + clock s)%nat with (S (S (m + S (S (S (S (clock s)))))))
    by lia.
  reflexivity.
Qed.

(** One WebSocket turn in mock mode when every send succeeds. *)
Lemma websocket_turn_ok (w : World) (message_data : MessageData)
  (s : State) :
  let query := ws_message message_data in
  let answer := _generate_mock_response query (relevant_chunks w query) in
  let m := length (mock_chunk_contents answer) in
  openai_client w = None ->
  (forall j, send_fault w j = None) ->
  websocket_turn w message_data s
  = (inr tt,
     {| conversation_history :=
          history_with
            (history_with (conversation_history s)
               (query_entry query (websocket_user_id message_data)
                  (S (clock s))))
            (streamed_answer_entry answer (6 + m + clock s)%nat);
        sent := sent s
                ++ processing_message (clock s)
                   :: streamed_messages w query (S (S (clock s)));
        send_count := (5 + m + send_count s)%nat;
        clock := (7 + m + clock s)%nat |}).
Proof.
  intros query answer m Hnone Hok.
  unfold websocket_turn.
  rewrite emit_ok by apply Hok.
  fold (websocket_user_id message_data). fold query.
  rewrite process_query_streaming_ok by (auto; intros; apply Hok).
  fold answer. fold m.
  cbn [conversation_history sent send_count clock].
  rewrite <- app_assoc.
  replace (5 + m + S (clock s))%nat with (6 + m + clock s)%nat by lia.
  replace (4 + m + S (send_count s))%nat with (5 + m + send_count s)%nat
    by lia.
  replace (6 + m + S (clock s))%nat with (7 + m + clock s)%nat by lia.
  reflexivity.
Qed.

(* ================================================================== *)
(** * The words of a streamed mock answer *)
(* ================================================================== *)

Lemma spaced_app (a b : list str) : spaced (a ++ b) = spaced a ++ spaced b.
Proof. unfold spaced. rewrite map_app, concat_app. reflexivity. Qed.

(** Joining with spaces and adding one is following each word by one. *)
Lemma join_spaced (words : list str) :
  words <> [] -> join (py " ") words ++ py " " = spaced words.
Proof.
  induction words as [|word rest IH]; intros Hne; [congruence|].
  destruct rest as [|word' rest'].
  - unfold spaced. simpl. rewrite app_nil_r. reflexivity.
  - change (join (py " ") (word :: word' :: rest'))
      with (word ++ py " " ++ join (py " ") (word' :: rest')).
    rewrite <- !app_assoc. rewrite IH by discriminate.
    unfold spaced. cbn [map concat]. rewrite <- !app_assoc. reflexivity.
Qed.

Lemma firstn_add {A : Type} (a b : nat) (l : list A) :
  firstn (a + b) l = firstn a l ++ firstn b (skipn a l).
Proof.
  revert l. induction a as [|a IH]; intros l; [reflexivity|].
  destruct l as [|x l]; simpl.
  - rewrite firstn_nil. reflexivity.
  - rewrite IH. reflexivity.
Qed.

(** [words[i:i + 3]] for an index inside the list. *)
Lemma slice_three {A : Type} (words : list A) (i : nat) :
  (i <= length words)%nat ->
  slice words (Z.of_nat i) (Z.of_nat i + Z.of_nat 3)
  = firstn 3 (skipn i words).
Proof.
  intros Hi. unfold slice.
  rewrite !clamp_index_nonneg by lia.
  replace (Z.to_nat (Z.min (Z.of_nat i) (len words))) with i
    by (unfold len; lia).
  destruct (Nat.le_gt_cases (i + 3) (length words)) as [Hin|Hout].
  - f_equal. unfold len. lia.
  - replace (Z.to_nat (Z.min (Z.of_nat i + Z.of_nat 3) (len words)
                       - Z.min (Z.of_nat i) (len words)))
      with (length (skipn i words))
      by (rewrite length_skipn; unfold len; lia).
    rewrite firstn_all. symmetry. apply firstn_all2.
    rewrite length_skipn. lia.
Qed.

Lemma mock_chunk_content_spaced (words : list str) (i : nat) :
  (i < length words)%nat ->
  mock_chunk_content words 3 i = spaced (firstn 3 (skipn i words)).
Proof.
  intros Hi. unfold mock_chunk_content.
  rewrite slice_three by lia.
  apply join_spaced.
  destruct (skipn i words) eqn:Hskip; [|discriminate].
  apply (f_equal (@length str)) in Hskip.
  rewrite length_skipn in Hskip. simpl in Hskip. lia.
Qed.

Lemma concat_groups_spaced (words : list str) (m : nat) :
  concat (map (fun k => spaced (firstn 3 (skipn (k * 3) words))) (seq 0 m))
  = spaced (firstn (m * 3) words).
Proof.
  induction m as [|m IH]; [reflexivity|].
  rewrite seq_S, map_app, concat_app, IH. cbn [map concat Nat.add].
  rewrite app_nil_r.
  replace (S m * 3)%nat with (m * 3 + 3)%nat by lia.
  rewrite firstn_add, spaced_app. reflexivity.
Qed.

(** The streamed chunks, put together, are the words of the answer, each
    followed by one space. *)
Lemma concat_mock_chunk_contents (answer : str) :
  concat (mock_chunk_contents answer) = spaced (split answer).
Proof.
  unfold mock_chunk_contents, range_step. rewrite map_map.
  set (words := split answer). set (n := length words).
  pose proof (Nat.div_mod_eq (n + 3 - 1) 3) as Hdiv.
  pose proof (Nat.mod_upper_bound (n + 3 - 1) 3 ltac:(lia)) as Hmod.
  rewrite (map_ext_in _
             (fun k => spaced (firstn 3 (skipn (k * 3) words)))).
  - rewrite concat_groups_spaced. rewrite firstn_all2; [reflexivity|].
    fold n. lia.
  - intros k Hk. apply in_seq in Hk.
    apply mock_chunk_content_spaced. fold n. lia.
Qed.

Lemma mock_chunk_contents_nonempty (answer : str) :
  split answer <> [] -> mock_chunk_contents answer <> [].
Proof.
  intros Hne Hnil. apply (f_equal (@length str)) in Hnil.
  rewrite length_mock_chunk_contents in Hnil.
  unfold range_step in Hnil. rewrite length_map, length_seq in Hnil.
  assert (0 < length (split answer))%nat as Hpos.
  { destruct (split answer); [congruence|]. cbn [length]. lia. }
  set (n := length (split answer)) in *.
  change (length (@nil str)) with 0%nat in Hnil.
  pose proof (Nat.div_mod_eq (n + 3 - 1) 3) as Hdiv.
  pose proof (Nat.mod_upper_bound (n + 3 - 1) 3 ltac:(lia)).
  lia.
Qed.

Lemma split_go_nonempty (s cur : str) :
  cur <> [] -> split_go s cur <> [].
Proof.
  revert cur. induction s as [|c s IH]; intros cur Hcur.
  - simpl. destruct cur; [congruence|discriminate].
  - simpl. destruct (isspace c).
    + destruct cur; [congruence|discriminate].
    + apply IH. discriminate.
Qed.

(** A text that starts with a character that is not white space has a
    first word. *)
Lemma split_nonempty (c : char) (s : str) :
  isspace c = false -> split (c :: s) <> [].
Proof.
  intros Hc. unfold split. simpl. rewrite Hc.
  apply split_go_nonempty. discriminate.
Qed.

(** Every mock answer starts with a letter. *)
Lemma mock_response_head (query : str) (context_chunks : list ContextChunk) :
  exists c rest,
    _generate_mock_response query context_chunks = c :: rest
    /\ isspace c = false.
Proof.
  unfold _generate_mock_response. cbv zeta.
  change (len query mod _) with (len query mod 4) at 1.
  change (len query mod _) with (len query mod 4) at 2.
  destruct (mock_index_range query) as [H|[H|[H|H]]]; rewrite H;
    eexists; eexists; (split; [reflexivity|reflexivity]).
Qed.

Lemma mock_response_has_words (query : str)
  (context_chunks : list ContextChunk) :
  split (_generate_mock_response query context_chunks) <> [].
Proof.
  destruct (mock_response_head query context_chunks) as [c [rest [-> Hc]]].
  apply split_nonempty. exact Hc.
Qed.

Lemma type_and_content_chunk_messages (contents : list str) :
  forall t,
    map type_and_content (chunk_messages contents t)
    = map (fun content => (py "chunk", Some content)) contents.
Proof.
  induction contents as [|c rest IH]; intros t; [reflexivity|].
  cbn [chunk_messages map]. rewrite IH. reflexivity.
Qed.

(** C5 (as amended).  Without a provider and with every send succeeding,
    one streamed query makes the endpoint send, in this order:
    [processing], [context], [context_found], [generating], one or more
    [chunk] messages, and [complete]; nothing else, so no [error].  The
    contents of the chunks, put together, are the words of the mock
    answer joined by single spaces, followed by a space: the answer with
    every run of white space (its line breaks too) turned into one
    space. *)
Theorem mock_stream_notifications (w : World) (message_data : MessageData)
  (s : State) :
  openai_client w = None ->
  (forall j, send_fault w j = None) ->
  let query := ws_message message_data in
  let answer := _generate_mock_response query (relevant_chunks w query) in
  exists contents new s',
    websocket_turn w message_data s = (inr tt, s')
    /\ sent s' = sent s ++ new
    /\ map type_and_content new
       = [(py "processing", None); (py "context", None);
          (py "context_found", None); (py "generating", None)]
         ++ map (fun content => (py "chunk", Some content)) contents
         ++ [(py "complete", None)]
    /\ contents <> []
    /\ concat contents = join (py " ") (split answer) ++ py " ".
Proof.
  intros Hnone Hok query answer.
  exists (mock_chunk_contents answer).
  eexists. eexists. split.
  - apply websocket_turn_ok; assumption.
  - cbn [sent]. split; [reflexivity|].
    fold query. fold answer. split.
    + unfold streamed_messages. fold answer.
      cbn [map app]. f_equal. f_equal. f_equal. f_equal.
      rewrite map_app, type_and_content_chunk_messages. reflexivity.
    + split.
      * apply mock_chunk_contents_nonempty, mock_response_has_words.
      * rewrite concat_mock_chunk_contents. symmetry.
        apply join_spaced, mock_response_has_words.
Qed.

Lemma mock_stream_notifications_witness :
  exists contents new s',
    websocket_turn mock_world gradient_descent_message initial_state
    = (inr tt, s')
    /\ sent s' = sent initial_state ++ new
    /\ map type_and_content new
       = [(py "processing", None); (py "context", None);
          (py "context_found", None); (py "generating", None)]
         ++ map (fun content => (py "chunk", Some content)) contents
         ++ [(py "complete", None)]
    /\ contents <> []
    /\ concat contents
       = join (py " ")
           (split (_generate_mock_response (py "What is gradient descent?")
                     (relevant_chunks mock_world
                        (py "What is gradient descent?"))))
         ++ py " ".
Proof.
  apply (mock_stream_notifications mock_world gradient_descent_message
           initial_state).
  - reflexivity.
  - intros j. reflexivity.
Defined.

(** C5 as stated fails in its last part: for the query of the scenario
    the messages are sent in the order claimed, but the contents of the
    chunks, put together, are not the mock answer, whose two sentences a
    blank line separates. *)
Lemma streamed_chunks_differ_from_answer :
  sent_types
    (snd (websocket_turn mock_world gradient_descent_message initial_state))
  = [py "processing"; py "context"; py "context_found"; py "generating"]
    ++ repeat (py "chunk") 14 ++ [py "complete"]
  /\ chunk_contents
       (sent (snd (websocket_turn mock_world gradient_descent_message
                     initial_state)))
     <> _generate_mock_response (py "What is gradient descent?") [].
Proof.
  split; [vm_compute; reflexivity|].
  apply str_eqb_false_neq. vm_compute. reflexivity.
Qed.

(* ================================================================== *)
(** * Streaming when a send raises *)
(* ================================================================== *)

Lemma state_eq (h1 h2 : list HistoryEntry) (m1 m2 : list Message)
  (n1 n2 c1 c2 : nat) :
  h1 = h2 -> m1 = m2 -> n1 = n2 -> c1 = c2 ->
  {| conversation_history := h1; sent := m1; send_count := n1; clock := c1 |}
  = {| conversation_history := h2; sent := m2; send_count := n2;
       clock := c2 |}.
Proof. intros -> -> -> ->. reflexivity. Qed.














(* ================================================================== *)
(** * What the streaming path records *)
(* ================================================================== *)

Lemma anonymous_answers_trans (h1 h2 h3 : list HistoryEntry) :
  anonymous_answers h1 h2 -> anonymous_answers h2 h3 ->
  anonymous_answers h1 h3.
Proof.
  intros H12 H23. induction H23 as [|h2 h3 answer t _ IH].
  - exact H12.
  - apply aa_more. apply IH. exact H12.
Qed.

Lemma records_ret {A : Type} (a : A) : records_anonymously (ret a).
Proof. intros s. apply aa_same. Qed.

Lemma records_raise {A : Type} (e : exn) :
  records_anonymously (@raise A e).
Proof. intros s. apply aa_same. Qed.

Lemma records_lift {A : Type} (r : exn + A) : records_anonymously (lift r).
Proof. destruct r; [apply records_raise | apply records_ret]. Qed.

Lemma records_now : records_anonymously now.
Proof. intros s. apply aa_same. Qed.

Lemma records_send (w : World) (msg : Message) :
  records_anonymously (send_personal_message w msg).
Proof.
  intros s. unfold send_personal_message.
  destruct (send_fault w (send_count s)); apply aa_same.
Qed.

Lemma records_bind {A B : Type} (m : M A) (k : A -> M B) :
  records_anonymously m ->
  (forall a, records_anonymously (k a)) ->
  records_anonymously (bind m k).
Proof.
  intros Hm Hk s. unfold bind.
  pose proof (Hm s) as H1.
  destruct (m s) as [[e|a] s1]; cbn [snd] in *.
  - exact H1.
  - eapply anonymous_answers_trans; [exact H1 | apply Hk].
Qed.

Lemma records_try_except {A : Type} (m : M A) (h : exn -> M A) :
  records_anonymously m ->
  (forall e, records_anonymously (h e)) ->
  records_anonymously (try_except m h).
Proof.
  intros Hm Hh s. unfold try_except.
  pose proof (Hm s) as H1.
  destruct (m s) as [[e|a] s1]; cbn [snd] in *.
  - eapply anonymous_answers_trans; [exact H1 | apply Hh].
  - exact H1.
Qed.

Lemma records_for_each {A : Type} (l : list A) (f : A -> M unit) :
  (forall x, records_anonymously (f x)) ->
  records_anonymously (for_each l f).
Proof.
  intros Hf. induction l as [|x l IH].
  - apply records_ret.
  - cbn [for_each]. apply records_bind; [apply Hf | intros _; exact IH].
Qed.

Lemma records_answer (answer : str) :
  records_anonymously (_add_to_history answer (py "assistant") None).
Proof.
  intros s. rewrite _add_to_history_run. cbn [snd conversation_history].
  apply (aa_more _ _ answer (clock s)). apply aa_same.
Qed.

Lemma records_get_relevant_context (w : World) (query : str) (n : Z) :
  records_anonymously (_get_relevant_context w query n).
Proof. intros s. rewrite _get_relevant_context_run. apply aa_same. Qed.

Ltac records_steps :=
  repeat first
    [ simple apply records_answer
    | simple apply records_get_relevant_context
    | simple apply records_now
    | simple apply records_send
    | simple apply records_lift
    | simple apply records_ret
    | simple apply records_raise
    | simple apply records_for_each; intro
    | simple apply records_try_except; [|intro]
    | simple apply records_bind; [|intro] ].

Lemma records_mock_streaming (w : World) (query : str)
  (context_chunks : list ContextChunk) :
  records_anonymously
    (_generate_mock_streaming_response w query context_chunks).
Proof.
  unfold _generate_mock_streaming_response. cbv zeta. records_steps.
Qed.

Lemma records_stream_chunks (w : World) (ds : list (option str)) :
  forall full_response,
    records_anonymously (stream_chunks w ds full_response).
Proof.
  induction ds as [|[content|] ds IH]; intros full_response;
    cbn [stream_chunks].
  - apply records_ret.
  - cbv zeta. records_steps. apply IH.
  - apply IH.
Qed.

Lemma records_consume_stream (w : World) (stream : Stream) :
  records_anonymously (consume_stream w stream).
Proof.
  unfold consume_stream.
  apply records_bind; [apply records_stream_chunks|].
  intros full_response. destruct (failure stream); records_steps.
Qed.

Lemma records_streaming_response (w : World) (query : str)
  (context_chunks : list ContextChunk) :
  records_anonymously (_generate_streaming_response w query context_chunks).
Proof.
  unfold _generate_streaming_response.
  apply records_try_except; [|intros _; apply records_mock_streaming].
  destruct (openai_client w) as [client|];
    [|apply records_mock_streaming].
  cbv zeta. records_steps. apply records_consume_stream.
Qed.

(** Whatever the search, the provider and the websocket do,
    [process_query_streaming] records the query and then only answers
    without a user id. *)
Lemma process_query_streaming_history (w : World) (query : str)
  (user_id : option str) (s : State) :
  anonymous_answers
    (history_with (conversation_history s)
       (query_entry query user_id (clock s)))
    (conversation_history
       (snd (process_query_streaming w query user_id s))).
Proof.
  unfold process_query_streaming, try_except.
  unfold bind at 1. rewrite _add_to_history_run.
  match goal with
  | |- context [match ?body ?s1 with _ => _ end] =>
      assert (Hbody : records_anonymously body)
        by (records_steps; apply records_streaming_response);
      pose proof (Hbody s1) as H1;
      destruct (body s1) as [[e|[]] s2]
  end; cbn [snd conversation_history] in *.
  - eapply anonymous_answers_trans; [exact H1|].
    match goal with
    | |- anonymous_answers _ (conversation_history (snd (?h s2))) =>
        assert (Hh : records_anonymously h) by (cbv zeta; records_steps);
        apply Hh
    end.
  - exact H1.
Qed.

Lemma In_newest {A : Type} (n : nat) (l : list A) (x : A) :
  In x (newest n l) -> In x l.
Proof.
  unfold newest. intros H.
  rewrite <- (firstn_skipn (length l - n) l). apply in_or_app. right. exact H.
Qed.

Lemma In_history_with (h : list HistoryEntry) (e x : HistoryEntry) :
  In x (history_with h e) -> In x h \/ x = e.
Proof.
  rewrite history_with_newest. intros H. apply In_newest in H.
  apply in_app_or in H. destruct H as [H|[H|[]]]; [left|right]; auto.
Qed.

Lemma anonymous_answers_In (h h' : list HistoryEntry) :
  anonymous_answers h h' ->
  forall x, In x h' ->
    In x h \/ (h_role x = py "assistant" /\ h_user_id x = None).
Proof.
  induction 1 as [|h h' answer t _ IH]; intros x Hx.
  - left. exact Hx.
  - apply In_history_with in Hx. destruct Hx as [Hx| ->].
    + apply IH. exact Hx.
    + right. split; reflexivity.
Qed.

(** C10 (as amended).  Whatever the search, the provider and the
    websocket do, every entry the streaming path adds to the history is
    the query of the user or an assistant answer stored with user id
    [None]; so for every non-empty user id [u],
    [get_conversation_history(u)] holds no assistant answer that a
    streamed query produced. *)
Theorem streamed_answers_are_anonymous (w : World) (query : str)
  (user_id : option str) (s : State) (u : str) :
  u <> [] ->
  let s' := snd (process_query_streaming w query user_id s) in
  (forall entry,
     In entry (conversation_history s') ->
     In entry (conversation_history s)
     \/ entry = query_entry query user_id (clock s)
     \/ (h_role entry = py "assistant" /\ h_user_id entry = None))
  /\ (forall entry,
        In entry (get_conversation_history s' (Some u)) ->
        h_role entry = py "assistant" ->
        In entry (conversation_history s)).
Proof.
  intros Hu s'.
  assert (Hall : forall entry,
             In entry (conversation_history s') ->
             In entry (conversation_history s)
             \/ entry = query_entry query user_id (clock s)
             \/ (h_role entry = py "assistant" /\ h_user_id entry = None)).
  { intros entry Hin.
    destruct (anonymous_answers_In _ _
                (process_query_streaming_history w query user_id s)
                entry Hin) as [Hold|Hanon].
    - apply In_history_with in Hold. destruct Hold as [Hold|Hq]; auto.
    - right. right. exact Hanon. }
  split; [exact Hall|].
  intros entry Hin Hrole.
  unfold get_conversation_history in Hin.
  destruct u as [|c u]; [congruence|]. cbn [truthy] in Hin.
  apply filter_In in Hin. destruct Hin as [Hin Hsame].
  destruct (Hall entry Hin) as [Hold|[Hq|[_ Hnone]]].
  - exact Hold.
  - subst entry. cbn [query_entry h_role] in Hrole.
    apply (f_equal (fun r => nth 0 r 0%N)) in Hrole.
    vm_compute in Hrole. discriminate.
  - rewrite Hnone in Hsame. discriminate.
Qed.

Lemma streamed_answers_are_anonymous_witness :
  (forall entry,
     In entry (conversation_history
                 (snd (process_query_streaming mock_world (py "What is SGD?")
                         (Some (py "alice")) initial_state))) ->
     In entry (conversation_history initial_state)
     \/ entry = query_entry (py "What is SGD?") (Some (py "alice"))
                  (clock initial_state)
     \/ (h_role entry = py "assistant" /\ h_user_id entry = None))
  /\ (forall entry,
        In entry (get_conversation_history
                    (snd (process_query_streaming mock_world
                            (py "What is SGD?") (Some (py "alice"))
                            initial_state))
                    (Some (py "alice"))) ->
        h_role entry = py "assistant" ->
        In entry (conversation_history initial_state)).
Proof.
  apply (streamed_answers_are_anonymous mock_world (py "What is SGD?")
           (Some (py "alice")) initial_state (py "alice")).
  discriminate.
Defined.

(** C10 as stated fails for the user id [''], which is not [None]:
    [get_conversation_history('')] returns the whole history, and with it
    the answer of a streamed query. *)
Lemma empty_user_id_sees_streamed_answer :
  Some (@nil char) <> None
  /\ exists entry,
       In entry
         (get_conversation_history
            (snd (process_query_streaming mock_world (py "What is SGD?")
                    (Some (py "alice")) initial_state))
            (Some []))
       /\ h_role entry = py "assistant"
       /\ h_user_id entry = None
       /\ h_message entry = _generate_mock_response (py "What is SGD?") []
       /\ ~ In entry (conversation_history initial_state).
Proof.
  split; [discriminate|].
  exists (streamed_answer_entry
            (_generate_mock_response (py "What is SGD?") []) 19%nat).
  split.
  - vm_compute. right. left. reflexivity.
  - repeat split. intros [].
Qed.

(* ================================================================== *)
(** * More about [strip] *)
(* ================================================================== *)

(** [lstrip] removes a blank prefix, and what is left does not start with
    white space. *)
Lemma lstrip_split (s : str) :
  exists sp, s = sp ++ lstrip s /\ blank sp.
Proof.
  induction s as [|c s [sp [Hs Hsp]]].
  - exists []. split; [reflexivity | constructor].
  - simpl. destruct (isspace c) eqn:Hc.
    + exists (c :: sp). split.
      * simpl. rewrite <- Hs. reflexivity.
      * constructor; assumption.
    + exists []. split; [reflexivity | constructor].
Qed.

Lemma lstrip_head (s : str) (c : char) (rest : str) :
  lstrip s = c :: rest -> isspace c = false.
Proof.
  induction s as [|x s IH]; simpl; [discriminate|].
  destruct (isspace x) eqn:Hx; [exact IH|].
  intros H. injection H as <- _. exact Hx.
Qed.

Lemma blank_rev (s : str) : blank s -> blank (rev s).
Proof. apply Forall_rev. Qed.

Lemma blank_app (a b : str) : blank a -> blank b -> blank (a ++ b).
Proof. intros Ha Hb. apply Forall_app. split; assumption. Qed.

(** [rstrip] removes a blank suffix. *)
Lemma rstrip_split (s : str) :
  exists sp, s = rstrip s ++ sp /\ blank sp.
Proof.
  unfold rstrip. destruct (lstrip_split (rev s)) as [sp [Hs Hsp]].
  exists (rev sp). split; [|apply blank_rev; exact Hsp].
  rewrite <- rev_app_distr, <- Hs, rev_involutive. reflexivity.
Qed.

(** A text is its stripped text between two blank margins. *)
Lemma strip_split (s : str) :
  exists before after,
    s = before ++ strip s ++ after /\ blank before /\ blank after.
Proof.
  destruct (lstrip_split s) as [before [Hl Hbefore]].
  destruct (rstrip_split (lstrip s)) as [after [Hr Hafter]].
  exists before, after. unfold strip. split; [|split; assumption].
  rewrite <- Hr. exact Hl.
Qed.

Lemma lstrip_blank (s : str) : blank s -> lstrip s = [].
Proof.
  induction 1 as [|c s Hc _ IH]; [reflexivity|].
  simpl. rewrite Hc. exact IH.
Qed.

Lemma strip_blank (s : str) : blank s -> strip s = [].
Proof.
  intros H. unfold strip, rstrip. rewrite (lstrip_blank s H). reflexivity.
Qed.

(** Only a blank text strips to nothing. *)
Lemma strip_nil_blank (s : str) : strip s = [] -> blank s.
Proof.
  intros H. destruct (strip_split s) as [before [after [Hs [Hb Ha]]]].
  rewrite H in Hs. rewrite Hs. apply blank_app; assumption.
Qed.

(** A stripped text starts with a character that is not white space. *)
Lemma strip_head (s : str) (c : char) (rest : str) :
  strip s = c :: rest -> isspace c = false.
Proof.
  intros H. destruct (rstrip_split (lstrip s)) as [sp [Hs _]].
  fold (strip s) in Hs. rewrite H in Hs.
  apply (lstrip_head s c (rest ++ sp)). exact Hs.
Qed.

(** And it ends with one. *)
Lemma strip_last (s : str) (c : char) (front : str) :
  strip s = front ++ [c] -> isspace c = false.
Proof.
  unfold strip, rstrip. intros H.
  apply (f_equal (@rev char)) in H.
  rewrite rev_involutive, rev_app_distr in H. simpl in H.
  apply (lstrip_head _ _ _ H).
Qed.

(* ================================================================== *)
(** * More about the chunks of [chunk_text] *)
(* ================================================================== *)

(** X1.  A text of white space only, the empty one included, has no
    chunks, whatever the sizes of the chunker; the loop is not entered. *)
Theorem chunk_text_blank_text (self : DocumentChunker) (fuel : nat)
  (txt source : str) :
  blank txt -> chunk_text self fuel txt source = Some [].
Proof.
  intros Hblank. unfold chunk_text. rewrite (strip_blank txt Hblank).
  reflexivity.
Qed.

Lemma chunk_text_blank_text_witness :
  chunk_text default_chunker 0 [32; 10; 9; 160; 8195]%N (py "notes.txt")
  = Some [].
Proof.
  apply (chunk_text_blank_text default_chunker 0 [32; 10; 9; 160; 8195]%N
           (py "notes.txt")).
  repeat constructor.
Defined.

Lemma chunk_loop_content (self : DocumentChunker) (txt source : str)
  (fuel : nat) :
  forall chunks start id res,
    Forall (content_ok txt source) chunks ->
    chunk_loop fuel self txt source chunks start id = Some res ->
    Forall (content_ok txt source) res.
Proof.
  induction fuel as [|fuel IH]; intros chunks start id res Hok Hrun.
  - discriminate.
  - simpl in Hrun.
    destruct (start <? len txt); [|injection Hrun as <-; exact Hok].
    assert (Hok' :
      Forall (content_ok txt source)
        match strip (slice txt start (chunk_end self txt start)) with
        | [] => chunks
        | _ :: _ =>
            chunks ++
            [{| text := strip (slice txt start (chunk_end self txt start));
                start_pos := start;
                end_pos := chunk_end self txt start;
                chunk_id := id;
                metadata :=
                  {| md_chunk_size :=
                       len (strip (slice txt start (chunk_end self txt start)));
                     md_source := source;
                     md_total_chunks := 0 |} |}]
        end).
    { destruct (strip (slice txt start (chunk_end self txt start))) eqn:Hs;
        [exact Hok|].
      apply Forall_app. split; [exact Hok|].
      constructor; [|constructor].
      unfold content_ok; simpl. rewrite Hs.
      repeat split; try reflexivity. discriminate. }
    destruct (chunk_end self txt start - chunk_overlap self >=? len txt).
    + injection Hrun as <-. exact Hok'.
    + eapply IH; [exact Hok'|exact Hrun].
Qed.

(** X3.  Every chunk holds the stripped slice of the text between its
    positions; the text of a chunk is never empty, starts and ends with a
    character that is not white space, and its recorded size and source
    are the length of that text and the source given. *)
Theorem chunk_text_content (self : DocumentChunker) (fuel : nat)
  (txt source : str) (chunks : list Chunk) :
  chunk_text self fuel txt source = Some chunks ->
  Forall (fun c => content_ok txt source c
                   /\ isspace (hd 0%N (text c)) = false
                   /\ isspace (last (text c) 0%N) = false) chunks.
Proof.
  unfold chunk_text. intros Hrun.
  destruct (strip txt) as [|c0 r0]; [injection Hrun as <-; constructor|].
  destruct (chunk_loop fuel self txt source [] 0 0) as [res|] eqn:Hloop;
    [|discriminate].
  injection Hrun as <-. apply Forall_map.
  eapply Forall_impl;
    [|exact (chunk_loop_content self txt source fuel [] 0 0 res
               (Forall_nil _) Hloop)].
  intros c [Htext [Hne [Hsize Hsource]]].
  split; [repeat split; assumption|]. cbn [set_total_chunks text].
  split.
  - destruct (text c) as [|first rest] eqn:Hc; [congruence|].
    cbn [hd]. symmetry in Htext. apply (strip_head _ _ _ Htext).
  - destruct (exists_last Hne) as [front [final Hc]].
    rewrite Hc, last_last. rewrite Hc in Htext. symmetry in Htext.
    apply (strip_last _ _ _ Htext).
Qed.

Lemma chunk_text_content_witness :
  Forall (fun c => content_ok (py "  Gradient descent. ") (py "notes.txt") c
                   /\ isspace (hd 0%N (text c)) = false
                   /\ isspace (last (text c) 0%N) = false)
    [chunk_of (py "Gradient descent.") (py "notes.txt") 0 1000 0 1].
Proof.
  apply (chunk_text_content default_chunker 1 (py "  Gradient descent. ")
           (py "notes.txt")).
  vm_compute. reflexivity.
Defined.

Lemma chunk_loop_numbering (self : DocumentChunker) (txt source : str)
  (fuel : nat) :
  forall chunks start res,
    map chunk_id chunks = map Z.of_nat (seq 0 (length chunks)) ->
    chunk_loop fuel self txt source chunks start (len chunks) = Some res ->
    map chunk_id res = map Z.of_nat (seq 0 (length res)).
Proof.
  induction fuel as [|fuel IH]; intros chunks start res Hids Hrun.
  - discriminate.
  - simpl in Hrun.
    destruct (start <? len txt); [|injection Hrun as <-; exact Hids].
    destruct (strip (slice txt start (chunk_end self txt start)))
      as [|c0 rest0].
    + destruct (chunk_end self txt start - chunk_overlap self >=? len txt).
      * injection Hrun as <-. exact Hids.
      * eapply IH; [exact Hids|exact Hrun].
    + match type of Hrun with
      | context [chunks ++ [?c]] => set (new := c) in *
      end.
      assert (Hids' : map chunk_id (chunks ++ [new])
                      = map Z.of_nat (seq 0 (length (chunks ++ [new])))).
      { rewrite map_app, length_app, Hids. cbn [length map].
        rewrite Nat.add_1_r, seq_S, map_app. reflexivity. }
      replace (len chunks + 1) with (len (chunks ++ [new])) in Hrun
        by (rewrite len_app; reflexivity).
      destruct (chunk_end self txt start - chunk_overlap self >=? len txt).
      * injection Hrun as <-. exact Hids'.
      * eapply IH; [exact Hids'|exact Hrun].
Qed.

(** X2.  The chunks are numbered 0, 1, 2, ... in the order they are
    returned, and each one records the number of chunks returned. *)
Theorem chunk_text_numbering (self : DocumentChunker) (fuel : nat)
  (txt source : str) (chunks : list Chunk) :
  chunk_text self fuel txt source = Some chunks ->
  map chunk_id chunks = map Z.of_nat (seq 0 (length chunks))
  /\ Forall (fun c => md_total_chunks (metadata c) = len chunks) chunks.
Proof.
  unfold chunk_text. intros Hrun.
  destruct (strip txt) as [|c0 r0];
    [injection Hrun as <-; split; [reflexivity|constructor]|].
  destruct (chunk_loop fuel self txt source [] 0 0) as [res|] eqn:Hloop;
    [|discriminate].
  injection Hrun as <-. split.
  - rewrite map_map, length_map. cbn [set_total_chunks chunk_id].
    change (map (fun x => chunk_id x) res) with (map chunk_id res).
    apply (chunk_loop_numbering self txt source fuel [] 0 res);
      [reflexivity | exact Hloop].
  - apply Forall_map. apply Forall_forall. intros c _.
    cbn [set_total_chunks metadata md_total_chunks].
    unfold len. rewrite length_map. reflexivity.
Qed.

Lemma chunk_text_numbering_witness :
  map chunk_id
    [chunk_of (repeat 97%N 900) (py "text_input") 0 1000 0 2;
     chunk_of (repeat 97%N 100) (py "text_input") 800 1800 1 2]
  = map Z.of_nat (seq 0 2)
  /\ Forall (fun c => md_total_chunks (metadata c) = 2)
       [chunk_of (repeat 97%N 900) (py "text_input") 0 1000 0 2;
        chunk_of (repeat 97%N 100) (py "text_input") 800 1800 1 2].
Proof.
  apply (chunk_text_numbering default_chunker 2 (repeat 97%N 900)
           (py "text_input")).
  vm_compute. reflexivity.
Defined.

(** A character of the text, at a position inside a slice, is in the
    slice. *)
Lemma slice_holds {A : Type} (s : list A) (a b : Z) (p : nat) (x : A) :
  0 <= a <= Z.of_nat p -> Z.of_nat p < b ->
  nth_error s p = Some x ->
  In x (slice s a b).
Proof.
  intros Ha Hb Hx.
  assert (p < length s)%nat as Hp
    by (apply nth_error_Some; rewrite Hx; discriminate).
  unfold slice.
  rewrite !clamp_index_nonneg by lia.
  apply (nth_error_In _ (p - Z.to_nat a)).
  rewrite nth_error_firstn, nth_error_skipn.
  replace (Z.to_nat (Z.min a (len s)) + (p - Z.to_nat a))%nat with p
    by (unfold len; lia).
  destruct (Nat.ltb_spec (p - Z.to_nat a)
              (Z.to_nat (Z.min b (len s) - Z.min a (len s))));
    [exact Hx | unfold len in *; lia].
Qed.

(** A slice that holds a character that is not white space does not
    strip to nothing. *)
Lemma strip_slice_nonempty (txt : str) (a b : Z) (p : nat) (c : char) :
  0 <= a <= Z.of_nat p -> Z.of_nat p < b ->
  nth_error txt p = Some c -> isspace c = false ->
  strip (slice txt a b) <> [].
Proof.
  intros Ha Hb Hc Hspace Hnil.
  apply strip_nil_blank in Hnil.
  pose proof (slice_holds txt a b p c Ha Hb Hc) as Hin.
  unfold blank in Hnil. rewrite Forall_forall in Hnil.
  rewrite (Hnil c Hin) in Hspace. discriminate.
Qed.

Lemma covered_app (chunks more : list Chunk) (p : Z) :
  covered chunks p -> covered (chunks ++ more) p.
Proof.
  intros [c [Hin Hp]]. exists c. split; [|exact Hp].
  apply in_or_app. left. exact Hin.
Qed.

Section WellFormedChunkerMore.

Variable self : DocumentChunker.
Hypothesis overlap_nonneg : 0 <= chunk_overlap self.
Hypothesis overlap_room : chunk_overlap self + 200 <= chunk_size self.

Lemma chunk_loop_covers (txt source : str) (fuel : nat) :
  forall chunks start id res frontier,
    0 <= start <= frontier ->
    (forall p c, Z.of_nat p < frontier -> nth_error txt p = Some c ->
                 isspace c = false -> covered chunks (Z.of_nat p)) ->
    chunk_loop fuel self txt source chunks start id = Some res ->
    forall p c, nth_error txt p = Some c -> isspace c = false ->
                covered res (Z.of_nat p).
Proof.
  induction fuel as [|fuel IH];
    intros chunks start id res frontier Hstart Hcov Hrun p c Hc Hspace.
  - discriminate.
  - assert (Z.of_nat p < len txt) as Hp.
    { assert (p < length txt)%nat
        by (apply nth_error_Some; rewrite Hc; discriminate).
      unfold len. lia. }
    simpl in Hrun.
    destruct (Z.ltb_spec start (len txt)) as [Hlt|Hge].
    2:{ injection Hrun as <-. apply (Hcov p c); [lia|assumption..]. }
    pose proof (chunk_loop_progress self overlap_nonneg overlap_room
                  txt start ltac:(lia)) as Hprog.
    set (end_ := chunk_end self txt start) in *.
    match type of Hrun with
    | context [if _ then Some ?l else _] => set (chunks' := l) in *
    end.
    assert (Hcov' :
      forall q d, Z.of_nat q < Z.max frontier end_ ->
                  nth_error txt q = Some d -> isspace d = false ->
                  covered chunks' (Z.of_nat q)).
    { intros q d Hq Hd Hdspace. subst chunks'.
      destruct (Z_lt_ge_dec (Z.of_nat q) frontier) as [Hold|Hnew].
      - pose proof (Hcov q d Hold Hd Hdspace) as Hc0.
        destruct (strip (slice txt start end_));
          [exact Hc0 | apply covered_app; exact Hc0].
      - pose proof (strip_slice_nonempty txt start end_ q d
                      ltac:(lia) ltac:(lia) Hd Hdspace) as Hne.
        destruct (strip (slice txt start end_)) as [|c0 r0] eqn:Hs;
          [congruence|].
        eexists. split; [apply in_or_app; right; left; reflexivity|].
        cbn [start_pos end_pos]. lia. }
    destruct (Z.geb_spec (end_ - chunk_overlap self) (len txt))
      as [Hdone|Hmore].
    + injection Hrun as <-. apply (Hcov' p c); [lia|assumption..].
    + eapply (IH _ _ _ _ (Z.max frontier end_)); try eassumption. lia.
Qed.

Lemma chunk_loop_follows (txt source : str) (fuel : nat) :
  forall chunks start id res,
    0 <= start ->
    (forall i c1 c2, nth_error chunks i = Some c1 ->
                     nth_error chunks (S i) = Some c2 -> follows self c1 c2) ->
    (forall c, In c chunks ->
               start_pos c < start /\ end_pos c - chunk_overlap self <= start) ->
    chunk_loop fuel self txt source chunks start id = Some res ->
    forall i c1 c2, nth_error res i = Some c1 ->
                    nth_error res (S i) = Some c2 -> follows self c1 c2.
Proof.
  induction fuel as [|fuel IH];
    intros chunks start id res Hstart Hadj Hlast Hrun.
  - discriminate.
  - simpl in Hrun.
    destruct (Z.ltb_spec start (len txt)) as [Hlt|Hge].
    2:{ injection Hrun as <-. exact Hadj. }
    pose proof (chunk_loop_progress self overlap_nonneg overlap_room
                  txt start Hstart) as Hprog.
    set (end_ := chunk_end self txt start) in *.
    match type of Hrun with
    | context [if _ then Some ?l else _] => set (chunks' := l) in *
    end.
    assert (Hboth :
      (forall i c1 c2, nth_error chunks' i = Some c1 ->
                       nth_error chunks' (S i) = Some c2 ->
                       follows self c1 c2)
      /\ (forall c, In c chunks' ->
                    start_pos c < end_ - chunk_overlap self
                    /\ end_pos c - chunk_overlap self
                       <= end_ - chunk_overlap self)).
    { subst chunks'.
      destruct (strip (slice txt start end_)) as [|c0 r0].
      - split; [exact Hadj|]. intros c Hin.
        destruct (Hlast c Hin). lia.
      - split.
        + intros i c1 c2 H1 H2.
          destruct (Nat.lt_ge_cases (S i) (length chunks)) as [Hin|Hout].
          * rewrite nth_error_app1 in H1 by lia.
            rewrite nth_error_app1 in H2 by lia.
            exact (Hadj i c1 c2 H1 H2).
          * rewrite nth_error_app2 in H2 by lia.
            destruct (S i - length chunks)%nat as [|[|j]] eqn:Hj;
              cbn [nth_error] in H2; try discriminate.
            injection H2 as <-.
            rewrite nth_error_app1 in H1 by lia.
            apply nth_error_In in H1. destruct (Hlast c1 H1).
            unfold follows. cbn [start_pos]. lia.
        + intros c Hin. apply in_app_or in Hin.
          destruct Hin as [Hin|[<-|[]]].
          * destruct (Hlast c Hin). lia.
          * cbn [start_pos end_pos]. fold end_. lia. }
    destruct Hboth as [Hadj' Hlast'].
    destruct (Z.geb_spec (end_ - chunk_overlap self) (len txt))
      as [Hdone|Hmore].
    + injection Hrun as <-. exact Hadj'.
    + eapply IH; [|exact Hadj'|exact Hlast'|exact Hrun]. lia.
Qed.

Lemma chunk_text_covers_wf (fuel : nat) (txt source : str)
  (chunks : list Chunk) (p : nat) (c : char) :
  chunk_text self fuel txt source = Some chunks ->
  nth_error txt p = Some c -> isspace c = false ->
  covered chunks (Z.of_nat p).
Proof.
  unfold chunk_text. intros Hrun Hc Hspace.
  destruct (strip txt) as [|c0 r0] eqn:Hs.
  - apply strip_nil_blank in Hs. unfold blank in Hs.
    rewrite Forall_forall in Hs.
    rewrite (Hs c (nth_error_In _ _ Hc)) in Hspace. discriminate.
  - destruct (chunk_loop fuel self txt source [] 0 0) as [res|] eqn:Hloop;
      [|discriminate].
    injection Hrun as <-.
    destruct (chunk_loop_covers txt source fuel [] 0 0 res 0
                ltac:(lia) ltac:(intros; lia) Hloop p c Hc Hspace)
      as [ch [Hin Hp]].
    exists (set_total_chunks (len res) ch). split; [|exact Hp].
    apply in_map. exact Hin.
Qed.

Lemma chunk_text_follows_wf (fuel : nat) (txt source : str)
  (chunks : list Chunk) (i : nat) (c1 c2 : Chunk) :
  chunk_text self fuel txt source = Some chunks ->
  nth_error chunks i = Some c1 -> nth_error chunks (S i) = Some c2 ->
  follows self c1 c2.
Proof.
  unfold chunk_text. intros Hrun H1 H2.
  destruct (strip txt) as [|c0 r0].
  - injection Hrun as <-. destruct i; discriminate.
  - destruct (chunk_loop fuel self txt source [] 0 0) as [res|] eqn:Hloop;
      [|discriminate].
    injection Hrun as <-.
    rewrite nth_error_map in H1, H2.
    destruct (nth_error res i) as [d1|] eqn:Hd1; [|discriminate].
    destruct (nth_error res (S i)) as [d2|] eqn:Hd2; [|discriminate].
    injection H1 as <-. injection H2 as <-.
    apply (chunk_loop_follows txt source fuel [] 0 0 res
             ltac:(lia)
             ltac:(intros [|j] ? ? ?; discriminate)
             ltac:(intros ? [])
             Hloop i d1 d2 Hd1 Hd2).
Qed.

End WellFormedChunkerMore.

(** X4.  With [0 <= chunk_overlap] and
    [chunk_overlap + 200 <= chunk_size], no text is lost: every character
    of the text that is not white space lies between the positions of
    some chunk. *)
Theorem chunk_text_covers (self : DocumentChunker) (fuel : nat)
  (txt source : str) (chunks : list Chunk) (p : nat) (c : char) :
  0 <= chunk_overlap self ->
  chunk_overlap self + 200 <= chunk_size self ->
  chunk_text self fuel txt source = Some chunks ->
  nth_error txt p = Some c ->
  isspace c = false ->
  exists chunk,
    In chunk chunks /\ start_pos chunk <= Z.of_nat p < end_pos chunk.
Proof.
  intros Hov Hroom Hrun Hc Hspace.
  exact (chunk_text_covers_wf self Hov Hroom fuel txt source chunks p c
           Hrun Hc Hspace).
Qed.

Lemma chunk_text_covers_witness :
  exists chunk,
    In chunk [chunk_of (repeat 97%N 900) (py "text_input") 0 1000 0 2;
              chunk_of (repeat 97%N 100) (py "text_input") 800 1800 1 2]
    /\ start_pos chunk <= Z.of_nat 850 < end_pos chunk.
Proof.
  apply (chunk_text_covers default_chunker 2 (repeat 97%N 900)
           (py "text_input")
           [chunk_of (repeat 97%N 900) (py "text_input") 0 1000 0 2;
            chunk_of (repeat 97%N 100) (py "text_input") 800 1800 1 2]
           850 97%N).
  - simpl. lia.
  - simpl. lia.
  - vm_compute. reflexivity.
  - reflexivity.
  - reflexivity.
Defined.

(** X5.  With [0 <= chunk_overlap] and
    [chunk_overlap + 200 <= chunk_size], the chunks are returned in the
    order of their start positions, and a chunk starts at most
    [chunk_overlap] characters before the end of the chunk returned
    before it. *)
Theorem chunk_text_follows (self : DocumentChunker) (fuel : nat)
  (txt source : str) (chunks : list Chunk) (i : nat) (c1 c2 : Chunk) :
  0 <= chunk_overlap self ->
  chunk_overlap self + 200 <= chunk_size self ->
  chunk_text self fuel txt source = Some chunks ->
  nth_error chunks i = Some c1 ->
  nth_error chunks (S i) = Some c2 ->
  start_pos c1 < start_pos c2
  /\ end_pos c1 - chunk_overlap self <= start_pos c2.
Proof.
  intros Hov Hroom Hrun H1 H2.
  exact (chunk_text_follows_wf self Hov Hroom fuel txt source chunks i c1 c2
           Hrun H1 H2).
Qed.

Lemma chunk_text_follows_witness :
  start_pos (chunk_of (repeat 97%N 900) (py "text_input") 0 1000 0 2)
  < start_pos (chunk_of (repeat 97%N 100) (py "text_input") 800 1800 1 2)
  /\ end_pos (chunk_of (repeat 97%N 900) (py "text_input") 0 1000 0 2)
     - chunk_overlap default_chunker
     <= start_pos (chunk_of (repeat 97%N 100) (py "text_input") 800 1800 1 2).
Proof.
  apply (chunk_text_follows default_chunker 2 (repeat 97%N 900)
           (py "text_input")
           [chunk_of (repeat 97%N 900) (py "text_input") 0 1000 0 2;
            chunk_of (repeat 97%N 100) (py "text_input") 800 1800 1 2]
           0).
  - simpl. lia.
  - simpl. lia.
  - vm_compute. reflexivity.
  - reflexivity.
  - reflexivity.
Defined.

Lemma chunk_loop_stuck (self : DocumentChunker) (txt source : str)
  (fuel : nat) :
  chunk_overlap self = chunk_size self ->
  0 < len txt <= chunk_size self ->
  forall chunks id, chunk_loop fuel self txt source chunks 0 id = None.
Proof.
  intros Hsame Hlen.
  induction fuel as [|fuel IH]; intros chunks id; [reflexivity|].
  simpl.
  destruct (Z.ltb_spec 0 (len txt)); [|lia].
  rewrite chunk_end_at_end by lia.
  rewrite Hsame.
  replace (0 + chunk_size self - chunk_size self) with 0 by lia.
  destruct (Z.geb_spec 0 (len txt)); [lia|].
  apply IH.
Qed.

(** X6.  A chunker whose [chunk_overlap] equals its [chunk_size] never
    returns on a text that is not blank and no longer than [chunk_size]:
    [start] stays 0, and the loop runs on whatever fuel it is given. *)
Theorem chunk_text_full_overlap_diverges (self : DocumentChunker)
  (txt source : str) (fuel : nat) :
  chunk_overlap self = chunk_size self ->
  strip txt <> [] ->
  len txt <= chunk_size self ->
  chunk_text self fuel txt source = None.
Proof.
  intros Hsame Hstrip Hlen.
  pose proof (strip_nonempty_len txt Hstrip) as Hpos.
  unfold chunk_text.
  destruct (strip txt) as [|c0 r0]; [congruence|].
  rewrite (chunk_loop_stuck self txt source fuel Hsame); [reflexivity|lia].
Qed.

Lemma chunk_text_full_overlap_diverges_witness :
  chunk_text full_overlap_chunker 1000 (py "Gradient descent.")
    (py "notes.txt")
  = None.
Proof.
  apply (chunk_text_full_overlap_diverges full_overlap_chunker
           (py "Gradient descent.") (py "notes.txt") 1000).
  - reflexivity.
  - vm_compute. discriminate.
  - vm_compute. discriminate.
Defined.

Lemma script_chunk_loop_agrees (self : DocumentChunker) (txt source : str)
  (fuel : nat) :
  forall schunks chunks start,
    map script_chunk_core schunks = map chunk_core chunks ->
    option_map (map script_chunk_core)
      (script_chunk_loop fuel self txt schunks start)
    = option_map (map chunk_core)
        (chunk_loop fuel self txt source chunks start (len chunks)).
Proof.
  induction fuel as [|fuel IH]; intros schunks chunks start Hsame;
    [reflexivity|].
  assert (Hlen : len schunks = len chunks).
  { unfold len. f_equal.
    rewrite <- (length_map script_chunk_core schunks), Hsame.
    apply length_map. }
  simpl.
  destruct (start <? len txt); [|simpl; f_equal; exact Hsame].
  destruct (strip (slice txt start (chunk_end self txt start)))
    as [|c0 r0].
  - destruct (chunk_end self txt start - chunk_overlap self >=? len txt).
    + simpl. f_equal. exact Hsame.
    + apply IH. exact Hsame.
  - match goal with
    | |- context [schunks ++ [?c]] => set (snew := c)
    end.
    match goal with
    | |- context [chunks ++ [?c]] => set (new := c)
    end.
    assert (Hsame' : map script_chunk_core (schunks ++ [snew])
                     = map chunk_core (chunks ++ [new])).
    { rewrite !map_app, Hsame. subst snew new.
      unfold script_chunk_core, chunk_core. cbn. rewrite Hlen.
      reflexivity. }
    replace (len chunks + 1) with (len (chunks ++ [new]))
      by (rewrite len_app; reflexivity).
    destruct (chunk_end self txt start - chunk_overlap self >=? len txt).
    + simpl. f_equal. exact Hsame'.
    + apply IH. exact Hsame'.
Qed.

(** X7.  The chunker of [scripts/chunker.py] and the chunker of the
    backend cut every text alike: whatever the sizes and the fuel, they
    return chunks with the same texts, positions, numbers and sizes (the
    backend adds the source and the number of chunks). *)
Theorem script_chunk_text_agrees (self : DocumentChunker) (fuel : nat)
  (txt source : str) :
  option_map (map script_chunk_core) (script_chunk_text self fuel txt)
  = option_map (map chunk_core) (chunk_text self fuel txt source).
Proof.
  unfold script_chunk_text, chunk_text.
  destruct (strip txt) as [|c0 r0]; [reflexivity|].
  pose proof (script_chunk_loop_agrees self txt source fuel [] [] 0
                eq_refl) as H.
  change (len (@nil Chunk)) with 0 in H.
  destruct (chunk_loop fuel self txt source [] 0 0) as [res|];
    destruct (script_chunk_loop fuel self txt [] 0) as [sres|];
    simpl in *; try discriminate; [|reflexivity].
  injection H as H. f_equal. rewrite H, map_map. reflexivity.
Qed.

(* ================================================================== *)
(** * More about the conversation history *)
(* ================================================================== *)

Lemma str_eqb_eq (a b : str) : str_eqb a b = true <-> a = b.
Proof.
  split; [|intros ->; apply str_eqb_refl].
  revert b. induction a as [|x a IH]; intros [|y b]; simpl;
    try discriminate; [reflexivity|].
  intros H. apply andb_prop in H. destruct H as [Hxy Hab].
  apply N.eqb_eq in Hxy. subst y. f_equal. apply IH. exact Hab.
Qed.

Lemma opt_str_eqb_eq (a b : option str) : opt_str_eqb a b = true <-> a = b.
Proof.
  destruct a as [a|], b as [b|]; simpl; split; try discriminate;
    try reflexivity.
  - intros H. apply str_eqb_eq in H. subst b. reflexivity.
  - intros H. injection H as ->. apply str_eqb_refl.
Qed.

Lemma opt_str_eqb_neq (a b : option str) :
  a <> b -> opt_str_eqb a b = false.
Proof.
  intros H. destruct (opt_str_eqb a b) eqn:E; [|reflexivity].
  apply opt_str_eqb_eq in E. contradiction.
Qed.

Lemma filter_filter_and {A : Type} (f g : A -> bool) (l : list A) :
  filter f (filter g l) = filter (fun x => g x && f x) l.
Proof.
  induction l as [|x l IH]; [reflexivity|].
  simpl. destruct (g x); simpl; [destruct (f x)|]; rewrite IH; reflexivity.
Qed.

Lemma filter_none {A : Type} (f : A -> bool) (l : list A) :
  (forall x, In x l -> f x = false) -> filter f l = [].
Proof.
  induction l as [|x l IH]; intros H; [reflexivity|].
  simpl. rewrite (H x (or_introl eq_refl)). apply IH.
  intros y Hy. apply H. right. exact Hy.
Qed.

(** X8.  After [clear_history(u)] for a user id that is not empty, the
    history of [u] is empty and the history of every other user is as it
    was. *)
Theorem clear_history_of_one_user (s : State) (u : str) :
  u <> [] ->
  let s' := snd (clear_history (Some u) s) in
  get_conversation_history s' (Some u) = []
  /\ forall v, v <> [] -> v <> u ->
       get_conversation_history s' (Some v)
       = get_conversation_history s (Some v).
Proof.
  intros Hu s'. subst s'.
  destruct u as [|c u]; [congruence|].
  unfold get_conversation_history, clear_history.
  cbn [snd conversation_history truthy]. split.
  - rewrite filter_filter_and. apply filter_none. intros e _. cbv beta.
    match goal with
    | |- context [opt_str_eqb ?a ?b] => destruct (opt_str_eqb a b)
    end; reflexivity.
  - intros v Hv Hvu. destruct v as [|d v]; [congruence|]. cbn [truthy].
    rewrite filter_filter_and. apply filter_ext. intros e. cbv beta.
    match goal with
    | |- _ = opt_str_eqb ?a ?b => destruct (opt_str_eqb a b) eqn:Ev
    end; [|apply andb_false_r].
    apply opt_str_eqb_eq in Ev. rewrite Ev.
    rewrite opt_str_eqb_neq by congruence. reflexivity.
Qed.

Lemma clear_history_of_one_user_witness :
  get_conversation_history (snd (clear_history (Some (py "alice"))
                                   three_entries))
    (Some (py "alice")) = []
  /\ forall v, v <> [] -> v <> py "alice" ->
       get_conversation_history (snd (clear_history (Some (py "alice"))
                                        three_entries)) (Some v)
       = get_conversation_history three_entries (Some v).
Proof.
  apply (clear_history_of_one_user three_entries (py "alice")).
  discriminate.
Defined.

Lemma newest_app_exact {A : Type} (old recent : list A) :
  newest (length recent) (old ++ recent) = recent.
Proof.
  unfold newest. rewrite length_app.
  replace (length old + length recent - length recent)%nat
    with (length old) by lia.
  rewrite skipn_app, skipn_all, Nat.sub_diag. reflexivity.
Qed.

(** [l[-5:]] is the 5 newest elements. *)
Lemma slice_last_5 {A : Type} (l : list A) :
  slice l (-5) (len l) = newest 5 l.
Proof.
  unfold slice, newest, clamp_index.
  pose proof (len_nonneg l) as Hn.
  replace (-5 <? 0) with true by reflexivity.
  destruct (Z.ltb_spec (len l) 0); [lia|].
  rewrite Z.min_id.
  replace (Z.to_nat (Z.max (-5 + len l) 0)) with (length l - 5)%nat
    by (unfold len; lia).
  rewrite firstn_all2; [reflexivity|].
  rewrite length_skipn. unfold len. lia.
Qed.

Lemma _build_conversation_history_nonempty (w : World)
  (h : list CallerEntry) :
  h <> [] ->
  _build_conversation_history w (Some h)
  = match history_lines w (newest 5 h) with
    | inl e => inl e
    | inr history_parts => inr (join nl history_parts)
    end.
Proof.
  intros Hne. unfold _build_conversation_history.
  destruct h as [|e h]; [congruence|].
  rewrite slice_last_5. reflexivity.
Qed.

(** X9.  Only the last five entries of the history a caller passes in
    reach the prompt: older entries change neither the text built from it
    nor whether building it raises. *)
Theorem conversation_history_last_five (w : World)
  (old recent : list CallerEntry) :
  length recent = 5%nat ->
  _build_conversation_history w (Some (old ++ recent))
  = _build_conversation_history w (Some recent).
Proof.
  intros Hfive.
  assert (recent <> []) as Hne by (destruct recent; discriminate).
  rewrite !_build_conversation_history_nonempty;
    [|exact Hne|destruct old; [exact Hne|discriminate]].
  rewrite <- Hfive at 1. rewrite newest_app_exact.
  rewrite newest_short by lia. reflexivity.
Qed.

Lemma conversation_history_last_five_witness :
  _build_conversation_history mock_world
    (Some ([ {| c_role := Some (PyOther (py "42")); c_message := None |} ]
           ++ repeat (caller_entry (py "user") (py "And then?")) 5))
  = _build_conversation_history mock_world
      (Some (repeat (caller_entry (py "user") (py "And then?")) 5)).
Proof.
  apply (conversation_history_last_five mock_world).
  reflexivity.
Defined.

(* ================================================================== *)
(** * Streaming with a provider *)
(* ================================================================== *)

(** The loop over the provider's chunks when every send succeeds. *)
Lemma stream_chunks_ok (w : World) (ds : list (option str)) :
  (forall j, send_fault w j = None) ->
  forall full_response s,
    stream_chunks w ds full_response s
    = (inr (full_response ++ concat (streamed_contents ds)),
       {| conversation_history := conversation_history s;
          sent := sent s ++ chunk_messages (streamed_contents ds) (clock s);
          send_count := (length (streamed_contents ds) + send_count s)%nat;
          clock := (length (streamed_contents ds) + clock s)%nat |}).
Proof.
  intros Hok.
  induction ds as [|[content|] ds IH]; intros full_response s;
    cbn [stream_chunks streamed_contents].
  - unfold ret. cbn [concat chunk_messages length].
    rewrite !app_nil_r. destruct s; reflexivity.
  - cbv zeta. rewrite emit_ok by apply Hok. rewrite IH.
    cbn [conversation_history sent send_count clock concat chunk_messages
         length].
    rewrite <- !app_assoc, !Nat.add_succ_r. reflexivity.
  - apply IH.
Qed.

Lemma type_and_content_mock_messages (answer : str) (t : instant) :
  map type_and_content (mock_messages answer t)
  = mock_stream_shape (mock_chunk_contents answer).
Proof.
  unfold mock_messages, mock_stream_shape.
  rewrite !map_app, type_and_content_chunk_messages. reflexivity.
Qed.




(** [_generate_streaming_response] with a provider whose stream breaks,
    when every send succeeds: what the provider delivered is sent, then
    the whole mock stream. *)
Lemma provider_streaming_fallback (w : World) (client : OpenAIClient)
  (query : str) (context_chunks : list ContextChunk) (s : State) :
  let r := chat_stream client SYSTEM_PROMPT
             (create_tutor_prompt query (_build_context_text context_chunks)
                []) in
  let partial := delivered_before_break r in
  let p := length partial in
  let answer := _generate_mock_response query context_chunks in
  let m := length (mock_chunk_contents answer) in
  openai_client w = Some client ->
  stream_breaks r ->
  (forall j, send_fault w j = None) ->
  _generate_streaming_response w query context_chunks s
  = (inr tt,
     {| conversation_history :=
          history_with (conversation_history s)
            (streamed_answer_entry answer (S (m + S (p + S (clock s)))));
        sent := (sent s ++ [generating_message (clock s)]
                 ++ chunk_messages partial (S (clock s)))
                ++ mock_messages answer (p + S (clock s))%nat;
        send_count := S (m + S (p + S (send_count s)));
        clock := S (S (m + S (p + S (clock s)))) |}).
Proof.
  intros r partial p answer m Hclient Hbreaks Hok.
  unfold _generate_streaming_response. rewrite Hclient. cbv zeta.
  fold r.
  assert (Hmock : forall s0,
            _generate_mock_streaming_response w query context_chunks s0
            = (inr tt,
               {| conversation_history :=
                    history_with (conversation_history s0)
                      (streamed_answer_entry answer (S (m + S (clock s0))));
                  sent := sent s0 ++ mock_messages answer (clock s0);
                  send_count := S (m + S (send_count s0));
                  clock := S (S (m + S (clock s0))) |})).
  { intros s0. apply mock_streaming_ok. intros j _. apply Hok. }
  subst partial p. destruct r as [e|stream] eqn:Hr.
  - erewrite try_except_raise.
    2:{ rewrite emit_ok by apply Hok. reflexivity. }
    rewrite Hmock.
    cbn [conversation_history sent send_count clock delivered_before_break
         length chunk_messages Nat.add].
    rewrite app_nil_r. reflexivity.
  - cbn [stream_breaks] in Hbreaks.
    destruct (failure stream) as [e|] eqn:Hfailure; [|congruence].
    erewrite try_except_raise.
    2:{ rewrite emit_ok by apply Hok.
        change (lift (inr stream)) with (@ret Stream stream).
        unfold bind at 1. unfold ret at 1.
        apply bind_raise. unfold consume_stream.
        erewrite bind_ok by (apply stream_chunks_ok; exact Hok).
        rewrite Hfailure. reflexivity. }
    rewrite Hmock.
    cbn [conversation_history sent send_count clock delivered_before_break
         app].
    rewrite <- !app_assoc. reflexivity.
Qed.

(** X13.  With a provider whose stream breaks (on opening or while it is
    read), and every send succeeding, a streamed query sends no [error]:
    after [context], [context_found], [generating] and the pieces the
    provider delivered, it sends the whole stream of the mock answer,
    from a second [generating] to [complete], and it is the mock answer
    that the history records. *)
Theorem provider_break_falls_back (w : World) (client : OpenAIClient)
  (query : str) (user_id : option str) (s : State) :
  let r := chat_stream client SYSTEM_PROMPT (streaming_prompt w query) in
  let answer := _generate_mock_response query (relevant_chunks w query) in
  openai_client w = Some client ->
  stream_breaks r ->
  (forall j, send_fault w j = None) ->
  exists new s' t,
    process_query_streaming w query user_id s = (inr tt, s')
    /\ sent s' = sent s ++ new
    /\ map type_and_content new
       = [(py "context", None); (py "context_found", None);
          (py "generating", None)]
         ++ map (fun content => (py "chunk", Some content))
              (delivered_before_break r)
         ++ mock_stream_shape (mock_chunk_contents answer)
    /\ conversation_history s'
       = history_with
           (history_with (conversation_history s)
              (query_entry query user_id (clock s)))
           (streamed_answer_entry answer t).
Proof.
  intros r answer Hclient Hbreaks Hok.
  set (partial := delivered_before_break r).
  set (p := length partial).
  set (m := length (mock_chunk_contents answer)).
  set (c3 := S (S (S (clock s)))).
  exists ([context_message (S (clock s));
           context_found_message (length (relevant_chunks w query))
             (S (S (clock s)));
           generating_message c3]
          ++ chunk_messages partial (S c3)
          ++ mock_messages answer (p + S c3)%nat).
  exists {| conversation_history :=
              history_with
                (history_with (conversation_history s)
                   (query_entry query user_id (clock s)))
                (streamed_answer_entry answer (S (m + S (p + S c3))));
            sent := sent s
                    ++ [context_message (S (clock s));
                        context_found_message
                          (length (relevant_chunks w query))
                          (S (S (clock s)));
                        generating_message c3]
                    ++ chunk_messages partial (S c3)
                    ++ mock_messages answer (p + S c3)%nat;
            send_count := S (m + S (p + S (S (S (send_count s)))));
            clock := S (S (m + S (p + S c3))) |}.
  exists (S (m + S (p + S c3))).
  split.
  - unfold process_query_streaming. apply try_except_ok.
    erewrite bind_ok by apply _add_to_history_run.
    rewrite emit_ok by apply Hok.
    erewrite bind_ok by apply _get_relevant_context_run.
    fold (relevant_chunks w query).
    rewrite emit_ok by apply Hok.
    rewrite (provider_streaming_fallback w client query
               (relevant_chunks w query) _ Hclient Hbreaks Hok).
    fold (streaming_prompt w query). fold r. fold partial. fold p.
    fold answer. fold m.
    cbn [conversation_history sent send_count clock]. fold c3.
    f_equal. apply state_eq; try reflexivity.
    rewrite <- !app_assoc. reflexivity.
  - cbn [conversation_history sent].
    split; [reflexivity|]. split; [|reflexivity].
    cbn [app map]. f_equal. f_equal. f_equal.
    rewrite map_app, type_and_content_chunk_messages.
    rewrite type_and_content_mock_messages. reflexivity.
Qed.

Lemma provider_break_falls_back_witness :
  exists new s' t,
    process_query_streaming breaking_world (py "What is SGD?")
      (Some (py "alice")) initial_state
    = (inr tt, s')
    /\ sent s' = sent initial_state ++ new
    /\ map type_and_content new
       = [(py "context", None); (py "context_found", None);
          (py "generating", None)]
         ++ map (fun content => (py "chunk", Some content))
              (delivered_before_break
                 (chat_stream breaking_client SYSTEM_PROMPT
                    (streaming_prompt breaking_world (py "What is SGD?"))))
         ++ mock_stream_shape
              (mock_chunk_contents
                 (_generate_mock_response (py "What is SGD?")
                    (relevant_chunks breaking_world (py "What is SGD?"))))
    /\ conversation_history s'
       = history_with
           (history_with (conversation_history initial_state)
              (query_entry (py "What is SGD?") (Some (py "alice"))
                 (clock initial_state)))
           (streamed_answer_entry
              (_generate_mock_response (py "What is SGD?")
                 (relevant_chunks breaking_world (py "What is SGD?"))) t).
Proof.
  apply (provider_break_falls_back breaking_world breaking_client
           (py "What is SGD?") (Some (py "alice")) initial_state).
  - reflexivity.
  - simpl. discriminate.
  - intros j. reflexivity.
Defined.

(** X14.  [process_query_streaming] can raise: when the send of
    [context] raises and the send of the [error] message raises too, the
    second exception reaches the caller; nothing has been delivered and
    only the query has been recorded. *)
Theorem streaming_raises_when_error_cannot_be_sent (w : World) (query : str)
  (user_id : option str) (s : State) (e1 e2 : exn) :
  send_fault w (send_count s) = Some e1 ->
  send_fault w (S (send_count s)) = Some e2 ->
  process_query_streaming w query user_id s
  = (inl e2,
     {| conversation_history :=
          history_with (conversation_history s)
            (query_entry query user_id (clock s));
        sent := sent s;
        send_count := S (S (send_count s));
        clock := S (S (S (clock s))) |}).
Proof.
  intros H1 H2. unfold process_query_streaming.
  erewrite try_except_raise.
  2:{ erewrite bind_ok by apply _add_to_history_run.
      apply emit_fail. exact H1. }
  cbv zeta.
  rewrite (emit_last_fail w
             (fun t => notification (py "error") (apology e1) t) _ e2)
    by exact H2.
  reflexivity.
Qed.

Lemma streaming_raises_when_error_cannot_be_sent_witness :
  process_query_streaming closed_socket_world (py "What is SGD?")
    (Some (py "alice")) initial_state
  = (inl (py "websocket closed"),
     {| conversation_history :=
          history_with (conversation_history initial_state)
            (query_entry (py "What is SGD?") (Some (py "alice"))
               (clock initial_state));
        sent := sent initial_state;
        send_count := S (S (send_count initial_state));
        clock := S (S (S (clock initial_state))) |}).
Proof.
  apply (streaming_raises_when_error_cannot_be_sent closed_socket_world
           (py "What is SGD?") (Some (py "alice")) initial_state
           (py "websocket closed") (py "websocket closed")).
  - reflexivity.
  - reflexivity.
Defined.

(* ================================================================== *)
(** * The prompt and the batch path *)
(* ================================================================== *)

Lemma present_and_not_context (rest : str) :
  present_and_not (67%N :: rest) no_relevant_context = true.
Proof. reflexivity. Qed.

Lemma _build_context_text_head (context_chunks : list ContextChunk) :
  context_chunks <> [] ->
  exists rest, _build_context_text context_chunks = 67%N :: rest.
Proof.
  intros Hne. destruct context_chunks as [|c [|c2 more]]; [congruence|..];
    eexists; reflexivity.
Qed.

Lemma create_tutor_prompt_sections (query context : str) :
  create_tutor_prompt query context no_previous_conversation
  = (if present_and_not context no_relevant_context
     then py "Relevant course material:" ++ nl ++ context ++ nl ++ nl
     else [])
    ++ question_and_instruction query
  /\ create_tutor_prompt query context []
     = (if present_and_not context no_relevant_context
        then py "Relevant course material:" ++ nl ++ context ++ nl ++ nl
        else [])
       ++ question_and_instruction query.
Proof.
  unfold create_tutor_prompt, question_and_instruction.
  replace (present_and_not no_previous_conversation no_previous_conversation)
    with false by (vm_compute; reflexivity).
  change (present_and_not [] no_previous_conversation) with false.
  cbv iota zeta.
  destruct (present_and_not context no_relevant_context);
    cbn [app join]; rewrite <- ?app_assoc; split; reflexivity.
Qed.

(** X10.  Without earlier conversation, the prompt for the provider has
    the section ["Relevant course material:"] with the text of the
    chunks exactly when some chunk passed the relevance filter; otherwise
    it is the question and the instruction alone.  This holds for the
    prompt of the batch path and for that of the streaming path. *)
Theorem prompt_context_section (query : str)
  (context_chunks : list ContextChunk) :
  let prompt :=
    match context_chunks with
    | [] => question_and_instruction query
    | _ => py "Relevant course material:" ++ nl
           ++ _build_context_text context_chunks ++ nl ++ nl
           ++ question_and_instruction query
    end in
  create_tutor_prompt query (_build_context_text context_chunks)
    no_previous_conversation = prompt
  /\ create_tutor_prompt query (_build_context_text context_chunks) []
     = prompt.
Proof.
  cbv zeta.
  destruct (create_tutor_prompt_sections query
              (_build_context_text context_chunks)) as [Hbatch Hstream].
  rewrite Hbatch, Hstream.
  destruct context_chunks as [|c more].
  - split; reflexivity.
  - destruct (_build_context_text_head (c :: more)) as [rest Hrest];
      [discriminate|].
    rewrite Hrest, present_and_not_context.
    rewrite <- !app_assoc. split; reflexivity.
Qed.

Lemma str_eqb_refl_cons (c : char) (u : str) :
  opt_str_eqb (Some (c :: u)) (Some (c :: u)) = true.
Proof. apply opt_str_eqb_eq. reflexivity. Qed.

(** [process_query] as a state change. *)
Lemma process_query_run (w : World) (query : str) (user_id : option str)
  (conversation_history0 : option (list CallerEntry)) (s : State) :
  let answer :=
    generated_answer w query (relevant_chunks w query)
      conversation_history0 in
  process_query w query user_id conversation_history0 s
  = (inr {| response := answer; query := query; user_id := user_id;
            timestamp := S (S (clock s));
            context_chunks_used := Some (len (relevant_chunks w query));
            error := None; status := py "success" |},
     {| conversation_history :=
          history_with
            (history_with (conversation_history s)
               (query_entry query user_id (clock s)))
            (answer_entry answer user_id (S (clock s)));
        sent := sent s; send_count := send_count s;
        clock := S (S (S (clock s))) |}).
Proof.
  intros answer. unfold process_query.
  apply try_except_ok.
  erewrite bind_ok by apply _add_to_history_run.
  erewrite bind_ok by apply _get_relevant_context_run.
  erewrite bind_ok by apply _generate_llm_response_run.
  erewrite bind_ok by apply _add_to_history_run.
  erewrite bind_ok by apply now_run.
  reflexivity.
Qed.

(** X11.  A batch query and its answer are both recorded under the user
    id of the request: for a user id that is not empty, the history of
    that user ends, after [process_query], with the query and the
    answer. *)
Theorem batch_answer_recorded_for_user (w : World) (query u : str)
  (conversation_history0 : option (list CallerEntry)) (s : State) :
  u <> [] ->
  let answer :=
    generated_answer w query (relevant_chunks w query)
      conversation_history0 in
  let s' := snd (process_query w query (Some u) conversation_history0 s) in
  exists before,
    get_conversation_history s' (Some u)
    = before ++ [query_entry query (Some u) (clock s);
                 answer_entry answer (Some u) (S (clock s))].
Proof.
  intros Hu answer s'. subst s'.
  rewrite process_query_run. fold answer.
  destruct u as [|c u]; [congruence|].
  unfold get_conversation_history. cbn [snd conversation_history truthy].
  rewrite !history_with_newest, newest_app, <- app_assoc. cbn [app].
  unfold newest. rewrite skipn_app, filter_app.
  match goal with
  | |- context [skipn ?k [?q; ?a]] =>
      replace k with 0%nat by (rewrite length_app; cbn [length]; lia)
  end.
  cbn [skipn filter h_user_id query_entry answer_entry].
  rewrite !str_eqb_refl_cons.
  eexists. reflexivity.
Qed.

Lemma batch_answer_recorded_for_user_witness :
  exists before,
    get_conversation_history
      (snd (process_query mock_world (py "What is SGD?") (Some (py "alice"))
              None three_entries))
      (Some (py "alice"))
    = before
      ++ [query_entry (py "What is SGD?") (Some (py "alice"))
            (clock three_entries);
          answer_entry
            (generated_answer mock_world (py "What is SGD?")
               (relevant_chunks mock_world (py "What is SGD?")) None)
            (Some (py "alice")) (S (clock three_entries))].
Proof.
  apply (batch_answer_recorded_for_user mock_world (py "What is SGD?")
           (py "alice") None three_entries).
  discriminate.
Defined.

(** X15.  [chat_endpoint] never answers with the HTTP error 500: for
    every request it returns a [ChatResponse] with status ['success'],
    the generated answer, and the number of chunks that passed the
    relevance filter; the default 0 of a missing [context_chunks_used]
    is never what it reports. *)
Theorem chat_endpoint_succeeds (w : World) (request : ChatRequest)
  (s : State) :
  exists reply s',
    chat_endpoint w request s = (inr reply, s')
    /\ cr_status reply = py "success"
    /\ cr_response reply
       = generated_answer w (req_message request)
           (relevant_chunks w (req_message request))
           (req_conversation_history request)
    /\ cr_context_chunks_used reply
       = len (relevant_chunks w (req_message request))
    /\ cr_query reply = req_message request
    /\ cr_user_id reply = req_user_id request.
Proof.
  eexists. eexists. split.
  - unfold chat_endpoint. apply try_except_ok.
    erewrite bind_ok by apply process_query_run.
    reflexivity.
  - cbn. repeat split; reflexivity.
Qed.

(* ================================================================== *)
(** * The vector database: search results *)
(* ================================================================== *)

Lemma skipn_cons_nth_error {A : Type} (l : list A) :
  forall i x rest,
    skipn i l = x :: rest ->
    nth_error l i = Some x /\ skipn (S i) l = rest.
Proof.
  induction l as [|y l IH]; intros [|i] x rest H; simpl in *;
    try discriminate.
  - injection H as -> ->. split; reflexivity.
  - apply IH. exact H.
Qed.

Lemma first_list_item_at {A B : Type} (first : list A)
  (others : list (list A)) (i : nat) (x : A) (found : A -> B) (default : B) :
  nth_error first i = Some x ->
  first_list_item (Some (first :: others)) i found default = inr (found x).
Proof.
  intros H. unfold first_list_item, index. cbn [nonempty nth_error].
  rewrite H. reflexivity.
Qed.

Lemma similar_chunks_aligned (results : QueryResults)
  (metadatas : list Metadata) (distances : list float) (ids : list str)
  (more_m : list (list Metadata)) (more_d : list (list float))
  (more_i : list (list str)) :
  qr_metadatas results = Some (metadatas :: more_m) ->
  qr_distances results = Some (distances :: more_d) ->
  qr_ids results = Some (ids :: more_i) ->
  forall docs i,
    length (skipn i metadatas) = length docs ->
    length (skipn i distances) = length docs ->
    length (skipn i ids) = length docs ->
    similar_chunks results i docs
    = inr (aligned_chunks docs (skipn i metadatas) (skipn i distances)
             (skipn i ids)).
Proof.
  intros Hm Hd Hi.
  induction docs as [|doc docs IH]; intros i Lm Ld Li; [reflexivity|].
  cbn [similar_chunks]. unfold chunk_data. rewrite Hm, Hd, Hi.
  destruct (skipn i metadatas) as [|m ms] eqn:Em; [discriminate|].
  destruct (skipn i distances) as [|d ds] eqn:Ed; [discriminate|].
  destruct (skipn i ids) as [|id idl] eqn:Ei; [discriminate|].
  destruct (skipn_cons_nth_error _ _ _ _ Em) as [Nm Sm].
  destruct (skipn_cons_nth_error _ _ _ _ Ed) as [Nd Sd].
  destruct (skipn_cons_nth_error _ _ _ _ Ei) as [Ni Si].
  rewrite (first_list_item_at _ _ _ _ _ _ Nm).
  rewrite (first_list_item_at _ _ _ _ _ _ Nd).
  rewrite (first_list_item_at _ _ _ _ _ _ Ni).
  rewrite IH.
  - rewrite Sm, Sd, Si. reflexivity.
  - rewrite Sm. simpl in Lm. lia.
  - rewrite Sd. simpl in Ld. lia.
  - rewrite Si. simpl in Li. lia.
Qed.

(** X16.  When [collection.query] returns documents, metadatas,
    distances and ids of the same length for the query, [search_similar]
    returns one chunk per document, in the order of the result, each with
    the text, file name, distance and id at its index. *)
Theorem search_similar_aligned (docs : list str)
  (metadatas : list Metadata) (distances : list float) (ids : list str)
  (more_docs : list (list str)) (more_m : list (list Metadata))
  (more_d : list (list float)) (more_i : list (list str)) :
  length metadatas = length docs ->
  length distances = length docs ->
  length ids = length docs ->
  vdb_search_similar
    (inr {| qr_documents := Some (docs :: more_docs);
            qr_metadatas := Some (metadatas :: more_m);
            qr_distances := Some (distances :: more_d);
            qr_ids := Some (ids :: more_i) |})
  = aligned_chunks docs metadatas distances ids.
Proof.
  intros Lm Ld Li. unfold vdb_search_similar, format_results.
  cbn [qr_documents].
  destruct docs as [|doc docs]; [reflexivity|].
  erewrite similar_chunks_aligned; try reflexivity; assumption.
Qed.

Lemma search_similar_aligned_witness :
  vdb_search_similar
    (inr {| qr_documents := Some [[py "first chunk"; py "second chunk"]];
            qr_metadatas :=
              Some [[stored_metadata (py "a.txt") 11;
                     stored_metadata (py "b.txt") 12]];
            qr_distances := Some [[0.25; 0.9]%float];
            qr_ids := Some [[py "id-1"; py "id-2"]] |})
  = aligned_chunks [py "first chunk"; py "second chunk"]
      [stored_metadata (py "a.txt") 11; stored_metadata (py "b.txt") 12]
      [0.25; 0.9]%float [py "id-1"; py "id-2"].
Proof.
  apply (search_similar_aligned [py "first chunk"; py "second chunk"]
           [stored_metadata (py "a.txt") 11; stored_metadata (py "b.txt") 12]
           [0.25; 0.9]%float [py "id-1"; py "id-2"] [] [] [] []);
    reflexivity.
Defined.




Lemma similar_chunks_short (results : QueryResults)
  (distances : list float) (more_d : list (list float)) :
  qr_distances results = Some (distances :: more_d) ->
  forall docs i,
    (i <= length distances < i + length docs)%nat ->
    exists e, similar_chunks results i docs = inl e.
Proof.
  intros Hd.
  induction docs as [|doc docs IH]; intros i Hshort.
  - simpl in Hshort. lia.
  - cbn [similar_chunks].
    destruct (chunk_data results i doc) as [e|chunk] eqn:Hchunk;
      [exists e; reflexivity|].
    destruct (Nat.eq_dec i (length distances)) as [Hlast|Hmore].
    + exfalso. unfold chunk_data in Hchunk.
      destruct (first_list_item (qr_metadatas results) i m_filename None);
        [discriminate|].
      rewrite Hd in Hchunk.
      unfold first_list_item at 1, index in Hchunk.
      cbn [nonempty nth_error] in Hchunk.
      replace (nth_error distances i) with (@None float) in Hchunk
        by (symmetry; apply nth_error_None; lia).
      discriminate.
    + destruct (IH (S i)) as [e He]; [simpl in Hshort; lia|].
      rewrite He. exists e. reflexivity.
Qed.

(** X18.  A result of [collection.query] with fewer distances than
    documents loses every chunk: the [IndexError] of the missing distance
    is caught, and [search_similar] returns the empty list. *)
Theorem search_similar_short_distances (results : QueryResults)
  (docs : list str) (more_docs : list (list str))
  (distances : list float) (more_d : list (list float)) :
  qr_documents results = Some (docs :: more_docs) ->
  qr_distances results = Some (distances :: more_d) ->
  (length distances < length docs)%nat ->
  vdb_search_similar (inr results) = [].
Proof.
  intros Hdocs Hd Hshort. unfold vdb_search_similar, format_results.
  rewrite Hdocs. destruct docs as [|doc docs]; [reflexivity|].
  destruct (similar_chunks_short results distances more_d Hd (doc :: docs) 0)
    as [e He]; [lia|].
  rewrite He. reflexivity.
Qed.

Lemma search_similar_short_distances_witness :
  vdb_search_similar (inr short_distances_results) = [].
Proof.
  apply (search_similar_short_distances short_distances_results
           [py "first chunk"; py "second chunk"] [] [0.5%float] []).
  - reflexivity.
  - reflexivity.
  - simpl. lia.
Defined.

(* ================================================================== *)
(** * The vector database: the list of documents *)
(* ================================================================== *)







Lemma count_metadatas_none (metadatas : list (option Metadata)) :
  In None metadatas ->
  forall documents, exists e, count_metadatas documents metadatas = inl e.
Proof.
  induction metadatas as [|[metadata|] rest IH]; intros Hin documents.
  - destruct Hin.
  - destruct Hin as [Hin|Hin]; [discriminate|].
    cbn [count_metadatas]. apply IH. exact Hin.
  - eexists. reflexivity.
Qed.

(** X20.  One stored chunk whose metadata is [None] empties the list of
    documents: the [AttributeError] is caught and [list_documents]
    returns the empty list, whatever the other chunks are. *)
Theorem list_documents_none_metadata (metadatas : list (option Metadata)) :
  In None metadatas ->
  list_documents (inr (Some metadatas)) = [].
Proof.
  intros Hin. unfold list_documents.
  destruct (nonempty (Some metadatas)); [|reflexivity].
  destruct (count_metadatas_none metadatas Hin []) as [e He].
  rewrite He. reflexivity.
Qed.

Lemma list_documents_none_metadata_witness :
  list_documents
    (inr (Some [Some (stored_metadata (py "a.txt") 10); None;
                Some (stored_metadata (py "b.txt") 20)]))
  = [].
Proof.
  apply (list_documents_none_metadata
           [Some (stored_metadata (py "a.txt") 10); None;
            Some (stored_metadata (py "b.txt") 20)]).
  right. left. reflexivity.
Defined.

Example list_documents_three_stored :
  list_documents (inr (Some (map Some three_stored)))
  = [ {| ds_filename := py "a.txt"; ds_file_type := py ".txt";
         ds_chunk_count := 2; ds_total_size := 40 |};
      {| ds_filename := py "b.txt"; ds_file_type := py ".txt";
         ds_chunk_count := 1; ds_total_size := 20 |} ].
Proof. vm_compute. reflexivity. Qed.

(* ================================================================== *)
(** * The vector database: adding documents *)
(* ================================================================== *)

Lemma storable_texts_filter (chunks : list UploadChunk) :
  storable_texts chunks = map upload_text (filter storable chunks).
Proof.
  unfold storable_texts.
  induction chunks as [|chunk rest IH]; [reflexivity|].
  cbn [map filter]. unfold storable at 1.
  destruct (strip (upload_text chunk)); cbn [map]; rewrite IH; reflexivity.
Qed.

Lemma prepare_documents_run (uuid4 : nat -> str) (filename : str)
  (chunks : list UploadChunk) :
  forall n call,
    let prepared := prepare_documents uuid4 n filename chunks call in
    ac_documents prepared = ac_documents call ++ storable_texts chunks
    /\ ac_metadatas prepared
       = ac_metadatas call
         ++ map (upload_metadata filename) (filter storable chunks)
    /\ length (ac_ids prepared)
       = (length (ac_ids call) + length (filter storable chunks))%nat.
Proof.
  induction chunks as [|chunk rest IH]; intros n call; cbv zeta.
  - cbn. rewrite !app_nil_r. repeat split. lia.
  - rewrite storable_texts_filter.
    cbn [prepare_documents filter]. cbv zeta.
    destruct (strip (upload_text chunk)) as [|c0 r0] eqn:Hs.
    + assert (Hst : storable chunk = false)
        by (unfold storable; rewrite Hs; reflexivity).
      rewrite Hst, <- storable_texts_filter. apply IH.
    + assert (Hst : storable chunk = true)
        by (unfold storable; rewrite Hs; reflexivity).
      rewrite Hst.
      destruct (IH (S n)
                  {| ac_documents := ac_documents call ++ [upload_text chunk];
                     ac_metadatas :=
                       ac_metadatas call ++ [upload_metadata filename chunk];
                     ac_ids := ac_ids call ++ [uuid4 n] |})
        as [Hd [Hm Hi]].
      cbn [ac_documents ac_metadatas ac_ids] in Hd, Hm, Hi.
      rewrite Hd, Hm, Hi. rewrite <- !app_assoc, length_app.
      rewrite storable_texts_filter.
      cbn [app map length]. repeat split. lia.
Qed.

(** X21.  [add_documents] hands to ChromaDB exactly the chunks whose text
    is not blank, in their order, with one metadata and one id for each,
    in a single call; it makes no call when every chunk is blank, and
    returns [True] only when the call was made and did not raise. *)
Theorem add_documents_stores_nonblank (uuid4 : nat -> str)
  (collection_add : AddCall -> exn + unit) (chunks : list UploadChunk)
  (filename : str) :
  match add_documents uuid4 collection_add chunks filename with
  | (stored, None) => storable_texts chunks = [] /\ stored = false
  | (stored, Some call) =>
      storable_texts chunks <> []
      /\ ac_documents call = storable_texts chunks
      /\ ac_metadatas call
         = map (upload_metadata filename) (filter storable chunks)
      /\ length (ac_ids call) = length (ac_documents call)
      /\ stored = match collection_add call with
                  | inr _ => true
                  | inl _ => false
                  end
  end.
Proof.
  unfold add_documents. cbv zeta.
  destruct (prepare_documents_run uuid4 filename chunks 0
              {| ac_documents := []; ac_metadatas := []; ac_ids := [] |})
    as [Hd [Hm Hi]].
  cbn [ac_documents ac_metadatas ac_ids app length Nat.add] in Hd, Hm, Hi.
  set (call := prepare_documents uuid4 0 filename chunks
                 {| ac_documents := []; ac_metadatas := []; ac_ids := [] |})
    in *.
  destruct (ac_documents call) as [|d ds] eqn:Hdocs.
  - split; [symmetry; exact Hd | reflexivity].
  - assert (Hlen : length (ac_ids call) = length (ac_documents call)).
    { rewrite Hi, Hdocs, Hd, storable_texts_filter, length_map.
      reflexivity. }
    destruct (collection_add call) eqn:Hadd;
      (split; [rewrite <- Hd; discriminate|]);
      rewrite Hdocs, Hadd; rewrite Hdocs in Hlen;
      repeat split; assumption.
Qed.

Example add_documents_two_uploads :
  let (stored, call) :=
    add_documents (fun n => py "id-" ++ str_of_nat n) (fun _ => inr tt)
      two_uploads (py "notes.txt") in
  stored = true
  /\ option_map ac_documents call = Some [py "Gradient descent."]
  /\ option_map ac_ids call = Some [py "id-0"].
Proof. vm_compute. repeat split. Qed.

(* ================================================================== *)
(** * Statistics of chunks *)
(* ================================================================== *)

Lemma fold_min_le (l : list Z) :
  forall a, fold_left Z.min l a <= a
            /\ (forall x, In x l -> fold_left Z.min l a <= x)
            /\ In (fold_left Z.min l a) (a :: l).
Proof.
  induction l as [|y l IH]; intros a; cbn [fold_left].
  - split; [lia|]. split; [intros x []|left; reflexivity].
  - destruct (IH (Z.min a y)) as [Hle [Hall Hin]].
    split; [lia|]. split.
    + intros x [<-|Hx]; [lia|apply Hall; exact Hx].
    + destruct Hin as [Heq|Hin]; [|right; right; exact Hin].
      rewrite <- Heq. destruct (Z.min_spec a y) as [[_ ->]|[_ ->]];
        [left|right; left]; reflexivity.
Qed.

Lemma fold_max_ge (l : list Z) :
  forall a, a <= fold_left Z.max l a
            /\ (forall x, In x l -> x <= fold_left Z.max l a)
            /\ In (fold_left Z.max l a) (a :: l).
Proof.
  induction l as [|y l IH]; intros a; cbn [fold_left].
  - split; [lia|]. split; [intros x []|left; reflexivity].
  - destruct (IH (Z.max a y)) as [Hle [Hall Hin]].
    split; [lia|]. split.
    + intros x [<-|Hx]; [lia|apply Hall; exact Hx].
    + destruct Hin as [Heq|Hin]; [|right; right; exact Hin].
      rewrite <- Heq. destruct (Z.max_spec a y) as [[_ ->]|[_ ->]];
        [right; left|left]; reflexivity.
Qed.

Lemma total_bounds (l : list Z) (lo hi : Z) :
  (forall x, In x l -> lo <= x <= hi) ->
  len l * lo <= total l <= len l * hi.
Proof.
  induction l as [|x l IH]; intros H.
  - unfold len, total. cbn. lia.
  - unfold len, total in *. cbn [length fold_right].
    rewrite Nat2Z.inj_succ.
    pose proof (H x (or_introl eq_refl)).
    assert (forall y, In y l -> lo <= y <= hi) as Hrest
      by (intros y Hy; apply H; right; exact Hy).
    specialize (IH Hrest). nia.
Qed.

(** X22.  For a list of chunks that is not empty,
    [get_chunk_statistics] reports the number of chunks and the sum of
    the lengths of their texts; its minimum and maximum are lengths of
    chunks of the list, and the length of every chunk lies between them,
    so that the total lies between [n * min] and [n * max]. *)
Theorem chunk_statistics_bounds (chunks : list Chunk) :
  chunks <> [] ->
  let st := get_chunk_statistics chunks in
  let sizes := map (fun chunk => len (text chunk)) chunks in
  st_total_chunks st = len chunks
  /\ st_total_characters st = total sizes
  /\ In (st_min_chunk_size st) sizes
  /\ In (st_max_chunk_size st) sizes
  /\ (forall size, In size sizes ->
        st_min_chunk_size st <= size <= st_max_chunk_size st)
  /\ st_total_chunks st * st_min_chunk_size st
     <= st_total_characters st
     <= st_total_chunks st * st_max_chunk_size st.
Proof.
  intros Hne. destruct chunks as [|c rest]; [congruence|].
  cbv zeta. unfold get_chunk_statistics. cbv zeta.
  cbn [st_total_chunks st_total_characters st_min_chunk_size
       st_max_chunk_size map hd tl].
  set (first := len (text c)).
  set (others := map (fun chunk => len (text chunk)) rest).
  destruct (fold_min_le others first) as [Hmin1 [Hmin2 Hmin3]].
  destruct (fold_max_ge others first) as [Hmax1 [Hmax2 Hmax3]].
  unfold py_min, py_max.
  assert (Hall : forall size, In size (first :: others) ->
                   fold_left Z.min others first <= size
                   <= fold_left Z.max others first).
  { intros size [<-|Hin]; [lia|].
    split; [apply Hmin2|apply Hmax2]; exact Hin. }
  assert (Hlen : len (c :: rest) = len (first :: others))
    by (unfold len, others; cbn [length]; rewrite length_map; reflexivity).
  pose proof (total_bounds (first :: others) _ _ Hall) as Htotal.
  rewrite <- Hlen in Htotal.
  split; [reflexivity|]. split; [reflexivity|].
  split; [exact Hmin3|]. split; [exact Hmax3|].
  split; [exact Hall | exact Htotal].
Qed.

Lemma chunk_statistics_bounds_witness :
  st_total_chunks
    (get_chunk_statistics
       [chunk_of (py "Gradient") (py "a.txt") 0 10 0 2;
        chunk_of (py "descent.") (py "a.txt") 8 18 1 2]) = 2
  /\ st_total_characters
       (get_chunk_statistics
          [chunk_of (py "Gradient") (py "a.txt") 0 10 0 2;
           chunk_of (py "descent.") (py "a.txt") 8 18 1 2]) = 16.
Proof.
  destruct (chunk_statistics_bounds
              [chunk_of (py "Gradient") (py "a.txt") 0 10 0 2;
               chunk_of (py "descent.") (py "a.txt") 8 18 1 2])
    as [Hn [Ht _]]; [discriminate|].
  split; [exact Hn | exact Ht].
Defined.

(* ================================================================== *)
(** * From the chunker to the vector database *)
(* ================================================================== *)

Lemma strip_strip_nonempty (s : str) : strip s <> [] -> strip (strip s) <> [].
Proof.
  intros Hne Hnil. destruct (strip s) as [|c rest] eqn:Hs; [congruence|].
  pose proof (strip_head _ _ _ Hs) as Hc.
  pose proof (strip_nil_blank _ Hnil) as Hblank.
  inversion Hblank as [|? ? Hspace _]. congruence.
Qed.

Lemma chunk_text_storable (self : DocumentChunker) (fuel : nat)
  (txt source : str) (chunks : list Chunk) (file_type : option str) :
  chunk_text self fuel txt source = Some chunks ->
  filter storable (map (upload_of file_type) chunks)
  = map (upload_of file_type) chunks.
Proof.
  unfold chunk_text. intros Hrun.
  destruct (strip txt) as [|c0 r0]; [injection Hrun as <-; reflexivity|].
  destruct (chunk_loop fuel self txt source [] 0 0) as [res|] eqn:Hloop;
    [|discriminate].
  injection Hrun as <-.
  pose proof (chunk_loop_content self txt source fuel [] 0 0 res
                (Forall_nil _) Hloop) as Hall.
  rewrite map_map. generalize (len res) as n. intros n. clear Hloop.
  induction Hall as [|c rest [Htext [Hne _]] _ IH]; [reflexivity|].
  cbn [map filter]. rewrite IH.
  unfold storable, upload_of, upload_text at 1.
  cbn [u_text set_total_chunks text].
  destruct (strip (text c)) eqn:Hs; [|reflexivity].
  exfalso. rewrite Htext in Hs, Hne.
  exact (strip_strip_nonempty _ Hne Hs).
Qed.

(** X23.  Nothing the chunker produces is dropped on the way to the
    database: [add_documents], given the chunks of a text that
    [chunk_text] cut into at least one chunk, makes its one call with
    the texts of all the chunks in their order, and with their numbers
    and positions as metadata. *)
Theorem chunker_output_is_all_stored (self : DocumentChunker) (fuel : nat)
  (txt source filename : str) (chunks : list Chunk)
  (file_type : option str) (uuid4 : nat -> str)
  (collection_add : AddCall -> exn + unit) :
  chunk_text self fuel txt source = Some chunks ->
  chunks <> [] ->
  exists call,
    snd (add_documents uuid4 collection_add
           (map (upload_of file_type) chunks) filename) = Some call
    /\ ac_documents call = map text chunks
    /\ map m_chunk_id (ac_metadatas call)
       = map (fun c => Some (chunk_id c)) chunks
    /\ map m_start_pos (ac_metadatas call)
       = map (fun c => Some (start_pos c)) chunks
    /\ map m_end_pos (ac_metadatas call)
       = map (fun c => Some (end_pos c)) chunks
    /\ length (ac_ids call) = length chunks.
Proof.
  intros Hrun Hne.
  pose proof (chunk_text_storable self fuel txt source chunks file_type Hrun)
    as Hall.
  unfold add_documents. cbv zeta.
  destruct (prepare_documents_run uuid4 filename
              (map (upload_of file_type) chunks) 0
              {| ac_documents := []; ac_metadatas := []; ac_ids := [] |})
    as [Hd [Hm Hi]].
  cbn [ac_documents ac_metadatas ac_ids app length Nat.add] in Hd, Hm, Hi.
  rewrite storable_texts_filter in Hd. rewrite Hall in Hd, Hm, Hi.
  rewrite !map_map in Hd, Hm. rewrite length_map in Hi.
  set (call := prepare_documents uuid4 0 filename
                 (map (upload_of file_type) chunks)
                 {| ac_documents := []; ac_metadatas := []; ac_ids := [] |})
    in *.
  assert (Hdocs : ac_documents call = map text chunks) by exact Hd.
  exists call. split.
  - destruct (ac_documents call) as [|d ds] eqn:Hdc.
    + destruct chunks; [congruence|discriminate].
    + destruct (collection_add call); reflexivity.
  - split; [exact Hdocs|]. rewrite Hm, !map_map.
    repeat split; try reflexivity. exact Hi.
Qed.

Lemma chunker_output_is_all_stored_witness :
  exists call,
    snd (add_documents (fun n => py "id-" ++ str_of_nat n) (fun _ => inr tt)
           (map (upload_of (Some (py ".txt")))
              [chunk_of (py "Gradient descent.") (py "notes.txt") 0 1000 0 1])
           (py "notes.txt")) = Some call
    /\ ac_documents call = [py "Gradient descent."].
Proof.
  destruct (chunker_output_is_all_stored default_chunker 1
              (py "  Gradient descent. ") (py "notes.txt") (py "notes.txt")
              [chunk_of (py "Gradient descent.") (py "notes.txt") 0 1000 0 1]
              (Some (py ".txt")) (fun n => py "id-" ++ str_of_nat n)
              (fun _ => inr tt))
    as [call [Hcall [Hdocs _]]];
    [vm_compute; reflexivity | discriminate |].
  exists call. split; [exact Hcall | exact Hdocs].
Defined.

(* ================================================================== *)
(** * main.py: the connection manager *)
(* ================================================================== *)

Lemma list_remove_absent (l : list WebSocket) (ws : WebSocket) :
  ~ In ws l -> list_remove l ws = inl (py "list.remove(x): x not in list").
Proof.
  induction l as [|y l IH]; intros Hnot; [reflexivity|].
  cbn [list_remove].
  destruct (Nat.eqb_spec y ws) as [->|Hneq];
    [exfalso; apply Hnot; left; reflexivity|].
  rewrite IH; [reflexivity|]. intros Hin. apply Hnot. right. exact Hin.
Qed.

Lemma list_remove_first (before after : list WebSocket) (ws : WebSocket) :
  ~ In ws before ->
  list_remove (before ++ ws :: after) ws = inr (before ++ after).
Proof.
  induction before as [|y before IH]; intros Hnot.
  - cbn [app list_remove]. rewrite Nat.eqb_refl. reflexivity.
  - cbn [app list_remove].
    destruct (Nat.eqb_spec y ws) as [->|Hneq];
      [exfalso; apply Hnot; left; reflexivity|].
    rewrite IH; [reflexivity|]. intros Hin. apply Hnot. right. exact Hin.
Qed.

Lemma list_remove_present (l : list WebSocket) (ws : WebSocket) :
  In ws l -> exists rest, list_remove l ws = inr rest.
Proof.
  induction l as [|y l IH]; intros Hin; [destruct Hin|].
  cbn [list_remove].
  destruct (Nat.eqb_spec y ws) as [->|Hneq]; [eexists; reflexivity|].
  destruct Hin as [Heq|Hin]; [congruence|].
  destruct (IH Hin) as [rest ->]. eexists. reflexivity.
Qed.

(** X24.  [disconnect] raises (the [ValueError] of [list.remove]) exactly
    when the websocket is not among the active connections: a second
    [disconnect] of the same connection raises. *)
Theorem disconnect_raises_iff_absent (active_connections : list WebSocket)
  (ws : WebSocket) :
  (exists e, disconnect active_connections ws = inl e)
  <-> ~ In ws active_connections.
Proof.
  unfold disconnect. split.
  - intros [e He] Hin.
    destruct (list_remove_present _ _ Hin) as [rest Hrest]. congruence.
  - intros Hnot. eexists. apply list_remove_absent. exact Hnot.
Qed.

(** X25.  [disconnect] removes one registration only, the oldest: the
    connections before the first occurrence of the websocket and all
    those after it stay, in their order.  So [connect] followed by
    [disconnect] gives back the connections there were, for a websocket
    that was not connected before. *)
Theorem disconnect_removes_first (before after : list WebSocket)
  (ws : WebSocket) :
  ~ In ws before ->
  disconnect (before ++ ws :: after) ws = inr (before ++ after)
  /\ disconnect (connect before ws) ws = inr before.
Proof.
  intros Hnot. unfold disconnect, connect. split.
  - apply list_remove_first. exact Hnot.
  - rewrite (list_remove_first before [] ws Hnot).
    rewrite app_nil_r. reflexivity.
Qed.

Lemma disconnect_removes_first_witness :
  disconnect ([1; 2] ++ 3 :: [4; 3])%nat 3%nat = inr [1; 2; 4; 3]%nat.
Proof.
  apply (disconnect_removes_first [1; 2]%nat [4; 3]%nat 3%nat).
  intros [H|[H|[]]]; discriminate.
Defined.

(** X26.  [broadcast] sends in the order of connection and stops at the
    first connection whose send raises: the connections before it have
    received the message, those after it have not, and the exception
    leaves [broadcast]. *)
Theorem broadcast_stops_at_first_failure
  (send_text : WebSocket -> exn + unit) (before after : list WebSocket)
  (ws : WebSocket) (e : exn) :
  (forall c, In c before -> send_text c = inr tt) ->
  send_text ws = inl e ->
  broadcast send_text (before ++ ws :: after) = (inl e, before).
Proof.
  intros Hok Hfail. induction before as [|c before IH].
  - cbn [app broadcast]. rewrite Hfail. reflexivity.
  - cbn [app broadcast]. rewrite (Hok c (or_introl eq_refl)).
    rewrite IH; [reflexivity|]. intros c' Hin. apply Hok. right. exact Hin.
Qed.

Lemma broadcast_stops_at_first_failure_witness :
  broadcast (fun c => if Nat.eqb c 2 then inl (py "closed") else inr tt)
    ([0; 1] ++ 2 :: [3])%nat
  = (inl (py "closed"), [0; 1]%nat).
Proof.
  apply (broadcast_stops_at_first_failure
           (fun c => if Nat.eqb c 2 then inl (py "closed") else inr tt)
           [0; 1]%nat [3]%nat 2%nat (py "closed")).
  - intros c [<-|[<-|[]]]; reflexivity.
  - reflexivity.
Defined.

(* ================================================================== *)
(** * Learning suggestions *)
(* ================================================================== *)


